(** * EdgeX maker-order trading bot ([runbot.py]): model and properties

    A shallow embedding of the risk, volatility, order-lifecycle and
    reconciliation logic of [runbot.py], followed by the properties proved
    of it.

    Conventions of the model.
    - Python floats are idealised as exact rationals [Q]; comparisons are
      the boolean comparisons of [Q].  Rounding error, infinities and NaN
      are outside the model.
    - Exchange payloads are the parsed JSON values of type [pyval]; the
      operations of Python used on them ([in], [.get], subscripting,
      [len], truthiness, [float], iteration) are modelled with the
      exceptions they raise.  [float] on text and [json.loads] are
      parameters.
    - The exchange is a queue of responses, consumed one per awaited call;
      every call is appended to a trace.  The wait on the fill signal is
      such a call, answered by the signal or by a timeout.
    - [time.time()] reads the field [now] of the world, [random.random()]
      is an argument, and [asyncio.sleep] is left out.
    - An [except Exception] clause is a handler for every exception of the
      model; state changed before an exception stays changed.
    - Logging is left out: log calls do not change any value the
      properties below talk about. *)

From Stdlib Require Import QArith Qabs Qround Lqa Lia ZArith List String Ascii Bool.
Import ListNotations.

Set Warnings "-register-all".

Open Scope Q_scope.

(** ** Boolean comparisons on rationals *)

Definition Qltb (x y : Q) : bool := negb (Qle_bool y x).
Definition Qgtb (x y : Q) : bool := Qltb y x.
Definition Qgeb (x y : Q) : bool := Qle_bool y x.

(** Python's two-argument [min]: the second argument only when strictly smaller. *)
Definition py_min (a b : Q) : Q := if Qltb b a then b else a.

(** ** Python values and the operations the bot applies to payloads *)

Module Py.

Inductive pyexn : Type :=
| AttributeError
| KeyError
| TypeError
| ValueError
| IndexError
| ZeroDivisionError
| UnboundLocalError
| TimeoutError
| ApiError.

Inductive outcome (A : Type) : Type :=
| Ret (a : A)
| Raise (e : pyexn).
Arguments Ret {A} a.
Arguments Raise {A} e.

Definition obind {A B : Type} (o : outcome A) (k : A -> outcome B) : outcome B :=
  match o with
  | Ret a => k a
  | Raise e => Raise e
  end.

Inductive pyval : Type :=
| VNone
| VBool (b : bool)
| VNum (q : Q)
| VStr (s : string)
| VList (l : list pyval)
| VDict (d : list (string * pyval)).

(** Dictionary lookup: the first binding of the key. *)
Fixpoint lookup (k : string) (d : list (string * pyval)) : option pyval :=
  match d with
  | [] => None
  | (k', v) :: d' => if String.eqb k k' then Some v else lookup k d'
  end.

(** [bool(v)]. *)
Definition truthy (v : pyval) : bool :=
  match v with
  | VNone => false
  | VBool b => b
  | VNum q => negb (Qeq_bool q 0)
  | VStr s => negb (String.eqb s EmptyString)
  | VList l => match l with [] => false | _ => true end
  | VDict d => match d with [] => false | _ => true end
  end.

Definition is_dict (v : pyval) : bool :=
  match v with VDict _ => true | _ => false end.

Definition is_list (v : pyval) : bool :=
  match v with VList _ => true | _ => false end.

(** [v == s] for a string literal [s]. *)
Definition eq_str (v : pyval) (s : string) : bool :=
  match v with VStr t => String.eqb t s | _ => false end.

(** Substring test, for [k in v] when [v] is a string. *)
Fixpoint substring_in (k s : string) : bool :=
  if String.prefix k s then true
  else match s with
       | EmptyString => false
       | String _ s' => substring_in k s'
       end.

(** [k in v] for a string literal [k]. *)
Definition contains (k : string) (v : pyval) : outcome bool :=
  match v with
  | VDict d => Ret (match lookup k d with Some _ => true | None => false end)
  | VList l => Ret (existsb (fun x => eq_str x k) l)
  | VStr s => Ret (substring_in k s)
  | _ => Raise TypeError
  end.

(** [v.get(k, default)]. *)
Definition get (v : pyval) (k : string) (default : pyval) : outcome pyval :=
  match v with
  | VDict d => Ret (match lookup k d with Some x => x | None => default end)
  | _ => Raise AttributeError
  end.

(** [v[k]] for a string literal [k]. *)
Definition item (v : pyval) (k : string) : outcome pyval :=
  match v with
  | VDict d => match lookup k d with Some x => Ret x | None => Raise KeyError end
  | _ => Raise TypeError
  end.

(** [v[i]] for an integer index [i >= 0]. *)
Definition index (v : pyval) (i : nat) : outcome pyval :=
  match v with
  | VList l => match nth_error l i with Some x => Ret x | None => Raise IndexError end
  | VStr s => match String.get i s with
              | Some c => Ret (VStr (String c EmptyString))
              | None => Raise IndexError
              end
  | VDict _ => Raise KeyError
  | _ => Raise TypeError
  end.

(** [len(v)]. *)
Definition len (v : pyval) : outcome nat :=
  match v with
  | VList l => Ret (List.length l)
  | VStr s => Ret (String.length s)
  | VDict d => Ret (List.length d)
  | _ => Raise TypeError
  end.

(** The values a [for] loop over [v] visits. *)
Definition iter (v : pyval) : outcome (list pyval) :=
  match v with
  | VList l => Ret l
  | VDict d => Ret (map (fun kv => VStr (fst kv)) d)
  | VStr s => Ret (map (fun c => VStr (String c EmptyString)) (list_ascii_of_string s))
  | _ => Raise TypeError
  end.

Definition upper_ascii (c : ascii) : ascii :=
  let n := nat_of_ascii c in
  if andb (97 <=? n)%nat (n <=? 122)%nat then ascii_of_nat (n - 32) else c.

Definition lower_ascii (c : ascii) : ascii :=
  let n := nat_of_ascii c in
  if andb (65 <=? n)%nat (n <=? 90)%nat then ascii_of_nat (n + 32) else c.

Fixpoint map_string (f : ascii -> ascii) (s : string) : string :=
  match s with
  | EmptyString => EmptyString
  | String c s' => String (f c) (map_string f s')
  end.

(** [s.upper()] and [s.lower()] on ASCII text. *)
Definition str_upper : string -> string := map_string upper_ascii.
Definition str_lower : string -> string := map_string lower_ascii.

Definition upper (v : pyval) : outcome string :=
  match v with VStr s => Ret (str_upper s) | _ => Raise AttributeError end.

Definition lower (v : pyval) : outcome string :=
  match v with VStr s => Ret (str_lower s) | _ => Raise AttributeError end.

Section Float.

(** Python's [float] on a string is a builtin; its reading of text is a
    parameter of the model ([None] when it raises [ValueError]). *)
Variable float_of_string : string -> option Q.

(** [float(v)]. *)
Definition float (v : pyval) : outcome Q :=
  match v with
  | VNum q => Ret q
  | VBool b => Ret (if b then 1 else 0)
  | VStr s => match float_of_string s with Some q => Ret q | None => Raise ValueError end
  | _ => Raise TypeError
  end.

End Float.

End Py.

Import Py.

(** A reading of plain decimal text, used to instantiate [float_of_string]
    in concrete runs: optional sign, digits, optional fraction. *)
Module Decimal.

Definition digit_of (c : ascii) : option Z :=
  let n := nat_of_ascii c in
  if andb (48 <=? n)%nat (n <=? 57)%nat then Some (Z.of_nat (n - 48)) else None.

(** Digits read so far as [num / den]; [den] is a power of ten once the
    point has been passed. *)
Fixpoint digits (s : string) (seen_point : bool) (num : Z) (den : positive)
  (any : bool) : option Q :=
  match s with
  | EmptyString => if any then Some (num # den) else None
  | String c s' =>
      if Ascii.eqb c "."%char then
        if seen_point then None else digits s' true num den any
      else
        match digit_of c with
        | Some d =>
            digits s' seen_point (10 * num + d)%Z
                   (if seen_point then (10 * den)%positive else den) true
        | None => None
        end
  end.

Definition parse (s : string) : option Q :=
  match s with
  | String "-"%char s' =>
      match digits s' false 0%Z 1%positive false with
      | Some q => Some (- q)
      | None => None
      end
  | String "+"%char s' => digits s' false 0%Z 1%positive false
  | _ => digits s false 0%Z 1%positive false
  end.

End Decimal.

(** ** The inventory manager ([LowCostInventoryManager]) *)

Module Inventory.

Inductive strategy : Type :=
| normal
| reduce_same_side
| opposite_only
| pause.

(** [self.inventory_layers]. *)
Record layers : Type := {
  safe : Q;
  caution : Q;
  danger : Q;
  emergency : Q
}.

Definition inventory_layers (base_quantity : Q) : layers :=
  {| safe := 2 * base_quantity;
     caution := 4 * base_quantity;
     danger := 6 * base_quantity;
     emergency := 8 * base_quantity |}.

Definition get_trading_strategy (base_quantity current_inventory : Q) : strategy :=
  let abs_inventory := Qabs current_inventory in
  if Qltb abs_inventory (safe (inventory_layers base_quantity)) then normal
  else if Qltb abs_inventory (caution (inventory_layers base_quantity)) then reduce_same_side
  else if Qltb abs_inventory (danger (inventory_layers base_quantity)) then opposite_only
  else pause.

Definition get_inventory_direction_bias (base_quantity current_inventory : Q)
  : option string :=
  if Qgtb current_inventory (base_quantity * 2) then Some "sell"%string
  else if Qltb current_inventory (- base_quantity * 2) then Some "buy"%string
  else None.

Definition should_emergency_hedge (base_quantity current_inventory : Q) : bool :=
  Qgtb (Qabs current_inventory) (emergency (inventory_layers base_quantity)).

Definition get_hedge_batch_size (base_quantity current_inventory : Q) : Q :=
  let abs_inventory := Qabs current_inventory in
  py_min (base_quantity * 3) abs_inventory.

(** The five risk tiers.  The code has no single classifier: the main loop
    asks [should_emergency_hedge] first and [get_trading_strategy] after
    it, and [risk_tier] composes the two in that order. *)
Inductive RiskTier : Type :=
| NORMAL
| REDUCE_SAME_SIDE
| OPPOSITE_ONLY
| PAUSE
| EMERGENCY.

Definition tier_of_strategy (s : strategy) : RiskTier :=
  match s with
  | normal => NORMAL
  | reduce_same_side => REDUCE_SAME_SIDE
  | opposite_only => OPPOSITE_ONLY
  | pause => PAUSE
  end.

Definition risk_tier (base_quantity current_inventory : Q) : RiskTier :=
  if should_emergency_hedge base_quantity current_inventory then EMERGENCY
  else tier_of_strategy (get_trading_strategy base_quantity current_inventory).

End Inventory.

(** ** The exchange, the configuration and the bot's state *)

Module Bot.

Inductive OrderSide : Type :=
| BUY
| SELL.

(** [side.value]. *)
Definition side_value (s : OrderSide) : string :=
  match s with BUY => "BUY"%string | SELL => "SELL"%string end.

(** The calls the bot makes to the exchange client, and the one wait on
    the fill signal; each consumes the next response of the queue. *)
Inductive Call : Type :=
| GetOrderBookDepth (contract_id : string) (limit : nat)
| CreateLimitOrder (contract_id : string) (size price : Q) (side : OrderSide)
    (post_only : bool)
| CancelOrder (order_id : pyval)
| GetOrderById (order_id : pyval)
| GetActiveOrders
| GetAccountPositions
| Get24HourQuote (contract_id : string)
| WaitOrderFilled (timeout : Q).

Record TradingConfig : Type := {
  contract_id : string;
  quantity : Q;
  take_profit_percentage : Q;
  direction : string;
  max_orders : Z;
  wait_time : Q
}.

Definition close_order_side (config : TradingConfig) : string :=
  if String.eqb (direction config) "sell" then "buy"%string else "sell"%string.

(** The entry of [app_config['contracts']] for the traded contract, with
    the defaults of the code already applied. *)
Record ContractConfig : Type := {
  price_delta : Q;
  step_size : Q
}.

(** One record of [btc_price_history]. *)
Record PriceSample : Type := {
  price : Q;
  timestamp : Q
}.

(** The mutable fields of [EdgeXTradingBot]. *)
Record BotState : Type := {
  active_close_orders : list pyval;
  last_close_orders : Z;
  last_open_order_time : Q;
  last_log_time : Q;
  current_order_status : string;
  order_filled_event : bool;
  shutdown_requested : bool;
  btc_price_history : list PriceSample
}.

Definition set_active_close_orders (l : list pyval) (b : BotState) : BotState :=
  {| active_close_orders := l;
     last_close_orders := last_close_orders b;
     last_open_order_time := last_open_order_time b;
     last_log_time := last_log_time b;
     current_order_status := current_order_status b;
     order_filled_event := order_filled_event b;
     shutdown_requested := shutdown_requested b;
     btc_price_history := btc_price_history b |}.

Definition set_last_close_orders (n : Z) (b : BotState) : BotState :=
  {| active_close_orders := active_close_orders b;
     last_close_orders := n;
     last_open_order_time := last_open_order_time b;
     last_log_time := last_log_time b;
     current_order_status := current_order_status b;
     order_filled_event := order_filled_event b;
     shutdown_requested := shutdown_requested b;
     btc_price_history := btc_price_history b |}.

Definition set_last_open_order_time (t : Q) (b : BotState) : BotState :=
  {| active_close_orders := active_close_orders b;
     last_close_orders := last_close_orders b;
     last_open_order_time := t;
     last_log_time := last_log_time b;
     current_order_status := current_order_status b;
     order_filled_event := order_filled_event b;
     shutdown_requested := shutdown_requested b;
     btc_price_history := btc_price_history b |}.

Definition set_last_log_time (t : Q) (b : BotState) : BotState :=
  {| active_close_orders := active_close_orders b;
     last_close_orders := last_close_orders b;
     last_open_order_time := last_open_order_time b;
     last_log_time := t;
     current_order_status := current_order_status b;
     order_filled_event := order_filled_event b;
     shutdown_requested := shutdown_requested b;
     btc_price_history := btc_price_history b |}.

Definition set_current_order_status (s : string) (b : BotState) : BotState :=
  {| active_close_orders := active_close_orders b;
     last_close_orders := last_close_orders b;
     last_open_order_time := last_open_order_time b;
     last_log_time := last_log_time b;
     current_order_status := s;
     order_filled_event := order_filled_event b;
     shutdown_requested := shutdown_requested b;
     btc_price_history := btc_price_history b |}.

Definition set_order_filled_event (e : bool) (b : BotState) : BotState :=
  {| active_close_orders := active_close_orders b;
     last_close_orders := last_close_orders b;
     last_open_order_time := last_open_order_time b;
     last_log_time := last_log_time b;
     current_order_status := current_order_status b;
     order_filled_event := e;
     shutdown_requested := shutdown_requested b;
     btc_price_history := btc_price_history b |}.

Definition set_shutdown_requested (s : bool) (b : BotState) : BotState :=
  {| active_close_orders := active_close_orders b;
     last_close_orders := last_close_orders b;
     last_open_order_time := last_open_order_time b;
     last_log_time := last_log_time b;
     current_order_status := current_order_status b;
     order_filled_event := order_filled_event b;
     shutdown_requested := s;
     btc_price_history := btc_price_history b |}.

Definition set_btc_price_history (h : list PriceSample) (b : BotState) : BotState :=
  {| active_close_orders := active_close_orders b;
     last_close_orders := last_close_orders b;
     last_open_order_time := last_open_order_time b;
     last_log_time := last_log_time b;
     current_order_status := current_order_status b;
     order_filled_event := order_filled_event b;
     shutdown_requested := shutdown_requested b;
     btc_price_history := h |}.

(** The state every function runs in: the responses the exchange will
    give, the calls made so far (oldest first), the clock reading of
    [time.time()], and the bot's fields. *)
Record World : Type := {
  responses : list (outcome pyval);
  calls : list Call;
  now : Q;
  bot : BotState
}.

(** A computation may change the world and either returns or raises; an
    exception does not undo the changes made before it. *)
Definition M (A : Type) : Type := World -> outcome A * World.

Definition ret {A : Type} (a : A) : M A := fun w => (Ret a, w).

Definition bind {A B : Type} (m : M A) (k : A -> M B) : M B :=
  fun w =>
    match m w with
    | (Ret a, w') => k a w'
    | (Raise e, w') => (Raise e, w')
    end.

Definition lift {A : Type} (o : outcome A) : M A := fun w => (o, w).

(** [try: body except Exception as e: handler e]. *)
Definition try_except {A : Type} (body : M A) (handler : pyexn -> M A) : M A :=
  fun w =>
    match body w with
    | (Ret a, w') => (Ret a, w')
    | (Raise e, w') => handler e w'
    end.

(** An awaited call: logged in the trace, answered by the head of the
    queue; an exhausted queue is a failed request. *)
Definition call (c : Call) : M pyval :=
  fun w =>
    match responses w with
    | [] =>
        (Raise ApiError,
         {| responses := []; calls := calls w ++ [c]; now := now w; bot := bot w |})
    | r :: rs =>
        (r, {| responses := rs; calls := calls w ++ [c]; now := now w; bot := bot w |})
    end.

Definition get_bot : M BotState := fun w => (Ret (bot w), w).

Definition update_bot (f : BotState -> BotState) : M unit :=
  fun w =>
    (Ret tt,
     {| responses := responses w; calls := calls w; now := now w; bot := f (bot w) |}).

Definition time_time : M Q := fun w => (Ret (now w), w).

(** A computation only appends to the trace of calls. *)
Definition grows {A : Type} (m : M A) : Prop :=
  forall w, exists l, calls (snd (m w)) = calls w ++ l.

Declare Scope bot_scope.
Delimit Scope bot_scope with bot.
Notation "x <- m ;; k" := (bind m (fun x => k))
  (at level 61, m at next level, right associativity) : bot_scope.
Notation "m ;;; k" := (bind m (fun _ => k))
  (at level 61, right associativity) : bot_scope.
Open Scope bot_scope.

(** ** Results of the order functions *)

(** The [err_msg] of a failure result; formatted messages keep their
    arguments. *)
Inductive err_msg : Type :=
| ErrText (msg : string)
| ErrRejectedAfter (what : string) (max_retries : nat)
| ErrUnexpectedStatus (what : string) (status : pyval)
| ErrException (e : pyexn).

(** The ['data'] of a success result; [r_status] is absent when the order
    information could not be read back. *)
Record order_data : Type := {
  r_order_id : pyval;
  r_side : string;
  r_size : Q;
  r_price : Q;
  r_status : option pyval;
  r_type : option string
}.

(** [{'status': 'ok', 'data': ...}] or [{'status': 'error', 'err_msg': ...}]. *)
Inductive result : Type :=
| Ok (data : order_data)
| Error (msg : err_msg).

Definition is_ok (r : result) : bool :=
  match r with Ok _ => true | Error _ => false end.

(** What one pass through a retry loop decides. *)
Inductive ctl : Type :=
| Continue
| Return (r : result).

(** ** Rounding *)

(** [round(x)]: nearest integer, ties to even. *)
Definition py_round (x : Q) : Z :=
  let f := Qfloor x in
  match Qcompare (x - inject_Z f) (1 # 2) with
  | Lt => f
  | Gt => (f + 1)%Z
  | Eq => if Z.even f then f else (f + 1)%Z
  end.

(** [round(x, ndigits)]. *)
Definition py_round_ndigits (x : Q) (ndigits : nat) : Q :=
  let scale := inject_Z (10 ^ Z.of_nat ndigits) in
  inject_Z (py_round (x * scale)) / scale.

Definition round_price_to_step (price step_size : Q) : Q :=
  if Qle_bool step_size 0 then price
  else if Qeq_bool step_size (1 # 10) then
    py_round_ndigits (inject_Z (py_round (price / step_size)) * step_size) 1
  else if Qeq_bool step_size (1 # 100) then
    py_round_ndigits (inject_Z (py_round (price / step_size)) * step_size) 2
  else
    py_round_ndigits (inject_Z (py_round (price / step_size)) * step_size) 8.

Definition max_retries : nat := 15.

Section WithConfig.

Variable float_of_string : string -> option Q.
Variable config : TradingConfig.
Variable contract_config : ContractConfig.

Abbreviation float := (Py.float float_of_string).

(** ** Reading orders back *)

(** [get_order_info]: [Some d] stands for [{'data': d}], [None] for [{}]. *)
Definition get_order_info (order_id : pyval) : M (option pyval) :=
  try_except
    (order_result <- call (GetOrderById order_id) ;;
     if negb (truthy order_result) then ret None
     else
       has_data <- lift (contains "data" order_result) ;;
       if negb has_data then ret None
       else
         order_list <- lift (item order_result "data") ;;
         if truthy order_list then
           n <- lift (len order_list) ;;
           if (0 <? n)%nat then
             first <- lift (index order_list 0) ;;
             ret (Some first)
           else ret None
         else ret None)
    (fun _ => ret None).

(** [float(levels[0]['price']) if levels and len(levels) > 0 else 0]. *)
Definition best_price (levels : pyval) : outcome Q :=
  if truthy levels then
    obind (len levels) (fun n =>
      if (0 <? n)%nat then
        obind (index levels 0) (fun level =>
          obind (item level "price") (fun p => float p))
      else Ret 0)
  else Ret 0.

(** [status in ['OPEN', 'PARTIALLY_FILLED', 'FILLED']]. *)
Definition status_placed (status : pyval) : bool :=
  eq_str status "OPEN" || eq_str status "PARTIALLY_FILLED" || eq_str status "FILLED".

(** ** [place_open_order] *)

(** The body of the [try] of one pass of the loop. *)
Definition open_attempt_body (contract_id : string) (quantity : Q)
  (direction : string) (retry_count : nat) : M ctl :=
  order_book <- call (GetOrderBookDepth contract_id 15) ;;
  has_data <- lift (if is_dict order_book then contains "data" order_book
                    else Ret false) ;;
  if negb (is_dict order_book) || negb has_data then
    ret (Return (Error (ErrText "Unexpected order book response format")))
  else
    order_book_data <- lift (item order_book "data") ;;
    n <- lift (if is_list order_book_data then len order_book_data else Ret O) ;;
    if negb (is_list order_book_data) || (n =? 0)%nat then
      ret (Return (Error (ErrText "Order book data is not a valid list")))
    else
      order_book_entry <- lift (index order_book_data 0) ;;
      if negb (is_dict order_book_entry) then
        ret (Return (Error (ErrText "Order book entry is not a dict")))
      else
        bids <- lift (get order_book_entry "bids" (VList [])) ;;
        asks <- lift (get order_book_entry "asks" (VList [])) ;;
        if negb (truthy bids) || negb (truthy asks) then
          ret (Return (Error (ErrText "No bid/ask data available")))
        else
          best_bid <- lift (best_price bids) ;;
          best_ask <- lift (best_price asks) ;;
          if Qle_bool best_bid 0 || Qle_bool best_ask 0 then
            ret (Return (Error (ErrText "Invalid bid/ask prices")))
          else
            let '(order_price, side) :=
              if String.eqb direction "buy"
              then (best_ask - price_delta contract_config, BUY)
              else (best_bid + price_delta contract_config, SELL) in
            let order_price :=
              round_price_to_step order_price (step_size contract_config) in
            order_result <-
              call (CreateLimitOrder contract_id quantity order_price side true) ;;
            has_data <- lift (if truthy order_result
                              then contains "data" order_result else Ret false) ;;
            if negb (truthy order_result) || negb has_data then
              ret (Return (Error (ErrText "Failed to place order")))
            else
              data <- lift (item order_result "data") ;;
              order_id <- lift (get data "orderId" VNone) ;;
              if negb (truthy order_id) then
                ret (Return (Error (ErrText "No order ID in response")))
              else
                order_info <- get_order_info order_id ;;
                match order_info with
                | Some order_data =>
                    status <- lift (get order_data "status" VNone) ;;
                    if eq_str status "CANCELED" then
                      if (retry_count <? max_retries - 1)%nat then ret Continue
                      else ret (Return (Error (ErrRejectedAfter "Order" max_retries)))
                    else if status_placed status then
                      ret (Return (Ok {| r_order_id := order_id;
                                         r_side := side_value side;
                                         r_size := quantity;
                                         r_price := order_price;
                                         r_status := Some status;
                                         r_type := None |}))
                    else
                      ret (Return (Error (ErrUnexpectedStatus "order" status)))
                | None =>
                    ret (Return (Ok {| r_order_id := order_id;
                                       r_side := side_value side;
                                       r_size := quantity;
                                       r_price := order_price;
                                       r_status := None;
                                       r_type := None |}))
                end.

(** One pass: the body, and the [except] clause that retries or gives up. *)
Definition open_attempt (contract_id : string) (quantity : Q)
  (direction : string) (retry_count : nat) : M ctl :=
  try_except
    (open_attempt_body contract_id quantity direction retry_count)
    (fun e =>
       if (retry_count <? max_retries - 1)%nat then ret Continue
       else ret (Return (Error (ErrException e)))).

(** [while retry_count < max_retries]: every [continue] follows
    [retry_count += 1], so the loop is a recursion on
    [remaining = max_retries - retry_count]; [remaining = 0] is the loop
    condition turning false. *)
Fixpoint place_open_order_loop (contract_id : string) (quantity : Q)
  (direction : string) (remaining : nat) : M result :=
  match remaining with
  | O => ret (Error (ErrText "Max retries exceeded"))
  | S remaining' =>
      c <- open_attempt contract_id quantity direction (max_retries - remaining) ;;
      match c with
      | Continue => place_open_order_loop contract_id quantity direction remaining'
      | Return r => ret r
      end
  end.

Definition place_open_order (contract_id : string) (quantity : Q)
  (direction : string) : M result :=
  place_open_order_loop contract_id quantity direction max_retries.

(** ** [place_close_order] *)

Definition close_attempt_body (contract_id : string) (quantity price : Q)
  (side : string) (retry_count : nat) : M ctl :=
  order_book <- call (GetOrderBookDepth contract_id 15) ;;
  has_data <- lift (if is_dict order_book then contains "data" order_book
                    else Ret false) ;;
  if negb (is_dict order_book) || negb has_data then
    ret (Return (Error (ErrText "Failed to get order book")))
  else
    order_book_data <- lift (item order_book "data") ;;
    n <- lift (if is_list order_book_data then len order_book_data else Ret O) ;;
    if negb (is_list order_book_data) || (n =? 0)%nat then
      ret (Return (Error (ErrText "Invalid order book data")))
    else
      order_book_entry <- lift (index order_book_data 0) ;;
      bids <- lift (get order_book_entry "bids" (VList [])) ;;
      asks <- lift (get order_book_entry "asks" (VList [])) ;;
      if negb (truthy bids) || negb (truthy asks) then
        ret (Return (Error (ErrText "No bid/ask data available")))
      else
        best_bid <- lift (best_price bids) ;;
        best_ask <- lift (best_price asks) ;;
        if Qle_bool best_bid 0 || Qle_bool best_ask 0 then
          ret (Return (Error (ErrText "Invalid bid/ask prices")))
        else
          let order_side := if String.eqb (str_lower side) "buy" then BUY else SELL in
          let adjusted_price :=
            if String.eqb (str_lower side) "sell" then
              if Qle_bool price best_bid
              then best_bid + price_delta contract_config else price
            else if String.eqb (str_lower side) "buy" then
              if Qle_bool best_ask price
              then best_ask - price_delta contract_config else price
            else price in
          let adjusted_price :=
            round_price_to_step adjusted_price (step_size contract_config) in
          order_result <-
            call (CreateLimitOrder contract_id quantity adjusted_price order_side true) ;;
          has_data <- lift (if truthy order_result
                            then contains "data" order_result else Ret false) ;;
          if negb (truthy order_result) || negb has_data then
            ret (Return (Error (ErrText "Failed to place order")))
          else
            data <- lift (item order_result "data") ;;
            order_id <- lift (get data "orderId" VNone) ;;
            if negb (truthy order_id) then
              ret (Return (Error (ErrText "No order ID in response")))
            else
              order_info <- get_order_info order_id ;;
              match order_info with
              | Some order_data =>
                  status <- lift (get order_data "status" VNone) ;;
                  if eq_str status "CANCELED" then
                    if (retry_count <? max_retries - 1)%nat then ret Continue
                    else ret (Return (Error (ErrRejectedAfter "Close order" max_retries)))
                  else if status_placed status then
                    ret (Return (Ok {| r_order_id := order_id;
                                       r_side := side;
                                       r_size := quantity;
                                       r_price := adjusted_price;
                                       r_status := Some status;
                                       r_type := None |}))
                  else
                    ret (Return (Error (ErrUnexpectedStatus "close order" status)))
              | None =>
                  ret (Return (Ok {| r_order_id := order_id;
                                     r_side := side;
                                     r_size := quantity;
                                     r_price := adjusted_price;
                                     r_status := None;
                                     r_type := None |}))
              end.

Definition close_attempt (contract_id : string) (quantity price : Q)
  (side : string) (retry_count : nat) : M ctl :=
  try_except
    (close_attempt_body contract_id quantity price side retry_count)
    (fun e =>
       if (retry_count <? max_retries - 1)%nat then ret Continue
       else ret (Return (Error (ErrException e)))).

Fixpoint place_close_order_loop (contract_id : string) (quantity price : Q)
  (side : string) (remaining : nat) : M result :=
  match remaining with
  | O => ret (Error (ErrText "Max retries exceeded for close order"))
  | S remaining' =>
      c <- close_attempt contract_id quantity price side (max_retries - remaining) ;;
      match c with
      | Continue => place_close_order_loop contract_id quantity price side remaining'
      | Return r => ret r
      end
  end.

Definition place_close_order (contract_id : string) (quantity price : Q)
  (side : string) : M result :=
  place_close_order_loop contract_id quantity price side max_retries.

(** ** [cancel_order], [get_active_orders], [get_account_positions] *)

Inductive cancel_result : Type :=
| CancelOk (data : pyval)
| CancelError (msg : err_msg).

Definition cancel_order (order_id : pyval) : M cancel_result :=
  try_except
    (cancel_result <- call (CancelOrder order_id) ;;
     has_data <- lift (if truthy cancel_result
                       then contains "data" cancel_result else Ret false) ;;
     if negb (truthy cancel_result) || negb has_data then
       ret (CancelError (ErrText "Failed to cancel order"))
     else ret (CancelOk cancel_result))
    (fun e => ret (CancelError (ErrException e))).

(** The [for] loop of [get_active_orders]: the dictionaries of the
    contract, in order. *)
Fixpoint contract_orders_of (contract_id : string) (order_list : list pyval)
  : outcome (list pyval) :=
  match order_list with
  | [] => Ret []
  | order :: rest =>
      obind (if is_dict order
             then obind (get order "contractId" VNone)
                        (fun c => Ret (eq_str c contract_id))
             else Ret false) (fun keep =>
      obind (contract_orders_of contract_id rest) (fun kept =>
      Ret (if keep then order :: kept else kept)))
  end.

(** The body of the [try] of [get_active_orders] once the answer has
    arrived. *)
Definition active_orders_of_payload (contract_id : string) (active_orders : pyval)
  : outcome (list pyval) :=
  obind (if truthy active_orders
         then contains "data" active_orders else Ret false) (fun has_data =>
  if negb (truthy active_orders) || negb has_data then Ret []
  else
    obind (item active_orders "data") (fun data =>
    obind (get data "dataList" (VList [])) (fun order_list =>
    obind (iter order_list) (fun orders =>
    contract_orders_of contract_id orders)))).

Definition get_active_orders (contract_id : string) : M (list pyval) :=
  try_except
    (active_orders <- call GetActiveOrders ;;
     lift (active_orders_of_payload contract_id active_orders))
    (fun _ => ret []).

Definition get_account_positions : M pyval :=
  try_except (call GetAccountPositions) (fun _ => ret (VDict [])).

(** ** [get_current_inventory] *)

(** The [for] loop over [positions]: the signed size of the first
    dictionary of the contract; [None] when the loop ends without one. *)
Fixpoint find_position (positions : list pyval) : outcome (option Q) :=
  match positions with
  | [] => Ret None
  | position :: rest =>
      obind (if is_dict position
             then obind (get position "contractId" VNone)
                        (fun c => Ret (eq_str c (contract_id config)))
             else Ret false) (fun found =>
      if found then
        obind (get position "openSize" (VNum 0)) (fun raw =>
        obind (float raw) (fun open_size =>
        obind (get position "side" (VStr "LONG")) (fun side =>
        Ret (Some (if eq_str side "SHORT" then - open_size else open_size)))))
      else find_position rest)
  end.

(** The body of the [try], after the positions have been fetched. *)
Definition inventory_of_positions (positions_data : pyval) : outcome Q :=
  obind (if truthy positions_data
         then contains "data" positions_data else Ret false) (fun has_data =>
  if negb (truthy positions_data) || negb has_data then Ret 0
  else
    obind (get positions_data "data" (VDict [])) (fun data =>
    obind (get data "positionList" (VList [])) (fun positions =>
    if negb (truthy positions) then Ret 0
    else
      obind (iter positions) (fun ps =>
      obind (find_position ps) (fun found =>
      Ret (match found with Some open_size => open_size | None => 0 end)))))).

Definition get_current_inventory : M Q :=
  try_except
    (positions_data <- get_account_positions ;;
     lift (inventory_of_positions positions_data))
    (fun _ => ret 0).

(** ** [place_hedge_order] and [emergency_inventory_management] *)

(** [float(levels[i]['price'])]. *)
Definition level_price (levels : pyval) (i : nat) : outcome Q :=
  obind (index levels i) (fun level => obind (item level "price") (fun p => float p)).

Definition place_hedge_order (direction : string) (quantity : Q)
  (aggressive : bool) : M result :=
  try_except
    (order_book <- call (GetOrderBookDepth (contract_id config) 15) ;;
     has_data <- lift (if is_dict order_book then contains "data" order_book
                       else Ret false) ;;
     if negb (is_dict order_book) || negb has_data then
       ret (Error (ErrText "Failed to get order book for hedge"))
     else
       order_book_data <- lift (item order_book "data") ;;
       n <- lift (if is_list order_book_data then len order_book_data else Ret O) ;;
       if negb (is_list order_book_data) || (n =? 0)%nat then
         ret (Error (ErrText "Invalid order book data for hedge"))
       else
         order_book_entry <- lift (index order_book_data 0) ;;
         bids <- lift (get order_book_entry "bids" (VList [])) ;;
         asks <- lift (get order_book_entry "asks" (VList [])) ;;
         if negb (truthy bids) || negb (truthy asks) then
           ret (Error (ErrText "No bid/ask data for hedge"))
         else
           best_bid <- lift (level_price bids 0) ;;
           best_ask <- lift (level_price asks 0) ;;
           let step := step_size contract_config in
           priced <- lift
             (if String.eqb direction "sell" then
                obind (if aggressive then
                         obind (len bids) (fun nb =>
                           if (3 <=? nb)%nat then level_price bids 2
                           else if (2 <=? nb)%nat then level_price bids 1
                           else Ret (best_bid - step))
                       else Ret (best_bid + step))
                      (fun hedge_price => Ret (hedge_price, SELL))
              else
                obind (if aggressive then
                         obind (len asks) (fun na =>
                           if (3 <=? na)%nat then level_price asks 2
                           else if (2 <=? na)%nat then level_price asks 1
                           else Ret (best_ask + step))
                       else Ret (best_ask - step))
                      (fun hedge_price => Ret (hedge_price, BUY))) ;;
           let hedge_price := round_price_to_step (fst priced) step in
           order_result <-
             call (CreateLimitOrder (contract_id config) quantity hedge_price
                     (snd priced) true) ;;
           has_data <- lift (if truthy order_result
                             then contains "data" order_result else Ret false) ;;
           if negb (truthy order_result) || negb has_data then
             ret (Error (ErrText "Failed to place hedge order"))
           else
             data <- lift (item order_result "data") ;;
             order_id <- lift (get data "orderId" VNone) ;;
             if negb (truthy order_id) then
               ret (Error (ErrText "No order ID in hedge response"))
             else
               ret (Ok {| r_order_id := order_id;
                          r_side := direction;
                          r_size := quantity;
                          r_price := hedge_price;
                          r_status := None;
                          r_type := Some "hedge"%string |}))
    (fun e => ret (Error (ErrException e))).

Definition emergency_inventory_management : M bool :=
  try_except
    (current_inventory <- get_current_inventory ;;
     if negb (Inventory.should_emergency_hedge (quantity config) current_inventory)
     then ret false
     else
       let hedge_direction :=
         if Qgtb current_inventory 0 then "sell"%string else "buy"%string in
       let batch_size :=
         Inventory.get_hedge_batch_size (quantity config) current_inventory in
       hedge_result <- place_hedge_order hedge_direction batch_size true ;;
       ret (is_ok hedge_result))
    (fun _ => ret false).

(** ** The volatility gate *)

(** [x / y] on floats. *)
Definition py_div (x y : Q) : outcome Q :=
  if Qeq_bool y 0 then Raise ZeroDivisionError else Ret (x / y).

(** [max(prices)] and [min(prices)]: the first extreme element. *)
Definition py_max_list (prices : list Q) : outcome Q :=
  match prices with
  | [] => Raise ValueError
  | p :: rest => Ret (fold_left (fun m x => if Qltb m x then x else m) rest p)
  end.

Definition py_min_list (prices : list Q) : outcome Q :=
  match prices with
  | [] => Raise ValueError
  | p :: rest => Ret (fold_left (fun m x => if Qltb x m then x else m) rest p)
  end.

(** [prices[-1]]. *)
Definition py_last (prices : list Q) : outcome Q :=
  match prices with
  | [] => Raise IndexError
  | p :: rest => Ret (last rest p)
  end.

(** The body of the [try] of [_check_volatility_fallback] once the quote
    has arrived: [false] when the 24-hour change is too large. *)
Definition quote_is_calm (quote_result : pyval) : outcome bool :=
  obind
    (if truthy quote_result then
       obind (contains "data" quote_result) (fun has_data =>
         if has_data then
           obind (get quote_result "code" VNone) (fun code =>
             Ret (eq_str code "SUCCESS"))
         else Ret false)
     else Ret false) (fun usable =>
  if usable then
    obind (item quote_result "data") (fun quote_data =>
    if truthy quote_data && is_list quote_data then
      obind (len quote_data) (fun n =>
      if (0 <? n)%nat then
        obind (index quote_data 0) (fun ticker =>
        obind (get ticker "priceChangePercent" (VNum 0)) (fun raw =>
        obind (float raw) (fun price_change_percent =>
        if Qgtb (Qabs price_change_percent) (3 # 100) then Ret false
        else Ret true)))
      else Ret true)
    else Ret true)
  else Ret true).

Definition _check_volatility_fallback (max_amplitude_usdt : Q) : M bool :=
  try_except
    (quote_result <- call (Get24HourQuote "10000001") ;;
     lift (quote_is_calm quote_result))
    (fun _ => ret true).

(** The records of the last minute. *)
Definition recent_prices (current_time : Q) (history : list PriceSample)
  : list PriceSample :=
  let one_minute_ago := current_time - 60 in
  filter (fun record => Qgtb (timestamp record) one_minute_ago) history.

(** The body of the [try] of [check_btc_volatility_safe]. *)
Definition realtime_check (max_amplitude_usdt : Q) : M bool :=
  current_time <- time_time ;;
  b <- get_bot ;;
  match btc_price_history b with
  | [] => _check_volatility_fallback max_amplitude_usdt
  | _ =>
      let recent := recent_prices current_time (btc_price_history b) in
      if (List.length recent <? 2)%nat then
        _check_volatility_fallback max_amplitude_usdt
      else
        let prices := map price recent in
        high_price <- lift (py_max_list prices) ;;
        low_price <- lift (py_min_list prices) ;;
        latest_price <- lift (py_last prices) ;;
        let amplitude_1m := Qabs (high_price - low_price) in
        ratio <- lift (py_div (Qabs (high_price - low_price)) latest_price) ;;
        let price_change_1m := ratio * 100 in
        let volatility_high :=
          Qgtb amplitude_1m max_amplitude_usdt || Qgtb price_change_1m (1 # 2) in
        if volatility_high then ret false else ret true
  end.

Definition check_btc_volatility_safe (max_amplitude_usdt : Q) : M bool :=
  try_except
    (realtime_check max_amplitude_usdt)
    (fun _ => _check_volatility_fallback max_amplitude_usdt).

(** ** The wait-time throttle *)

(** The band chosen from the ratio of active orders to [max_orders]
    (reached only when [n < max_orders]). *)
Definition cool_down_time (n : Z) : Q :=
  let ratio := inject_Z n / inject_Z (max_orders config) in
  if Qgeb ratio (2 # 3) then 2 * wait_time config
  else if Qgeb ratio (1 # 3) then wait_time config
  else if Qgeb ratio (1 # 6) then wait_time config / 2
  else wait_time config / 4.

Definition _calculate_wait_time : M Q :=
  b <- get_bot ;;
  let n := Z.of_nat (List.length (active_close_orders b)) in
  if (n <? last_close_orders b)%Z then
    update_bot (set_last_close_orders n) ;;;
    ret 0
  else
    update_bot (set_last_close_orders n) ;;;
    if (n >=? max_orders config)%Z then ret 1
    else
      t <- time_time ;;
      if Qgtb (t - last_open_order_time b) (cool_down_time n) then ret 0
      else ret 1.

(** ** Direction choice *)

(** [random_draw] is the value of [random.random()]. *)
Definition _get_trade_direction_with_inventory_control (random_draw : Q)
  (current_inventory : Q) (inventory_strategy : Inventory.strategy)
  : option string :=
  match inventory_strategy with
  | Inventory.normal => Some (direction config)
  | Inventory.reduce_same_side =>
      match Inventory.get_inventory_direction_bias (quantity config) current_inventory with
      | Some inventory_bias =>
          if Qltb random_draw (1 # 2) then Some inventory_bias
          else Some (direction config)
      | None => Some (direction config)
      end
  | Inventory.opposite_only =>
      Inventory.get_inventory_direction_bias (quantity config) current_inventory
  | Inventory.pause => None
  end.

(** The direction of the order a cycle of [run] opens once the throttle
    and the volatility gate have let it through, for the inventory read in
    that cycle; [None] when the cycle opens nothing. *)
Definition cycle_open_direction (random_draw : Q) (current_inventory : Q)
  : option string :=
  let inventory_strategy :=
    Inventory.get_trading_strategy (quantity config) current_inventory in
  match inventory_strategy with
  | Inventory.pause => None
  | _ =>
      match _get_trade_direction_with_inventory_control
              random_draw current_inventory inventory_strategy with
      | Some trade_direction =>
          if String.eqb trade_direction EmptyString then None else Some trade_direction
      | None => None
      end
  end.

(** ** Open order: place, wait, close *)

(** The side and the target price of the take-profit order for a fill;
    the two copies of this branch in [_handle_order_result] are the same. *)
Definition take_profit_order (actual_open_side : string) (filled_price : Q)
  : string * Q :=
  if String.eqb actual_open_side "buy" then
    ("sell"%string, filled_price * (1 + take_profit_percentage config))
  else if String.eqb actual_open_side "sell" then
    ("buy"%string, filled_price * (1 - take_profit_percentage config))
  else
    let close_side := close_order_side config in
    if String.eqb close_side "sell" then
      (close_side, filled_price * (1 + take_profit_percentage config))
    else
      (close_side, filled_price * (1 - take_profit_percentage config)).

Definition _handle_order_result (order : order_data) : M bool :=
  let order_id := r_order_id order in
  order_info <- get_order_info order_id ;;
  status <- lift (match order_info with
                  | Some d => get d "status" (VStr "UNKNOWN")
                  | None => Ret (VStr "UNKNOWN")
                  end) ;;
  if eq_str status "FILLED" then
    update_bot (set_current_order_status "FILLED") ;;;
    info <- lift (match order_info with Some d => Ret d | None => Raise KeyError end) ;;
    raw_price <- lift (get info "price" (VNum 0)) ;;
    filled_price <- lift (float raw_price) ;;
    if Qgtb filled_price 0 then
      raw_side <- lift (get info "side" (VStr EmptyString)) ;;
      actual_open_side <- lift (lower raw_side) ;;
      let '(close_side, close_price) := take_profit_order actual_open_side filled_price in
      place_close_order (contract_id config) (quantity config) close_price close_side ;;;
      ret true
    else ret true
  else if eq_str status "OPEN" || eq_str status "PARTIALLY_FILLED" then
    cancel_result <- cancel_order order_id ;;
    match cancel_result with
    | CancelOk _ => update_bot (set_current_order_status "CANCELED")
    | CancelError _ => ret tt
    end ;;;
    order_info <- get_order_info order_id ;;
    info <- lift (match order_info with Some d => Ret d | None => Raise KeyError end) ;;
    raw_amount <- lift (get info "cumFillSize" (VNum 0)) ;;
    filled_amount <- lift (float raw_amount) ;;
    raw_price <- lift (get info "price" (VNum 0)) ;;
    filled_price <- lift (float raw_price) ;;
    raw_side <- lift (get info "side" (VStr EmptyString)) ;;
    actual_open_side <- lift (lower raw_side) ;;
    if Qgtb filled_amount 0 then
      let '(close_side, close_price) := take_profit_order actual_open_side filled_price in
      place_close_order (contract_id config) filled_amount close_price close_side ;;;
      ret true
    else ret true
  else ret false.

(** The timeout of the wait on the fill signal, in seconds. *)
Definition fill_timeout : Q := 10.

(** [asyncio.wait_for(self.order_filled_event.wait(), timeout=10)] inside
    its own [try]: a timeout is swallowed, anything else is not. *)
Definition wait_for_fill : M unit :=
  try_except
    (call (WaitOrderFilled fill_timeout) ;;; ret tt)
    (fun e => match e with TimeoutError => ret tt | _ => lift (Raise e) end).

Definition _place_and_monitor_open_order (direction_arg : option string) : M bool :=
  try_except
    (update_bot (set_order_filled_event false) ;;;
     let trade_direction :=
       match direction_arg with
       | Some d => if String.eqb d EmptyString then direction config else d
       | None => direction config
       end in
     order <- place_open_order (contract_id config) (quantity config) trade_direction ;;
     match order with
     | Error _ => ret false
     | Ok data =>
         t <- time_time ;;
         update_bot (set_last_open_order_time t) ;;;
         match r_status data with
         | Some status => if eq_str status "FILLED" then ret tt else wait_for_fill
         | None => wait_for_fill
         end ;;;
         _handle_order_result data
     end)
    (fun _ => ret false).

(** ** The periodic status check and reconciliation *)

(** One pass of the [for] loop over the active orders: the order's size is
    added to its side's total and the order is tracked; an order whose
    side or size cannot be read is skipped by the loop's own [except]. *)
Definition tally_order (order : pyval) (acc : Q * Q * list pyval)
  : Q * Q * list pyval :=
  let '(active_buy_amount, active_sell_amount, tracked) := acc in
  if is_dict order then
    match
      obind (get order "side" (VStr EmptyString)) (fun raw_side =>
      obind (upper raw_side) (fun order_side =>
      obind (get order "size" (VNum 0)) (fun raw_size =>
      obind (float raw_size) (fun order_size =>
      obind (get order "id" VNone) (fun id =>
      obind (get order "price" VNone) (fun price =>
      obind (get order "size" VNone) (fun size =>
      Ret (order_side, order_size,
           VDict [("id"%string, id); ("price"%string, price);
                  ("size"%string, size); ("side"%string, VStr order_side)]))))))))
    with
    | Ret (order_side, order_size, entry) =>
        if String.eqb order_side "BUY" then
          (active_buy_amount + order_size, active_sell_amount, tracked ++ [entry])
        else if String.eqb order_side "SELL" then
          (active_buy_amount, active_sell_amount + order_size, tracked ++ [entry])
        else (active_buy_amount, active_sell_amount, tracked ++ [entry])
    | Raise _ => acc
    end
  else acc.

Definition tally_orders (active_orders : list pyval) : Q * Q * list pyval :=
  fold_left (fun acc order => tally_order order acc) active_orders (0, 0, []).

(** The first dictionary of the contract in [positions], as the loop with
    [break] finds it. *)
Fixpoint first_position (positions : list pyval) : outcome (option pyval) :=
  match positions with
  | [] => Ret None
  | p :: rest =>
      obind (if is_dict p
             then obind (get p "contractId" VNone)
                        (fun c => Ret (eq_str c (contract_id config)))
             else Ret false) (fun found =>
      if found then Ret (Some p) else first_position rest)
  end.

(** [position_amt], the unsigned size shown in the status line. *)
Definition position_amt_of (positions_data : pyval) : outcome Q :=
  obind (if truthy positions_data
         then contains "data" positions_data else Ret false) (fun has_data =>
  if negb (truthy positions_data) || negb has_data then Ret 0
  else
    obind (get positions_data "data" (VDict [])) (fun data =>
    obind (get data "positionList" (VList [])) (fun positions =>
    if truthy positions then
      obind (iter positions) (fun ps =>
      obind (first_position ps) (fun position =>
      match position with
      | Some p =>
          if truthy p then
            obind (get p "openSize" (VNum 0)) (fun raw =>
            obind (float raw) (fun open_size => Ret (Qabs open_size)))
          else Ret 0
      | None => Ret 0
      end))
    else Ret 0))).

(** The body of the outer [try]; [true] when it leaves through the
    [return] of the fatal branch. *)
Definition status_check_body : M bool :=
  active_orders <- get_active_orders (contract_id config) ;;
  update_bot (set_active_close_orders []) ;;;
  let '(active_buy_amount, active_sell_amount, tracked) := tally_orders active_orders in
  update_bot (set_active_close_orders tracked) ;;;
  let active_net_exposure := active_buy_amount - active_sell_amount in
  positions_data <- get_account_positions ;;
  position_amt <- lift (position_amt_of positions_data) ;;
  current_inventory <- get_current_inventory ;;
  let expected_active_exposure := - current_inventory in
  let exposure_mismatch := Qabs (active_net_exposure - expected_active_exposure) in
  if Qgtb exposure_mismatch (2 * quantity config) then
    b <- get_bot ;;
    (if negb (shutdown_requested b) then update_bot (set_shutdown_requested true)
     else ret tt) ;;;
    ret true
  else ret false.

Definition _log_status_periodically : M unit :=
  t <- time_time ;;
  b <- get_bot ;;
  if Qgtb (t - last_log_time b) 60 || Qeq_bool (last_log_time b) 0 then
    returned <- try_except status_check_body (fun _ => ret false) ;;
    if returned then ret tt
    else
      t' <- time_time ;;
      update_bot (set_last_log_time t')
  else ret tt.

(** ** The order-update handler *)

Section Handler.

(** [json.loads], a library function. *)
Variable json_loads : string -> outcome pyval.

(** The handler up to [self.order_filled_event.set()]: whether the call
    is reached.  What follows it only logs. *)
Definition order_update_sets_event (message : pyval) : outcome bool :=
  obind (match message with VStr s => json_loads s | _ => Ret message end) (fun message =>
  obind (get message "content" (VDict [])) (fun content =>
  obind (get content "event" (VStr EmptyString)) (fun event =>
  if eq_str event "ORDER_UPDATE" then
    obind (get content "data" (VDict [])) (fun data =>
    obind (get data "order" (VList [])) (fun orders =>
    obind (if truthy orders
           then obind (len orders) (fun n => Ret (0 <? n)%nat)
           else Ret false) (fun some_order =>
    if some_order then
      obind (index orders 0) (fun order =>
      obind (get order "contractId" VNone) (fun contract =>
      if negb (eq_str contract (contract_id config)) then Ret false
      else
        obind (get order "id" VNone) (fun order_id =>
        obind (get order "status" VNone) (fun status =>
        obind (get order "side" VNone) (fun side =>
        let is_open_type :=
          negb (eq_str side (str_upper (close_order_side config))) in
        if eq_str status "FILLED" then Ret is_open_type else Ret false)))))
    else Raise UnboundLocalError)))
  else Ret false))).

Definition order_update_handler (b : BotState) (message : pyval) : BotState :=
  match order_update_sets_event message with
  | Ret true => set_order_filled_event true b
  | _ => b
  end.

End Handler.

(** ** The price feed *)

(** The pruning of the price buffer: the records of the last five
    minutes. *)
Definition keep_recent (current_time : Q) (history : list PriceSample)
  : list PriceSample :=
  let cutoff_time := current_time - 300 in
  filter (fun record => Qgtb (timestamp record) cutoff_time) history.

Definition append_price (p current_time : Q) (b : BotState) : BotState :=
  set_btc_price_history
    (btc_price_history b ++ [{| price := p; timestamp := current_time |}]) b.

Definition prune_prices (current_time : Q) (b : BotState) : BotState :=
  set_btc_price_history (keep_recent current_time (btc_price_history b)) b.

Definition _record_btc_price (p : Q) : M unit :=
  try_except
    (current_time <- time_time ;;
     update_bot (append_price p current_time) ;;;
     update_bot (prune_prices current_time))
    (fun _ => ret tt).

Section PriceFeed.

Variable json_loads : string -> outcome pyval.

(** [history[-1]['price'] != p], after [len(history) == 0 or]. *)
Definition price_changed (history : list PriceSample) (p : Q) : bool :=
  match history with
  | [] => true
  | r :: rest => negb (Qeq_bool (price (last rest r)) p)
  end.

(** The ticker handler that [run] subscribes. *)
Definition btc_price_handler (message : string) : M unit :=
  try_except
    (data <- lift (json_loads message) ;;
     content <- lift (get data "content" (VDict [])) ;;
     ticker_data_list <- lift (get content "data" (VList [])) ;;
     ticker_data <- lift (if is_list ticker_data_list && truthy ticker_data_list
                          then index ticker_data_list 0
                          else Ret ticker_data_list) ;;
     if is_dict ticker_data then
       contract_id <- lift (get ticker_data "contractId" VNone) ;;
       last_price <- lift (get ticker_data "lastPrice" VNone) ;;
       if eq_str contract_id "10000001" && truthy last_price then
         current_time <- time_time ;;
         b <- get_bot ;;
         changed <- lift (match btc_price_history b with
                          | [] => Ret true
                          | _ => obind (float last_price) (fun p =>
                                   Ret (price_changed (btc_price_history b) p))
                          end) ;;
         if changed then
           p <- lift (float last_price) ;;
           update_bot (append_price p current_time) ;;;
           update_bot (prune_prices current_time)
         else ret tt
       else ret tt
     else ret tt)
    (fun _ => ret tt).

End PriceFeed.

(** ** One pass of the main loop of [run] *)

(** What a pass decides before it reaches the volatility gate: to sleep
    and start over, to pause on a large inventory, or to go on with the
    inventory it has read. *)
Inductive cycle_decision : Type :=
| Sleep (wait : Q)
| Paused (current_inventory : Q)
| Proceed (current_inventory : Q) (inventory_strategy : Inventory.strategy).

(** From the refresh of the active orders to the inventory strategy.  The
    loop over the active orders is the loop of the status check. *)
Definition run_cycle_begin : M cycle_decision :=
  active_orders <- get_active_orders (contract_id config) ;;
  update_bot (set_active_close_orders []) ;;;
  update_bot (set_active_close_orders (snd (tally_orders active_orders))) ;;;
  emergency_inventory_management ;;;
  _log_status_periodically ;;;
  wait_time <- _calculate_wait_time ;;
  if Qgtb wait_time 0 then ret (Sleep wait_time)
  else
    current_inventory <- get_current_inventory ;;
    let inventory_strategy :=
      Inventory.get_trading_strategy (quantity config) current_inventory in
    match inventory_strategy with
    | Inventory.pause => ret (Paused current_inventory)
    | _ => ret (Proceed current_inventory inventory_strategy)
    end.

(** After the volatility gate has let the pass through: the direction is
    chosen and, if there is one, an order is opened and counted. *)
Definition run_cycle_trade (random_draw : Q) (current_inventory : Q)
  (inventory_strategy : Inventory.strategy) : M unit :=
  match _get_trade_direction_with_inventory_control
          random_draw current_inventory inventory_strategy with
  | Some trade_direction =>
      if String.eqb trade_direction EmptyString then ret tt
      else
        _place_and_monitor_open_order (Some trade_direction) ;;;
        update_bot (fun b => set_last_close_orders (last_close_orders b + 1)%Z b)
  | None => ret tt
  end.

End WithConfig.

End Bot.

(** ** A scripted exchange *)

(** Payloads of the shape the exchange documents, and worlds built from
    them; used to state properties of runs against a mock exchange. *)
Module Mock.
Import Bot.

(** One price level. *)
Definition level (price_v : pyval) : pyval :=
  VDict [("price"%string, price_v); ("size"%string, VStr "1")].

(** An order book from its bid and ask levels, best first. *)
Definition book_of_levels (bids asks : list pyval) : pyval :=
  VDict [("code"%string, VStr "SUCCESS");
         ("data"%string,
          VList [VDict [("asks"%string, VList (map level asks));
                        ("bids"%string, VList (map level bids))]])].

(** An order book with one level a side. *)
Definition book_payload (best_bid best_ask : pyval) : pyval :=
  book_of_levels [best_bid] [best_ask].

(** The answer to an accepted submission. *)
Definition created_payload (order_id : string) : pyval :=
  VDict [("code"%string, VStr "SUCCESS");
         ("data"%string, VDict [("orderId"%string, VStr order_id)])].

(** The answer to a query of one order. *)
Definition order_payload (fields : list (string * pyval)) : pyval :=
  VDict [("code"%string, VStr "SUCCESS"); ("data"%string, VList [VDict fields])].

(** One submission as the exchange sees it: the book it shows, the id it
    gives the order, and the status it reports when asked. *)
Record round : Type := {
  bid_v : pyval;
  ask_v : pyval;
  bid : Q;
  ask : Q;
  order_id : string;
  status : string
}.

Definition round_responses (r : round) : list (outcome pyval) :=
  [Ret (book_payload (bid_v r) (ask_v r));
   Ret (created_payload (order_id r));
   Ret (order_payload [("id"%string, VStr (order_id r));
                       ("status"%string, VStr (status r))])].

(** The price [place_open_order] submits against the book of a round. *)
Definition open_price (cc : ContractConfig) (direction : string) (r : round) : Q :=
  round_price_to_step
    (if String.eqb direction "buy" then ask r - price_delta cc
     else bid r + price_delta cc)
    (step_size cc).

Definition open_side (direction : string) : OrderSide :=
  if String.eqb direction "buy" then BUY else SELL.

(** The calls one pass of [place_open_order] makes in a round. *)
Definition round_calls (cc : ContractConfig) (contract_id : string) (quantity : Q)
  (direction : string) (r : round) : list Call :=
  [GetOrderBookDepth contract_id 15;
   CreateLimitOrder contract_id quantity (open_price cc direction r)
     (open_side direction) true;
   GetOrderById (VStr (order_id r))].

(** A round the bot can act on: prices that read as positive numbers and
    a non-empty order id. *)
Definition usable (float_of_string : string -> option Q) (r : round) : Prop :=
  Py.float float_of_string (bid_v r) = Ret (bid r) /\
  Py.float float_of_string (ask_v r) = Ret (ask r) /\
  0 < bid r /\ 0 < ask r /\ order_id r <> EmptyString.

Definition is_submission (c : Call) : bool :=
  match c with CreateLimitOrder _ _ _ _ _ => true | _ => false end.

Definition is_book_read (c : Call) : bool :=
  match c with GetOrderBookDepth _ _ => true | _ => false end.

(** Every submission in the trace directly follows a book read. *)
Fixpoint submissions_follow_book_reads (after_read : bool) (tr : list Call) : bool :=
  match tr with
  | [] => true
  | c :: tr' =>
      (if is_submission c then after_read else true)
      && submissions_follow_book_reads (is_book_read c) tr'
  end.

Definition initial_bot : BotState :=
  {| active_close_orders := [];
     last_close_orders := 0;
     last_open_order_time := 0;
     last_log_time := 0;
     current_order_status := "PENDING";
     order_filled_event := false;
     shutdown_requested := false;
     btc_price_history := [] |}.

Definition world_of (rs : list (outcome pyval)) (t : Q) (b : BotState) : World :=
  {| responses := rs; calls := []; now := t; bot := b |}.

(** The price of an aggressive hedge against a book whose levels have
    prices [bids] and [asks], best first: the third level, else the
    second, else one step beyond the best. *)
Definition aggressive_price (cc : ContractConfig) (direction : string)
  (bids asks : list Q) : Q :=
  round_price_to_step
    (if String.eqb direction "sell"
     then nth 2 bids (nth 1 bids (hd 0 bids - step_size cc))
     else nth 2 asks (nth 1 asks (hd 0 asks + step_size cc)))
    (step_size cc).

(** A concrete configuration and concrete rounds, for runs of the model. *)
Definition demo_config : TradingConfig :=
  {| contract_id := "10000001";
     quantity := 1 # 100;
     take_profit_percentage := 3 # 1000;
     direction := "buy";
     max_orders := 6;
     wait_time := 4 |}.

Definition demo_contract : ContractConfig :=
  {| price_delta := 1 # 10; step_size := 1 # 10 |}.

Definition demo_round (id st : string) : round :=
  {| bid_v := VStr "100000.0";
     ask_v := VStr "100000.5";
     bid := 1000000 # 10;
     ask := 1000005 # 10;
     order_id := id;
     status := st |}.

(** The answer to a position query: one position of the demonstration
    contract. *)
Definition demo_positions (size side : string) : pyval :=
  VDict [("code"%string, VStr "SUCCESS");
         ("data"%string,
          VDict [("positionList"%string,
                  VList [VDict [("contractId"%string, VStr "10000001");
                                ("openSize"%string, VStr size);
                                ("side"%string, VStr side)]])])].

(** The answer to a 24-hour quote query. *)
Definition quote_payload (price_change_percent : pyval) : pyval :=
  VDict [("code"%string, VStr "SUCCESS");
         ("data"%string,
          VList [VDict [("contractId"%string, VStr "10000001");
                        ("priceChangePercent"%string, price_change_percent)]])].

(** The prices of the last minute, and the three numbers the amplitude
    check takes from them (0 on an empty window). *)
Definition window (current_time : Q) (history : list PriceSample) : list Q :=
  map price (recent_prices current_time history).

Definition highest (prices : list Q) : Q :=
  match py_max_list prices with Ret x => x | Raise _ => 0 end.

Definition lowest (prices : list Q) : Q :=
  match py_min_list prices with Ret x => x | Raise _ => 0 end.

Definition latest (prices : list Q) : Q :=
  match py_last prices with Ret x => x | Raise _ => 0 end.

(** The verdict of the amplitude test on a window. *)
Definition amplitude_verdict (m : Q) (prices : list Q) : bool :=
  negb (Qgtb (Qabs (highest prices - lowest prices)) m
        || Qgtb (Qabs (highest prices - lowest prices) / latest prices * 100) (1 # 2)).

(** The world with the price buffer replaced. *)
Definition with_history (h : list PriceSample) (wd : World) : World :=
  {| responses := responses wd; calls := calls wd; now := now wd;
     bot := set_btc_price_history h (bot wd) |}.

(** All rounds of [rs] are usable and come back CANCELED. *)
Definition all_rejected (float_of_string : string -> option Q) (rs : list round)
  : Prop :=
  Forall (fun r => usable float_of_string r /\ status r = "CANCELED"%string) rs.

(** No element of [ps] is a dictionary of the configured contract. *)
Definition no_entry (config : TradingConfig) (ps : list pyval) : Prop :=
  forall p, In p ps ->
    match p with
    | VDict d =>
        match lookup "contractId" d with
        | Some c => eq_str c (contract_id config) = false
        | None => True
        end
    | _ => True
    end.

(** The answer to a query of the active orders. *)
Definition active_orders_payload (orders : list pyval) : pyval :=
  VDict [("code"%string, VStr "SUCCESS");
         ("data"%string, VDict [("dataList"%string, VList orders)])].

(** The size a tracked entry stands for, and the total of one side. *)
Definition entry_size (float_of_string : string -> option Q) (entry : pyval) : Q :=
  match obind (get entry "size" VNone) (Py.float float_of_string) with
  | Ret q => q
  | Raise _ => 0
  end.

Definition entry_has_side (side : string) (entry : pyval) : bool :=
  match get entry "side" VNone with
  | Ret v => eq_str v side
  | Raise _ => false
  end.

Fixpoint side_total (float_of_string : string -> option Q) (side : string)
  (tracked : list pyval) : Q :=
  match tracked with
  | [] => 0
  | entry :: rest =>
      if entry_has_side side entry
      then side_total float_of_string side rest + entry_size float_of_string entry
      else side_total float_of_string side rest
  end.

(** The prices of the submissions of a trace. *)
Fixpoint submitted_prices (tr : list Call) : list Q :=
  match tr with
  | [] => []
  | CreateLimitOrder _ _ price _ _ :: tr' => Qred price :: submitted_prices tr'
  | _ :: tr' => submitted_prices tr'
  end.

(** The price [place_close_order] submits against the book of a round
    for a target price. *)
Definition close_price (cc : ContractConfig) (side : string) (target : Q) (r : round)
  : Q :=
  round_price_to_step
    (if String.eqb (str_lower side) "sell" then
       if Qle_bool target (bid r) then bid r + price_delta cc else target
     else if String.eqb (str_lower side) "buy" then
       if Qle_bool (ask r) target then ask r - price_delta cc else target
     else target)
    (step_size cc).

Definition close_calls (cc : ContractConfig) (contract_id : string) (quantity : Q)
  (side : string) (target : Q) (r : round) : list Call :=
  [GetOrderBookDepth contract_id 15;
   CreateLimitOrder contract_id quantity (close_price cc side target r)
     (if String.eqb (str_lower side) "buy" then BUY else SELL) true;
   GetOrderById (VStr (order_id r))].

(** An order-update push message carrying one order. *)
Definition order_update_message (order : list (string * pyval)) : pyval :=
  VDict [("type"%string, VStr "trade-event");
         ("content"%string,
          VDict [("event"%string, VStr "ORDER_UPDATE");
                 ("data"%string,
                  VDict [("order"%string, VList [VDict order]);
                         ("collateral"%string, VList [])])])].

(** C6, in the words of the specification: the message reports that the
    tracked order of the contract has become FILLED. *)
Definition reports_tracked_fill (config : TradingConfig) (tracked_order_id : string)
  (order : list (string * pyval)) : bool :=
  match lookup "contractId" order, lookup "id" order, lookup "status" order with
  | Some contract, Some id, Some status =>
      eq_str contract (contract_id config) && eq_str id tracked_order_id
      && eq_str status "FILLED"
  | _, _, _ => false
  end.

(** [d.get(key, default)] on the fields of an order. *)
Definition field_or (fields : list (string * pyval)) (key : string) (default : pyval)
  : pyval :=
  match lookup key fields with Some x => x | None => default end.

(** What the bot makes of the answers to its queries: a failed position
    query reads as an empty dictionary, a failed or unreadable list of
    active orders as no orders, a failed or unreadable position as a flat
    inventory. *)
Definition answered_or_empty (r : outcome pyval) : pyval :=
  match r with Ret v => v | Raise _ => VDict [] end.

Definition orders_read (contract_id : string) (r : outcome pyval) : list pyval :=
  match r with
  | Ret v => match active_orders_of_payload contract_id v with
             | Ret l => l
             | Raise _ => []
             end
  | Raise _ => []
  end.

Definition inventory_read (float_of_string : string -> option Q)
  (config : TradingConfig) (r : outcome pyval) : Q :=
  match r with
  | Ret v => match inventory_of_positions float_of_string config v with
             | Ret x => x
             | Raise _ => 0
             end
  | Raise _ => 0
  end.

(** How much a strategy restricts the opening of orders. *)
Definition severity (s : Inventory.strategy) : nat :=
  match s with
  | Inventory.normal => 0
  | Inventory.reduce_same_side => 1
  | Inventory.opposite_only => 2
  | Inventory.pause => 3
  end.

(** The side of an order that brings the inventory towards zero. *)
Definition reducing_side (current_inventory : Q) : string :=
  if Qgtb current_inventory 0 then "sell"%string else "buy"%string.

(** The inventory after an order of the given side and size has filled. *)
Definition inventory_after (side : string) (size current_inventory : Q) : Q :=
  if String.eqb side "sell" then current_inventory - size
  else current_inventory + size.

(** ** Shapes of the price buffer *)

(** The records are in the order of their timestamps. *)
Fixpoint chronological (h : list PriceSample) : bool :=
  match h with
  | r :: (r' :: _) as rest =>
      Qle_bool (timestamp r) (timestamp r') && chronological rest
  | _ => true
  end.

(** No two neighbours carry the same price. *)
Fixpoint prices_alternate (h : list PriceSample) : bool :=
  match h with
  | r :: (r' :: _) as rest =>
      negb (Qeq_bool (price r) (price r')) && prices_alternate rest
  | _ => true
  end.

(** No record is younger than [t]. *)
Definition not_after (t : Q) (h : list PriceSample) : bool :=
  forallb (fun r => Qle_bool (timestamp r) t) h.

(** Every record is younger than [t]. *)
Definition all_after (t : Q) (h : list PriceSample) : bool :=
  forallb (fun r => Qgtb (timestamp r) t) h.

(** A ticker push message for one contract. *)
Definition ticker_message (contract last_price : pyval) : pyval :=
  VDict [("type"%string, VStr "quote-event");
         ("content"%string,
          VDict [("dataType"%string, VStr "Snapshot");
                 ("data"%string,
                  VList [VDict [("contractId"%string, contract);
                                ("lastPrice"%string, last_price)]])])].

(** The world after the price [p] has been appended to the buffer and
    the buffer pruned. *)
Definition recorded (p : Q) (w : World) : World :=
  {| responses := responses w; calls := calls w; now := now w;
     bot := prune_prices (now w) (append_price p (now w) (bot w)) |}.

(** The world at a later reading of the clock. *)
Definition at_time (t : Q) (w : World) : World :=
  {| responses := responses w; calls := calls w; now := t; bot := bot w |}.

(** The ticker handler run on a sequence of messages, each arriving at
    its own time. *)
Fixpoint feed (float_of_string : string -> option Q)
  (json_loads : string -> outcome pyval) (events : list (Q * string)) (w : World)
  : World :=
  match events with
  | [] => w
  | (t, message) :: rest =>
      feed float_of_string json_loads rest
        (snd (btc_price_handler float_of_string json_loads message (at_time t w)))
  end.

(** The times of the events do not go back, starting from [t0]. *)
Fixpoint clock_advances (t0 : Q) (events : list (Q * string)) : bool :=
  match events with
  | [] => true
  | (t, _) :: rest => Qle_bool t0 t && clock_advances t rest
  end.

(** The buffer is in the order of time, holds nothing from the future
    and no two equal neighbours. *)
Definition buffer_ok (w : World) : Prop :=
  chronological (btc_price_history (bot w)) = true /\
  not_after (now w) (btc_price_history (bot w)) = true /\
  prices_alternate (btc_price_history (bot w)) = true.

(** ** Shapes of traces *)

Definition is_cancel (c : Call) : bool :=
  match c with CancelOrder _ => true | _ => false end.

(** Calls that only read from the exchange. *)
Definition is_read (c : Call) : bool :=
  match c with
  | GetOrderBookDepth _ _ | GetOrderById _ | GetActiveOrders
  | GetAccountPositions | Get24HourQuote _ => true
  | _ => false
  end.

(** The number of submissions in a trace. *)
Definition submissions (l : list Call) : nat :=
  List.length (filter is_submission l).

(** From every world, [m] appends to the trace only calls that satisfy
    [allowed]. *)
Definition only {A : Type} (allowed : Call -> bool) (m : M A) : Prop :=
  forall w, exists l,
    calls (snd (m w)) = calls w ++ l /\ forallb allowed l = true.

(** From every world, [m] appends to the trace at most [n] submissions. *)
Definition submits_at_most {A : Type} (n : nat) (m : M A) : Prop :=
  forall w, exists l,
    calls (snd (m w)) = calls w ++ l /\ (submissions l <= n)%nat.

(** [m] returns from every world: no exception leaves it. *)
Definition never_raises {A : Type} (m : M A) : Prop :=
  forall w, exists a w', m w = (Ret a, w').

(** [m] leaves the reading [f] of the bot's fields as it found it. *)
Definition keeps {A B : Type} (f : BotState -> B) (m : M A) : Prop :=
  forall w, f (bot (snd (m w))) = f (bot w).

(** Whatever [m] returns satisfies [P]. *)
Definition yields {A : Type} (P : A -> Prop) (m : M A) : Prop :=
  forall w a w', m w = (Ret a, w') -> P a.

(** The result the retry loops return when their condition turns false. *)
Definition retries_exhausted (r : result) : Prop :=
  r = Error (ErrText "Max retries exceeded") \/
  r = Error (ErrText "Max retries exceeded for close order").

(** What pass [k] of a retry loop may return: [Continue] only before the
    last pass, and never the result kept for the end of the loop. *)
Definition pass_ok (k : nat) (c : ctl) : Prop :=
  match c with
  | Continue => (k <? max_retries - 1)%nat = true
  | Return r => ~ retries_exhausted r
  end.

End Mock.

(** ** Comparison lemmas *)

Lemma Qltb_lt (x y : Q) : Qltb x y = true <-> x < y.
Proof.
  unfold Qltb. rewrite negb_true_iff.
  split; intro H.
  - apply Qnot_le_lt. intro Hle. apply Qle_bool_iff in Hle. congruence.
  - destruct (Qle_bool y x) eqn:E; [|reflexivity].
    apply Qle_bool_iff in E. exfalso. apply (Qlt_not_le _ _ H E).
Qed.

Lemma Qltb_ge (x y : Q) : Qltb x y = false <-> y <= x.
Proof.
  unfold Qltb. rewrite negb_false_iff. apply Qle_bool_iff.
Qed.

Lemma Qgtb_gt (x y : Q) : Qgtb x y = true <-> y < x.
Proof. unfold Qgtb. apply Qltb_lt. Qed.

Lemma Qgtb_le (x y : Q) : Qgtb x y = false <-> x <= y.
Proof. unfold Qgtb. apply Qltb_ge. Qed.

Ltac qbool :=
  repeat match goal with
  | H : Qltb _ _ = true |- _ => apply Qltb_lt in H
  | H : Qltb _ _ = false |- _ => apply Qltb_ge in H
  | H : Qgtb _ _ = true |- _ => apply Qgtb_gt in H
  | H : Qgtb _ _ = false |- _ => apply Qgtb_le in H
  | H : Qle_bool _ _ = true |- _ => apply Qle_bool_iff in H
  | H : Qeq_bool _ _ = true |- _ => apply Qeq_bool_iff in H
  | H : Qeq_bool _ _ = false |- _ => apply Qeq_bool_neq in H
  end.

(** ** Risk tiers *)

Module InventoryFacts.
Import Inventory.

Lemma strategy_cases (q p : Q) :
  (get_trading_strategy q p = normal /\ Qabs p < 2 * q) \/
  (get_trading_strategy q p = reduce_same_side /\ 2 * q <= Qabs p < 4 * q) \/
  (get_trading_strategy q p = opposite_only /\ 4 * q <= Qabs p < 6 * q /\ 2 * q <= Qabs p) \/
  (get_trading_strategy q p = pause /\ 6 * q <= Qabs p /\ 4 * q <= Qabs p /\ 2 * q <= Qabs p).
Proof.
  unfold get_trading_strategy, inventory_layers; simpl.
  destruct (Qltb (Qabs p) (2 * q)) eqn:E1; qbool; [left; auto|].
  destruct (Qltb (Qabs p) (4 * q)) eqn:E2; qbool; [right; left; auto|].
  destruct (Qltb (Qabs p) (6 * q)) eqn:E3; qbool; [right; right; left; auto|].
  right; right; right; auto.
Qed.

Lemma emergency_iff (q p : Q) :
  should_emergency_hedge q p = true <-> 8 * q < Qabs p.
Proof. unfold should_emergency_hedge, inventory_layers; simpl. apply Qgtb_gt. Qed.

Lemma emergency_false_iff (q p : Q) :
  should_emergency_hedge q p = false <-> Qabs p <= 8 * q.
Proof. unfold should_emergency_hedge, inventory_layers; simpl. apply Qgtb_le. Qed.



End InventoryFacts.


(** ** The monad *)

Module MonadFacts.
Import Bot.

Lemma bind_run {A B : Type} (m : M A) (k : A -> M B) (w w' : World) (a : A) :
  m w = (Ret a, w') -> bind m k w = k a w'.
Proof. intro H. unfold bind. rewrite H. reflexivity. Qed.

Lemma try_except_ret {A : Type} (m : M A) (h : pyexn -> M A) (w w' : World) (a : A) :
  m w = (Ret a, w') -> try_except m h w = (Ret a, w').
Proof. intro H. unfold try_except. rewrite H. reflexivity. Qed.

Lemma try_except_raise {A : Type} (m : M A) (h : pyexn -> M A) (w w' : World)
  (e : pyexn) :
  m w = (Raise e, w') -> try_except m h w = h e w'.
Proof. intro H. unfold try_except. rewrite H. reflexivity. Qed.

(** A [try] whose handler always returns never raises. *)
Lemma try_except_total {A : Type} (m : M A) (h : pyexn -> M A) :
  (forall e w, exists a w', h e w = (Ret a, w')) ->
  forall w, exists a w', try_except m h w = (Ret a, w').
Proof.
  intros Hh w. unfold try_except.
  destruct (m w) as [[a|e] w'].
  - eauto.
  - apply Hh.
Qed.

Lemma call_cons (c : Call) (r : outcome pyval) (rs : list (outcome pyval))
  (tr : list Call) (t : Q) (b : BotState) :
  call c {| responses := r :: rs; calls := tr; now := t; bot := b |} =
  (r, {| responses := rs; calls := tr ++ [c]; now := t; bot := b |}).
Proof. reflexivity. Qed.

End MonadFacts.

(** ** [place_open_order]: the retry loop *)

Module OpenOrderFacts.
Import Bot Mock MonadFacts.

Section Facts.

Variable float_of_string : string -> option Q.
Variable cc : ContractConfig.
Variable cid : string.
Variable qty : Q.
Variable dir : string.

Lemma Qle_bool_pos (x : Q) : 0 < x -> Qle_bool x 0 = false.
Proof.
  intro H. destruct (Qle_bool x 0) eqn:E; [|reflexivity].
  apply Qle_bool_iff in E. exfalso. apply (Qlt_not_le _ _ H E).
Qed.

(** One pass against a usable round: the three calls are made and the
    reported status decides. *)
Lemma open_attempt_body_round (r : round) (k : nat) (rest : list (outcome pyval))
  (tr : list Call) (t : Q) (b : BotState) :
  usable float_of_string r ->
  open_attempt_body float_of_string cc cid qty dir k
    {| responses := round_responses r ++ rest; calls := tr; now := t; bot := b |} =
  (Ret (if String.eqb (status r) "CANCELED" then
          if (k <? max_retries - 1)%nat then Continue
          else Return (Error (ErrRejectedAfter "Order" max_retries))
        else if status_placed (VStr (status r)) then
          Return (Ok {| r_order_id := VStr (order_id r);
                        r_side := side_value (open_side dir);
                        r_size := qty;
                        r_price := open_price cc dir r;
                        r_status := Some (VStr (status r));
                        r_type := None |})
        else Return (Error (ErrUnexpectedStatus "order" (VStr (status r))))),
   {| responses := rest; calls := tr ++ round_calls cc cid qty dir r;
      now := t; bot := b |}).
Proof.
  intros (Hb & Ha & Hbp & Hap & Hid).
  unfold open_attempt_body, round_responses, round_calls, open_price, open_side.
  set (again := (k <? max_retries - 1)%nat). clearbody again.
  assert (Hne : String.eqb (order_id r) EmptyString = false).
  { destruct (String.eqb (order_id r) EmptyString) eqn:E; [|reflexivity].
    apply String.eqb_eq in E. contradiction. }
  cbn -[round_price_to_step status_placed].
  rewrite Hb, Ha.
  cbn -[round_price_to_step status_placed].
  rewrite (Qle_bool_pos _ Hbp), (Qle_bool_pos _ Hap).
  cbn -[round_price_to_step status_placed].
  destruct (String.eqb dir "buy") eqn:Ed;
    cbn -[round_price_to_step status_placed];
    rewrite Hne;
    cbn -[round_price_to_step status_placed];
    rewrite <- !app_assoc; cbn -[round_price_to_step status_placed];
    destruct (String.eqb (status r) "CANCELED");
    try destruct again; try reflexivity;
    destruct (status_placed (VStr (status r))); reflexivity.
Qed.

(** The same pass through [open_attempt]: the [except] clause is not
    entered. *)
Lemma open_attempt_round (r : round) (k : nat) (rest : list (outcome pyval))
  (tr : list Call) (t : Q) (b : BotState) :
  usable float_of_string r ->
  open_attempt float_of_string cc cid qty dir k
    {| responses := round_responses r ++ rest; calls := tr; now := t; bot := b |} =
  (Ret (if String.eqb (status r) "CANCELED" then
          if (k <? max_retries - 1)%nat then Continue
          else Return (Error (ErrRejectedAfter "Order" max_retries))
        else if status_placed (VStr (status r)) then
          Return (Ok {| r_order_id := VStr (order_id r);
                        r_side := side_value (open_side dir);
                        r_size := qty;
                        r_price := open_price cc dir r;
                        r_status := Some (VStr (status r));
                        r_type := None |})
        else Return (Error (ErrUnexpectedStatus "order" (VStr (status r))))),
   {| responses := rest; calls := tr ++ round_calls cc cid qty dir r;
      now := t; bot := b |}).
Proof.
  intro Hu. unfold open_attempt.
  apply try_except_ret. apply open_attempt_body_round. exact Hu.
Qed.

Abbreviation all_rejected := (Mock.all_rejected float_of_string).

(** Rejected rounds are consumed one per pass while passes remain. *)
Lemma loop_rejected (rs : list round) :
  all_rejected rs ->
  forall (remaining : nat) rest tr t b,
    (List.length rs < remaining)%nat -> (remaining <= max_retries)%nat ->
    place_open_order_loop float_of_string cc cid qty dir remaining
      {| responses := flat_map round_responses rs ++ rest; calls := tr;
         now := t; bot := b |} =
    place_open_order_loop float_of_string cc cid qty dir
      (remaining - List.length rs)
      {| responses := rest;
         calls := tr ++ flat_map (round_calls cc cid qty dir) rs;
         now := t; bot := b |}.
Proof.
  induction 1 as [|r rs [Hu Hs] Hrs IH]; intros remaining rest tr t b Hlen Hmax.
  - simpl. rewrite Nat.sub_0_r, app_nil_r. reflexivity.
  - simpl in Hlen. destruct remaining as [|remaining']; [lia|].
    cbn [flat_map List.length]. rewrite <- app_assoc.
    cbn [place_open_order_loop].
    rewrite (bind_run _ _ _ _ _ (open_attempt_round r _ _ _ _ _ Hu)).
    rewrite Hs. cbn [String.eqb Ascii.eqb Bool.eqb].
    assert (Hk : (max_retries - S remaining' <? max_retries - 1)%nat = true).
    { apply Nat.ltb_lt. unfold max_retries in *. lia. }
    rewrite Hk.
    rewrite IH by lia.
    rewrite <- app_assoc. reflexivity.
Qed.

(** No pass raises: the [except] clause returns. *)
Lemma open_attempt_total (k : nat) (w : World) :
  exists c w', open_attempt float_of_string cc cid qty dir k w = (Ret c, w').
Proof.
  unfold open_attempt. apply try_except_total.
  intros e w0. destruct (k <? max_retries - 1)%nat; unfold ret; eauto.
Qed.

Lemma place_open_order_loop_total (remaining : nat) (w : World) :
  exists res w',
    place_open_order_loop float_of_string cc cid qty dir remaining w = (Ret res, w').
Proof.
  revert w. induction remaining as [|n IH]; intro w.
  - simpl. unfold ret. eauto.
  - cbn [place_open_order_loop].
    destruct (open_attempt_total (max_retries - S n) w) as (c & w' & E).
    rewrite (bind_run _ _ _ _ _ E).
    destruct c as [|res]; [apply IH | unfold ret; eauto].
Qed.

Lemma placed_not_canceled (s : string) :
  status_placed (VStr s) = true -> String.eqb s "CANCELED" = false.
Proof.
  unfold status_placed, eq_str. intro H.
  destruct (String.eqb s "CANCELED") eqn:E; [|reflexivity].
  apply String.eqb_eq in E. subst s. discriminate H.
Qed.

Lemma submissions_of_rounds (rs : list round) :
  List.length (filter is_submission (flat_map (round_calls cc cid qty dir) rs)) =
  List.length rs.
Proof.
  induction rs as [|r rs IH]; [reflexivity|].
  cbn [flat_map round_calls app filter is_submission List.length].
  rewrite IH. reflexivity.
Qed.

Lemma rounds_follow_book_reads (rs : list round) (after_read : bool) :
  submissions_follow_book_reads after_read
    (flat_map (round_calls cc cid qty dir) rs) = true.
Proof.
  revert after_read. induction rs as [|r rs IH]; intro after_read; [reflexivity|].
  cbn [flat_map round_calls app submissions_follow_book_reads is_submission
       is_book_read andb].
  apply IH.
Qed.

(** A list of at least fifteen rounds: the first fourteen, the fifteenth
    and the rest. *)
Lemma split_fifteen (rs : list round) :
  (15 <= List.length rs)%nat ->
  exists l1 r l2,
    rs = l1 ++ r :: l2 /\ List.length l1 = 14%nat /\
    firstn 15 rs = l1 ++ [r] /\ skipn 15 rs = l2.
Proof.
  intro H.
  do 15 (destruct rs as [|? rs]; [simpl in H; lia|]).
  eexists [_; _; _; _; _; _; _; _; _; _; _; _; _; _], _, rs.
  repeat split; reflexivity.
Qed.

(** Rejected rounds followed by an accepted one, within the budget. *)
Lemma place_open_order_accepted (rs : list round) (r' : round)
  (rest : list (outcome pyval)) (tr : list Call) (t : Q) (b : BotState) :
  all_rejected rs ->
  (List.length rs <= 14)%nat ->
  usable float_of_string r' ->
  status_placed (VStr (status r')) = true ->
  place_open_order float_of_string cc cid qty dir
    {| responses := flat_map round_responses rs ++ round_responses r' ++ rest;
       calls := tr; now := t; bot := b |} =
  (Ret (Ok {| r_order_id := VStr (order_id r');
              r_side := side_value (open_side dir);
              r_size := qty;
              r_price := open_price cc dir r';
              r_status := Some (VStr (status r'));
              r_type := None |}),
   {| responses := rest;
      calls := tr ++ flat_map (round_calls cc cid qty dir) (rs ++ [r']);
      now := t; bot := b |}).
Proof.
  intros Hrs Hlen Hu Hplaced.
  unfold place_open_order.
  rewrite (loop_rejected rs Hrs) by (unfold max_retries; lia).
  destruct (max_retries - List.length rs)%nat as [|n] eqn:En;
    [unfold max_retries in En; lia|].
  cbn [place_open_order_loop].
  rewrite (bind_run _ _ _ _ _ (open_attempt_round r' _ _ _ _ _ Hu)).
  rewrite (placed_not_canceled _ Hplaced), Hplaced.
  rewrite flat_map_app. cbn [flat_map]. rewrite app_nil_r, <- app_assoc.
  reflexivity.
Qed.

(** C4: when the first [N] submissions of an open order come back
    CANCELED, then (1) with [N <= 14] and submission [N+1] accepted,
    [place_open_order] returns success with that order's id, price and
    status, having made [N+1] rounds of book read, submission and status
    read; (2) with [N >= 15] it returns the failure result "rejected after
    15 attempts" after exactly fifteen submissions, each directly after a
    book read; (3) whatever the exchange answers, it returns a result and
    does not raise. *)
Theorem C4_open_order_retry_bound (rs : list round) (rest : list (outcome pyval))
  (tr : list Call) (t : Q) (b : BotState) :
  all_rejected rs ->
  (forall r',
      (List.length rs <= 14)%nat ->
      usable float_of_string r' ->
      status_placed (VStr (status r')) = true ->
      place_open_order float_of_string cc cid qty dir
        {| responses := flat_map round_responses rs ++ round_responses r' ++ rest;
           calls := tr; now := t; bot := b |} =
      (Ret (Ok {| r_order_id := VStr (order_id r');
                  r_side := side_value (open_side dir);
                  r_size := qty;
                  r_price := open_price cc dir r';
                  r_status := Some (VStr (status r'));
                  r_type := None |}),
       {| responses := rest;
          calls := tr ++ flat_map (round_calls cc cid qty dir) (rs ++ [r']);
          now := t; bot := b |})) /\
  ((15 <= List.length rs)%nat ->
      let made := flat_map (round_calls cc cid qty dir) (firstn 15 rs) in
      place_open_order float_of_string cc cid qty dir
        {| responses := flat_map round_responses rs ++ rest;
           calls := tr; now := t; bot := b |} =
      (Ret (Error (ErrRejectedAfter "Order" 15)),
       {| responses := flat_map round_responses (skipn 15 rs) ++ rest;
          calls := tr ++ made; now := t; bot := b |}) /\
      List.length (filter is_submission made) = 15%nat /\
      submissions_follow_book_reads false made = true) /\
  (forall w, exists res w',
      place_open_order float_of_string cc cid qty dir w = (Ret res, w')).
Proof.
  intro Hrs. split; [|split].
  - intros r' Hlen Hu Hplaced.
    apply place_open_order_accepted; assumption.
  - intros Hlen made.
    destruct (split_fifteen rs Hlen) as (l1 & r & l2 & Ers & Hl1 & Hfirst & Hskip).
    assert (Hall : all_rejected l1 /\ (usable float_of_string r /\
                   status r = "CANCELED"%string)).
    { unfold all_rejected in *. rewrite Ers in Hrs.
      apply Forall_app in Hrs. destruct Hrs as [H1 H2].
      split; [exact H1|]. inversion H2; assumption. }
    destruct Hall as [Hall1 [Hu Hs]].
    split; [|split].
    + unfold place_open_order, made.
      rewrite Hskip, Hfirst. rewrite Ers at 1.
      rewrite flat_map_app. cbn [flat_map]. rewrite <- !app_assoc.
      rewrite (loop_rejected l1 Hall1) by (unfold max_retries; lia).
      rewrite Hl1. unfold max_retries at 1.
      cbn [Nat.sub place_open_order_loop].
      rewrite (bind_run _ _ _ _ _ (open_attempt_round r _ _ _ _ _ Hu)).
      rewrite Hs. cbn.
      rewrite flat_map_app. cbn [flat_map]. rewrite app_nil_r, <- app_assoc.
      reflexivity.
    + unfold made. rewrite submissions_of_rounds.
      rewrite length_firstn. lia.
    + apply rounds_follow_book_reads.
  - intro w. apply place_open_order_loop_total.
Qed.

End Facts.

End OpenOrderFacts.

(** C4 on a scripted exchange: one rejection then an acceptance, and
    fifteen rejections. *)
Lemma C4_open_order_retry_bound_witness :
  Bot.place_open_order Decimal.parse Mock.demo_contract "10000001" (1 # 100) "buy"
    (Mock.world_of
       (Mock.round_responses (Mock.demo_round "a1" "CANCELED") ++
        Mock.round_responses (Mock.demo_round "a2" "OPEN") ++ [])
       0 Mock.initial_bot) =
  (Ret (Bot.Ok {| Bot.r_order_id := VStr "a2";
                  Bot.r_side := "BUY";
                  Bot.r_size := 1 # 100;
                  Bot.r_price :=
                    Mock.open_price Mock.demo_contract "buy"
                      (Mock.demo_round "a2" "OPEN");
                  Bot.r_status := Some (VStr "OPEN");
                  Bot.r_type := None |}),
   {| Bot.responses := [];
      Bot.calls :=
        [] ++ flat_map (Mock.round_calls Mock.demo_contract "10000001" (1 # 100) "buy")
                ([Mock.demo_round "a1" "CANCELED"] ++ [Mock.demo_round "a2" "OPEN"]);
      Bot.now := 0;
      Bot.bot := Mock.initial_bot |}) /\
  fst (Bot.place_open_order Decimal.parse Mock.demo_contract "10000001" (1 # 100) "sell"
         (Mock.world_of
            (flat_map Mock.round_responses
               (repeat (Mock.demo_round "b" "CANCELED") 16) ++ [])
            0 Mock.initial_bot)) =
  Ret (Bot.Error (Bot.ErrRejectedAfter "Order" 15)).
Proof.
  assert (Hu : forall id st, Mock.usable Decimal.parse (Mock.demo_round id st) \/
                             id = EmptyString).
  { intros id st. destruct (String.eqb id EmptyString) eqn:E.
    - right. apply String.eqb_eq. exact E.
    - left. unfold Mock.usable.
      refine (conj eq_refl (conj eq_refl (conj eq_refl (conj eq_refl _)))).
      simpl. intro H. subst id. discriminate E. }
  split.
  - assert (Hrej : Mock.all_rejected Decimal.parse
                     [Mock.demo_round "a1" "CANCELED"]).
    { constructor; [|constructor]. split; [|reflexivity].
      destruct (Hu "a1"%string "CANCELED"%string) as [H|H]; [exact H|discriminate H]. }
    destruct (OpenOrderFacts.C4_open_order_retry_bound Decimal.parse
                Mock.demo_contract "10000001" (1 # 100) "buy"
                [Mock.demo_round "a1" "CANCELED"] [] [] 0 Mock.initial_bot Hrej)
      as (Hacc & _ & _).
    apply (Hacc (Mock.demo_round "a2" "OPEN")).
    + simpl. lia.
    + destruct (Hu "a2"%string "OPEN"%string) as [H|H]; [exact H|discriminate H].
    + reflexivity.
  - assert (Hrej : Mock.all_rejected Decimal.parse
                     (repeat (Mock.demo_round "b" "CANCELED") 16)).
    { apply Forall_forall. intros x Hx. apply repeat_spec in Hx. subst x.
      split; [|reflexivity].
      destruct (Hu "b"%string "CANCELED"%string) as [H|H]; [exact H|discriminate H]. }
    destruct (OpenOrderFacts.C4_open_order_retry_bound Decimal.parse
                Mock.demo_contract "10000001" (1 # 100) "sell"
                (repeat (Mock.demo_round "b" "CANCELED") 16) [] [] 0
                Mock.initial_bot Hrej)
      as (_ & Hrejd & _).
    destruct Hrejd as (Hrun & _ & _); [simpl; lia|].
    unfold Mock.world_of. rewrite Hrun. reflexivity.
Defined.

(** ** The wait-time throttle *)

Module ThrottleFacts.
Import Bot.

Section Facts.

Variable config : TradingConfig.

Let ratio (n : Z) : Q := inject_Z n / inject_Z (max_orders config).
Let w : Q := wait_time config.

Lemma Qgeb_ge (x y : Q) : Qgeb x y = true <-> y <= x.
Proof. unfold Qgeb. apply Qle_bool_iff. Qed.

Lemma Qgeb_lt (x y : Q) : Qgeb x y = false <-> x < y.
Proof.
  unfold Qgeb. split; intro H.
  - apply Qnot_le_lt. intro Hle. apply Qle_bool_iff in Hle. congruence.
  - destruct (Qle_bool y x) eqn:E; [|reflexivity].
    apply Qle_bool_iff in E. exfalso. apply (Qlt_not_le _ _ H E).
Qed.

(** The four bands, as the chain of comparisons selects them. *)
Lemma cool_down_cases (n : Z) :
  (2 # 3 <= ratio n /\ cool_down_time config n = 2 * w) \/
  (1 # 3 <= ratio n /\ ratio n < 2 # 3 /\ cool_down_time config n = w) \/
  (1 # 6 <= ratio n /\ ratio n < 1 # 3 /\ cool_down_time config n = w / 2) \/
  (ratio n < 1 # 6 /\ cool_down_time config n = w / 4).
Proof.
  unfold cool_down_time. fold (ratio n). fold w.
  destruct (Qgeb (ratio n) (2 # 3)) eqn:E1.
  { left. split; [apply Qgeb_ge; exact E1|reflexivity]. }
  destruct (Qgeb (ratio n) (1 # 3)) eqn:E2.
  { right; left. apply Qgeb_ge in E2. apply Qgeb_lt in E1. auto. }
  destruct (Qgeb (ratio n) (1 # 6)) eqn:E3.
  { right; right; left. apply Qgeb_ge in E3. apply Qgeb_lt in E2. auto. }
  right; right; right. apply Qgeb_lt in E3. auto.
Qed.

Lemma ratio_monotone (n n' : Z) :
  (0 < max_orders config)%Z -> (n <= n')%Z -> ratio n <= ratio n'.
Proof.
  intros Hm Hn. unfold ratio, Qdiv.
  apply Qmult_le_compat_r.
  - rewrite <- Zle_Qle. exact Hn.
  - apply Qinv_le_0_compat. replace 0 with (inject_Z 0) by reflexivity.
    rewrite <- Zle_Qle. lia.
Qed.

(** C7 (as stated) fails: with one active order out of a
    maximum of six the cooldown is half the base wait, which is none of
    a quarter, once, twice the base wait or zero. *)
Lemma C7_half_band_counterexample :
  let cd := cool_down_time Mock.demo_config 1 in
  let base := wait_time Mock.demo_config in
  cd == base / 2 /\
  ~ (cd == base / 4 \/ cd == base \/ cd == 2 * base \/ cd == 0).
Proof.
  split; [reflexivity|].
  intros [H|[H|[H|H]]]; vm_compute in H; discriminate H.
Qed.

(** C7 (amended): the cooldown before the next open is chosen from the
    ratio of active orders to the maximum in four bands: a quarter of the
    base wait below 1/6, half of it from 1/6, the base wait from 1/3 and
    twice the base wait from 2/3; it does not decrease as the number of
    active orders grows.  [_calculate_wait_time] answers "go" (0) at once
    when the number of active orders has dropped since the last call,
    "wait" (1) when it has reached the maximum, and otherwise "go" exactly
    when more than the cooldown has passed since the last open. *)
Theorem C7_wait_time_bands (n : Z) :
  (ratio n < 1 # 6 -> cool_down_time config n = w / 4) /\
  (1 # 6 <= ratio n -> ratio n < 1 # 3 -> cool_down_time config n = w / 2) /\
  (1 # 3 <= ratio n -> ratio n < 2 # 3 -> cool_down_time config n = w) /\
  (2 # 3 <= ratio n -> cool_down_time config n = 2 * w) /\
  (forall n', 0 <= w -> (0 < max_orders config)%Z -> (n <= n')%Z ->
     cool_down_time config n <= cool_down_time config n') /\
  (forall wd : World,
     Z.of_nat (List.length (active_close_orders (bot wd))) = n ->
     ((n < last_close_orders (bot wd))%Z ->
        fst (_calculate_wait_time config wd) = Ret 0) /\
     ((last_close_orders (bot wd) <= n)%Z -> (max_orders config <= n)%Z ->
        fst (_calculate_wait_time config wd) = Ret 1) /\
     ((last_close_orders (bot wd) <= n)%Z -> (n < max_orders config)%Z ->
        fst (_calculate_wait_time config wd) =
        Ret (if Qgtb (now wd - last_open_order_time (bot wd)) (cool_down_time config n)
             then 0 else 1)) /\
     last_close_orders (bot (snd (_calculate_wait_time config wd))) = n).
Proof.
  refine (conj _ (conj _ (conj _ (conj _ (conj _ _))))).
  - intro H. destruct (cool_down_cases n) as [[H1 E]|[[H1 [H2 E]]|[[H1 [H2 E]]|[H1 E]]]];
      try exact E; exfalso; lra.
  - intros Ha Hb.
    destruct (cool_down_cases n) as [[H1 E]|[[H1 [H2 E]]|[[H1 [H2 E]]|[H1 E]]]];
      try exact E; exfalso; lra.
  - intros Ha Hb.
    destruct (cool_down_cases n) as [[H1 E]|[[H1 [H2 E]]|[[H1 [H2 E]]|[H1 E]]]];
      try exact E; exfalso; lra.
  - intro H. destruct (cool_down_cases n) as [[H1 E]|[[H1 [H2 E]]|[[H1 [H2 E]]|[H1 E]]]];
      try exact E; exfalso; lra.
  - intros n' Hw Hm Hn.
    pose proof (ratio_monotone n n' Hm Hn) as Hr.
    destruct (cool_down_cases n) as [[H1 E]|[[H1 [H2 E]]|[[H1 [H2 E]]|[H1 E]]]];
      destruct (cool_down_cases n') as [[H1' E']|[[H1' [H2' E']]|[[H1' [H2' E']]|[H1' E']]]];
      rewrite E, E'; try lra;
      unfold Qdiv; change (/ 2) with (1 # 2); change (/ 4) with (1 # 4); lra.
  - intros wd Hn.
    unfold _calculate_wait_time, bind, get_bot, update_bot, ret, time_time.
    rewrite Hn.
    refine (conj _ (conj _ (conj _ _))).
    + intro H. apply Z.ltb_lt in H. rewrite H. reflexivity.
    + intros H1 H2.
      assert (E1 : (n <? last_close_orders (bot wd))%Z = false) by (apply Z.ltb_ge; lia).
      assert (E2 : (n >=? max_orders config)%Z = true) by (apply Z.geb_le; lia).
      rewrite E1. cbn. rewrite E2. reflexivity.
    + intros H1 H2.
      assert (E1 : (n <? last_close_orders (bot wd))%Z = false) by (apply Z.ltb_ge; lia).
      assert (E2 : (n >=? max_orders config)%Z = false).
      { destruct (n >=? max_orders config)%Z eqn:E; [|reflexivity].
        apply Z.geb_le in E. lia. }
      rewrite E1. cbn. rewrite E2.
      destruct (Qgtb _ _); reflexivity.
    + destruct (n <? last_close_orders (bot wd))%Z; cbn; [reflexivity|].
      destruct (n >=? max_orders config)%Z; cbn; [reflexivity|].
      destruct (Qgtb _ _); reflexivity.
Qed.

End Facts.

End ThrottleFacts.

(** C7 (amended) on the demonstration configuration (base wait 4, at
    most 6 orders): 0, 1, 2 and 4 active orders. *)
Lemma C7_wait_time_bands_witness :
  Bot.cool_down_time Mock.demo_config 0 = 4 / 4 /\
  Bot.cool_down_time Mock.demo_config 1 = 4 / 2 /\
  Bot.cool_down_time Mock.demo_config 2 = 4 /\
  Bot.cool_down_time Mock.demo_config 4 = 2 * 4 /\
  Bot.cool_down_time Mock.demo_config 1 <= Bot.cool_down_time Mock.demo_config 5 /\
  fst (Bot._calculate_wait_time Mock.demo_config (Mock.world_of [] 100 Mock.initial_bot))
  = Ret 0.
Proof.
  refine (conj _ (conj _ (conj _ (conj _ (conj _ _))))).
  - destruct (ThrottleFacts.C7_wait_time_bands Mock.demo_config 0) as (H & _).
    apply H. reflexivity.
  - destruct (ThrottleFacts.C7_wait_time_bands Mock.demo_config 1) as (_ & H & _).
    apply H; [vm_compute; discriminate | reflexivity].
  - destruct (ThrottleFacts.C7_wait_time_bands Mock.demo_config 2) as (_ & _ & H & _).
    apply H; [vm_compute; discriminate | reflexivity].
  - destruct (ThrottleFacts.C7_wait_time_bands Mock.demo_config 4) as (_ & _ & _ & H & _).
    apply H. vm_compute; discriminate.
  - destruct (ThrottleFacts.C7_wait_time_bands Mock.demo_config 1) as (_ & _ & _ & _ & H & _).
    apply H; [vm_compute; discriminate | reflexivity | vm_compute; discriminate].
  - destruct (ThrottleFacts.C7_wait_time_bands Mock.demo_config 0)
      as (_ & _ & _ & _ & _ & H).
    destruct (H (Mock.world_of [] 100 Mock.initial_bot) eq_refl) as (_ & _ & H3 & _).
    rewrite H3; [reflexivity | vm_compute; discriminate | reflexivity].
Defined.

(** ** The inventory read *)

Module InventoryReadFacts.
Import Bot Inventory MonadFacts.

Section Facts.

Variable float_of_string : string -> option Q.
Variable config : TradingConfig.

(** [get_account_positions] turns a failed query into an empty
    dictionary. *)
Lemma get_account_positions_run (r : outcome pyval) (rs : list (outcome pyval))
  (tr : list Call) (t : Q) (b : BotState) :
  get_account_positions
    {| responses := r :: rs; calls := tr; now := t; bot := b |} =
  (Ret (match r with Ret v => v | Raise _ => VDict [] end),
   {| responses := rs; calls := tr ++ [GetAccountPositions]; now := t; bot := b |}).
Proof. destruct r; reflexivity. Qed.

(** The inventory read in terms of the payload it is given. *)
Lemma get_current_inventory_run (r : outcome pyval) (rs : list (outcome pyval))
  (tr : list Call) (t : Q) (b : BotState) :
  get_current_inventory float_of_string config
    {| responses := r :: rs; calls := tr; now := t; bot := b |} =
  (Ret (match r with
        | Ret v => match inventory_of_positions float_of_string config v with
                   | Ret x => x
                   | Raise _ => 0
                   end
        | Raise _ => 0
        end),
   {| responses := rs; calls := tr ++ [GetAccountPositions]; now := t; bot := b |}).
Proof.
  unfold get_current_inventory, try_except, bind.
  rewrite get_account_positions_run.
  destruct r as [v|e]; cbn.
  - destruct (inventory_of_positions float_of_string config v); reflexivity.
  - reflexivity.
Qed.

(** The read never raises. *)
Lemma get_current_inventory_total (wd : World) :
  exists x wd', get_current_inventory float_of_string config wd = (Ret x, wd').
Proof.
  destruct wd as [rs tr t b]. destruct rs as [|r rs].
  - eexists _, _. reflexivity.
  - rewrite get_current_inventory_run. eauto.
Qed.

Abbreviation no_entry := (Mock.no_entry config).

Lemma find_position_no_entry (ps : list pyval) :
  no_entry ps -> find_position float_of_string config ps = Ret None.
Proof.
  induction ps as [|p ps IH]; intro H; [reflexivity|].
  assert (Hp := H p (or_introl eq_refl)).
  assert (Hps : no_entry ps) by (intros x Hx; apply H; right; exact Hx).
  cbn [find_position].
  destruct p as [| | | | |d]; cbn; try (apply IH; exact Hps).
  destruct (lookup "contractId" d) as [c|]; cbn.
  - rewrite Hp. apply IH; exact Hps.
  - apply IH; exact Hps.
Qed.

(** When the loop returns a size, an element of [ps] is a dictionary of
    the contract whose [openSize] reads as a number, and the size is that
    number or its opposite. *)
Lemma find_position_some (ps : list pyval) (x : Q) :
  find_position float_of_string config ps = Ret (Some x) ->
  exists d raw size,
    In (VDict d) ps /\
    lookup "contractId" d = Some (VStr (contract_id config)) /\
    Py.float float_of_string raw = Ret size /\
    (x = size \/ x = - size).
Proof.
  induction ps as [|p ps IH]; intro H; [discriminate H|].
  cbn [find_position] in H.
  destruct p as [| | | | |d]; cbn in H;
    try (destruct (IH H) as (d' & raw & size & Hin & Hrest);
         exists d', raw, size; split; [right; exact Hin|exact Hrest]).
  destruct (lookup "contractId" d) as [c|] eqn:Ec; cbn in H.
  - destruct (eq_str c (contract_id config)) eqn:Eq.
    + destruct c; try discriminate Eq. cbn in Eq. apply String.eqb_eq in Eq. subst s.
      destruct (Py.float float_of_string
                  match lookup "openSize" d with Some x0 => x0 | None => VNum 0 end)
        as [size|e] eqn:Ef; cbn in H; [|discriminate H].
      exists d, (match lookup "openSize" d with Some x0 => x0 | None => VNum 0 end), size.
      split; [left; reflexivity|]. split; [exact Ec|]. split; [exact Ef|].
      destruct (eq_str _ "SHORT"); inversion H; auto.
    + destruct (IH H) as (d' & raw & size & Hin & Hrest).
      exists d', raw, size; split; [right; exact Hin|exact Hrest].
  - destruct (IH H) as (d' & raw & size & Hin & Hrest).
    exists d', raw, size; split; [right; exact Hin|exact Hrest].
Qed.

(** A payload from which the read takes a non-zero inventory has the
    documented shape down to an entry of the contract. *)
Lemma inventory_nonzero_shape (v : pyval) (x : Q) :
  inventory_of_positions float_of_string config v = Ret x ->
  ~ x == 0 ->
  exists d dd pl ps ed raw size,
    v = VDict d /\
    lookup "data" d = Some (VDict dd) /\
    lookup "positionList" dd = Some pl /\
    iter pl = Ret ps /\
    In (VDict ed) ps /\
    lookup "contractId" ed = Some (VStr (contract_id config)) /\
    Py.float float_of_string raw = Ret size /\
    (x = size \/ x = - size).
Proof.
  intros H Hx.
  assert (Hz : forall y : Q, Ret y = Ret x -> y = 0 -> False).
  { intros y Hy H0. inversion Hy. subst. apply Hx. reflexivity. }
  unfold inventory_of_positions in H.
  destruct (truthy v) eqn:Etv; cbn in H;
    [|exfalso; exact (Hz 0 H eq_refl)].
  destruct (contains "data" v) as [has|e] eqn:Ec; cbn in H; [|discriminate H].
  destruct has; cbn in H; [|exfalso; exact (Hz 0 H eq_refl)].
  destruct v as [| | | | |d]; try discriminate H.
  cbn in H, Ec.
  destruct (lookup "data" d) as [data|] eqn:Ed; [|discriminate Ec].
  destruct data as [| | | | |dd]; try discriminate H.
  cbn in H.
  destruct (lookup "positionList" dd) as [pl|] eqn:Ep;
    [|cbn in H; exfalso; exact (Hz 0 H eq_refl)].
  destruct (truthy pl) eqn:Etp; cbn in H; [|exfalso; exact (Hz 0 H eq_refl)].
  destruct (iter pl) as [ps|e] eqn:Ei; cbn in H; [|discriminate H].
  destruct (find_position float_of_string config ps) as [[y|]|e] eqn:Ef; cbn in H;
    [|exfalso; exact (Hz 0 H eq_refl)|discriminate H].
  inversion H; subst y.
  destruct (find_position_some ps x Ef) as (ed & raw & size & Hin & Hc & Hfl & Hsz).
  exists d, dd, pl, ps, ed, raw, size. repeat split; auto.
Qed.

Lemma strategy_of_zero (x : Q) :
  0 < quantity config -> x == 0 ->
  get_trading_strategy (quantity config) x = normal /\
  risk_tier (quantity config) x = NORMAL.
Proof.
  intros Hq Hx.
  assert (Ha : Qabs x == 0) by (rewrite Hx; reflexivity).
  assert (E1 : Qltb (Qabs x) (2 * quantity config) = true)
    by (apply Qltb_lt; rewrite Ha; lra).
  assert (E2 : Qgtb (Qabs x) (8 * quantity config) = false)
    by (apply Qgtb_le; rewrite Ha; lra).
  unfold risk_tier, should_emergency_hedge, get_trading_strategy, inventory_layers.
  cbn [safe caution danger emergency].
  rewrite E1, E2. split; reflexivity.
Qed.


End Facts.

End InventoryReadFacts.


(** ** The emergency hedge *)

Module HedgeFacts.
Import Bot Inventory Mock MonadFacts.

Section Facts.

Variable float_of_string : string -> option Q.
Variable config : TradingConfig.
Variable cc : ContractConfig.

(** [place_hedge_order] wraps everything in one [try]: it never raises. *)
Lemma place_hedge_order_total (dir : string) (qty : Q) (aggressive : bool) (wd : World) :
  exists res wd',
    place_hedge_order float_of_string config cc dir qty aggressive wd = (Ret res, wd').
Proof.
  unfold place_hedge_order. apply try_except_total.
  intros e w0. unfold ret. eauto.
Qed.

(** Against a book with at least one level a side and an accepting
    exchange, an aggressive hedge is one book read and one post-only
    submission at the deep price. *)
Lemma place_hedge_order_aggressive (dir : string) (qty : Q) (bids asks : list Q)
  (id : string) (rest : list (outcome pyval)) (tr : list Call) (t : Q) (b : BotState) :
  bids <> [] -> asks <> [] -> id <> EmptyString ->
  place_hedge_order float_of_string config cc dir qty true
    {| responses := Ret (book_of_levels (map VNum bids) (map VNum asks))
                    :: Ret (created_payload id) :: rest;
       calls := tr; now := t; bot := b |} =
  (Ret (Ok {| r_order_id := VStr id;
              r_side := dir;
              r_size := qty;
              r_price := aggressive_price cc dir bids asks;
              r_status := None;
              r_type := Some "hedge"%string |}),
   {| responses := rest;
      calls := tr ++ [GetOrderBookDepth (contract_id config) 15;
                      CreateLimitOrder (contract_id config) qty
                        (aggressive_price cc dir bids asks)
                        (if String.eqb dir "sell" then SELL else BUY) true];
      now := t; bot := b |}).
Proof.
  intros Hb Ha Hid.
  assert (Hne : String.eqb id EmptyString = false).
  { destruct (String.eqb id EmptyString) eqn:E; [|reflexivity].
    apply String.eqb_eq in E. contradiction. }
  unfold place_hedge_order, aggressive_price.
  apply try_except_ret.
  destruct bids as [|b1 [|b2 [|b3 bs]]]; [contradiction| | |];
    (destruct asks as [|a1 [|a2 [|a3 az]]]; [contradiction| | |]);
    destruct (String.eqb dir "sell") eqn:Ed;
    cbn -[round_price_to_step]; rewrite ?Ed; cbn -[round_price_to_step];
    rewrite Hne; cbn -[round_price_to_step];
    rewrite <- app_assoc; reflexivity.
Qed.


End Facts.

End HedgeFacts.


(** ** The volatility gate *)

Module VolatilityFacts.
Import Bot Mock MonadFacts.

Section Facts.

Variable float_of_string : string -> option Q.

Abbreviation fallback := (_check_volatility_fallback float_of_string).
Abbreviation check := (check_btc_volatility_safe float_of_string).

(** The fallback in terms of the answer to the quote query. *)
Lemma fallback_run (m : Q) (r : outcome pyval) (rs : list (outcome pyval))
  (tr : list Call) (t : Q) (b : BotState) :
  fallback m {| responses := r :: rs; calls := tr; now := t; bot := b |} =
  (Ret (match r with
        | Ret v => match quote_is_calm float_of_string v with
                   | Ret x => x
                   | Raise _ => true
                   end
        | Raise _ => true
        end),
   {| responses := rs; calls := tr ++ [Get24HourQuote "10000001"];
      now := t; bot := b |}).
Proof.
  unfold _check_volatility_fallback, try_except, bind.
  rewrite call_cons.
  destruct r as [v|e]; [|reflexivity].
  unfold lift. destruct (quote_is_calm float_of_string v); reflexivity.
Qed.

Lemma fallback_exhausted (m : Q) (tr : list Call) (t : Q) (b : BotState) :
  fallback m {| responses := []; calls := tr; now := t; bot := b |} =
  (Ret true,
   {| responses := []; calls := tr ++ [Get24HourQuote "10000001"];
      now := t; bot := b |}).
Proof. reflexivity. Qed.

Lemma fallback_total (m : Q) (wd : World) :
  exists verdict wd', fallback m wd = (Ret verdict, wd').
Proof.
  destruct wd as [[|r rs] tr t b].
  - rewrite fallback_exhausted. eauto.
  - rewrite fallback_run. eauto.
Qed.

(** The verdict of the fallback does not depend on the bot's fields. *)
Lemma fallback_verdict_of_responses (m : Q) (wd wd' : World) :
  responses wd = responses wd' -> fst (fallback m wd) = fst (fallback m wd').
Proof.
  destruct wd as [rs tr t b], wd' as [rs' tr' t' b']. cbn. intro E. subst rs'.
  destruct rs as [|r rs].
  - rewrite !fallback_exhausted. reflexivity.
  - rewrite !fallback_run. reflexivity.
Qed.

Lemma quote_is_calm_payload (c_v : pyval) (c : Q) :
  Py.float float_of_string c_v = Ret c ->
  quote_is_calm float_of_string (quote_payload c_v) =
  Ret (negb (Qgtb (Qabs c) (3 # 100))).
Proof.
  intro H. unfold quote_is_calm, quote_payload. cbn. rewrite H. cbn.
  destruct (Qgtb (Qabs c) (3 # 100)); reflexivity.
Qed.

(** The fallback objects only to a successful quote whose first ticker
    reports a change above three percent. *)
Lemma quote_not_calm_shape (v : pyval) :
  quote_is_calm float_of_string v = Ret false ->
  exists d tickers ticker raw c,
    v = VDict d /\
    lookup "code" d = Some (VStr "SUCCESS") /\
    lookup "data" d = Some (VList (ticker :: tickers)) /\
    get ticker "priceChangePercent" (VNum 0) = Ret raw /\
    Py.float float_of_string raw = Ret c /\
    3 # 100 < Qabs c.
Proof.
  unfold quote_is_calm. intro H.
  destruct (truthy v) eqn:Et; cbn in H; [|discriminate H].
  destruct (contains "data" v) as [has|e] eqn:Ec; cbn in H; [|discriminate H].
  destruct has; cbn in H; [|discriminate H].
  destruct v as [| | | | |d]; try discriminate H.
  cbn in Ec, H.
  destruct (lookup "data" d) as [data|] eqn:Ed; [|discriminate Ec].
  destruct (lookup "code" d) as [code|] eqn:Eco; cbn in H; [|discriminate H].
  destruct (eq_str code "SUCCESS") eqn:Es; cbn in H; [|discriminate H].
  destruct code; try discriminate Es. cbn in Es. apply String.eqb_eq in Es. subst s.
  destruct data as [| | | |l|]; cbn in H; try discriminate H;
    try (destruct (negb _); discriminate H);
    try (destruct (String.eqb _ _); discriminate H);
    try (destruct b; discriminate H);
    try (destruct d0; discriminate H).
  destruct l as [|ticker tickers]; cbn in H; [discriminate H|].
  destruct (get ticker "priceChangePercent" (VNum 0)) as [raw|e] eqn:Eg;
    cbn in H; [|discriminate H].
  destruct (Py.float float_of_string raw) as [c|e] eqn:Ef; cbn in H; [|discriminate H].
  destruct (Qgtb (Qabs c) (3 # 100)) eqn:Eq; [|discriminate H].
  exists d, tickers, ticker, raw, c.
  repeat split; auto. apply Qgtb_gt. exact Eq.
Qed.

(** ** Highest and lowest price of a window *)

Lemma fold_max_ge (rest : list Q) (p : Q) :
  p <= fold_left (fun m x => if Qltb m x then x else m) rest p.
Proof.
  revert p. induction rest as [|x rest IH]; intro p; cbn [fold_left].
  - apply Qle_refl.
  - destruct (Qltb p x) eqn:E.
    + apply Qltb_lt in E. apply Qle_trans with x; [apply Qlt_le_weak; exact E|apply IH].
    + apply IH.
Qed.

Lemma fold_min_le (rest : list Q) (p : Q) :
  fold_left (fun m x => if Qltb x m then x else m) rest p <= p.
Proof.
  revert p. induction rest as [|x rest IH]; intro p; cbn [fold_left].
  - apply Qle_refl.
  - destruct (Qltb x p) eqn:E.
    + apply Qltb_lt in E. apply Qle_trans with x; [apply IH|apply Qlt_le_weak; exact E].
    + apply IH.
Qed.

Lemma lowest_le_highest (prices : list Q) : lowest prices <= highest prices.
Proof.
  destruct prices as [|p rest]; [apply Qle_refl|].
  unfold lowest, highest, py_min_list, py_max_list.
  apply Qle_trans with p; [apply fold_min_le|apply fold_max_ge].
Qed.

#[local] Instance Qgtb_proper : Proper (Qeq ==> Qeq ==> eq) Qgtb.
Proof.
  intros x x' Hx y y' Hy. unfold Qgtb, Qltb. rewrite Hx, Hy. reflexivity.
Qed.

Lemma amplitude_abs (prices : list Q) :
  Qabs (highest prices - lowest prices) == highest prices - lowest prices.
Proof.
  apply Qabs_pos. pose proof (lowest_le_highest prices). lra.
Qed.

Lemma recent_prices_idempotent (t : Q) (h : list PriceSample) :
  recent_prices t (recent_prices t h) = recent_prices t h.
Proof.
  unfold recent_prices. induction h as [|s h IH]; [reflexivity|].
  cbn [filter]. destruct (Qgtb (timestamp s) (t - 60)) eqn:E.
  - cbn [filter]. rewrite E, IH. reflexivity.
  - exact IH.
Qed.

(** The body of the gate, case by case. *)
Lemma realtime_unfold (m : Q) (wd : World) :
  let prices := window (now wd) (btc_price_history (bot wd)) in
  realtime_check float_of_string m wd =
  if (List.length prices <? 2)%nat then fallback m wd
  else if Qeq_bool (latest prices) 0 then (Raise ZeroDivisionError, wd)
  else (Ret (amplitude_verdict m prices), wd).
Proof.
  intro prices. subst prices. unfold window.
  unfold realtime_check, bind, time_time, get_bot.
  destruct (btc_price_history (bot wd)) as [|s h] eqn:Eh.
  - reflexivity.
  - rewrite length_map.
    destruct (List.length (recent_prices (now wd) (s :: h)) <? 2)%nat eqn:El.
    + reflexivity.
    + destruct (map price (recent_prices (now wd) (s :: h))) as [|p rest] eqn:Ep.
      * apply (f_equal (@List.length Q)) in Ep. rewrite length_map in Ep.
        rewrite Ep in El. discriminate El.
      * unfold amplitude_verdict, highest, lowest, latest.
        cbn [py_max_list py_min_list py_last lift].
        unfold py_div.
        destruct (Qeq_bool (last rest p) 0); [reflexivity|].
        unfold ret.
        destruct (Qgtb _ m || Qgtb _ (1 # 2)); reflexivity.
Qed.

(** The gate, case by case. *)
Lemma check_unfold (m : Q) (wd : World) :
  let prices := window (now wd) (btc_price_history (bot wd)) in
  check m wd =
  if (List.length prices <? 2)%nat then fallback m wd
  else if Qeq_bool (latest prices) 0 then fallback m wd
  else (Ret (amplitude_verdict m prices), wd).
Proof.
  intro prices. unfold check_btc_volatility_safe, try_except.
  rewrite realtime_unfold. fold prices.
  destruct (fallback_total m wd) as (v & wd' & Ef).
  destruct (List.length prices <? 2)%nat; [rewrite Ef; reflexivity|].
  destruct (Qeq_bool (latest prices) 0); reflexivity.
Qed.

Lemma amplitude_verdict_false (m : Q) (prices : list Q) :
  amplitude_verdict m prices = false <->
  (m < highest prices - lowest prices \/
   5 # 1000 < (highest prices - lowest prices) / latest prices).
Proof.
  unfold amplitude_verdict.
  rewrite negb_false_iff, orb_true_iff, !Qgtb_gt.
  rewrite !amplitude_abs.
  set (r := (highest prices - lowest prices) / latest prices).
  split; (intros [H|H]; [left; exact H|right; lra]).
Qed.



(** C10: the gate fails open.  Whenever the amplitude check raises, the
    answer is that of the 24-hour fallback (in the model this is the
    division by a zero latest price); the fallback answers "safe" when the
    quote request raises or is not answered and when reading the quote
    raises, and it answers "unsafe" only on a successful, well-formed quote
    reporting a change above 3 percent; neither function raises; with no
    price data and a failing quote request the gate answers "safe". *)
Theorem C10_volatility_gate_fails_open (m : Q) (rs : list (outcome pyval))
  (tr : list Call) (t : Q) (b : BotState) :
  let world r := {| responses := r; calls := tr; now := t; bot := b |} in
  let asked r :=
    {| responses := r; calls := tr ++ [Get24HourQuote "10000001"];
       now := t; bot := b |} in
  (forall wd e wd',
     realtime_check float_of_string m wd = (Raise e, wd') ->
     check m wd = fallback m wd') /\
  ((2 <= List.length (window t (btc_price_history b)))%nat ->
   latest (window t (btc_price_history b)) == 0 ->
   realtime_check float_of_string m (world rs) = (Raise ZeroDivisionError, world rs)) /\
  (forall e, fallback m (world (Raise e :: rs)) = (Ret true, asked rs)) /\
  fallback m (world []) = (Ret true, asked []) /\
  (forall v e, quote_is_calm float_of_string v = Raise e ->
     fallback m (world (Ret v :: rs)) = (Ret true, asked rs)) /\
  (forall v, fallback m (world (Ret v :: rs)) = (Ret false, asked rs) ->
     exists d tickers ticker raw c,
       v = VDict d /\ lookup "code" d = Some (VStr "SUCCESS") /\
       lookup "data" d = Some (VList (ticker :: tickers)) /\
       get ticker "priceChangePercent" (VNum 0) = Ret raw /\
       Py.float float_of_string raw = Ret c /\ 3 # 100 < Qabs c) /\
  (forall wd, exists safe_to_trade wd', check m wd = (Ret safe_to_trade, wd')) /\
  (forall e, (List.length (window t (btc_price_history b)) < 2)%nat ->
     check m (world (Raise e :: rs)) = (Ret true, asked rs)).
Proof.
  intros world asked. unfold world, asked.
  refine (conj _ (conj _ (conj _ (conj _ (conj _ (conj _ (conj _ _))))))).
  - intros wd e wd' H. unfold check_btc_volatility_safe.
    rewrite (try_except_raise _ _ _ _ _ H). reflexivity.
  - intros Hlen Hlatest. rewrite realtime_unfold. cbn [now bot].
    assert (E1 : (List.length (window t (btc_price_history b)) <? 2)%nat = false)
      by (apply Nat.ltb_ge; exact Hlen).
    assert (E2 : Qeq_bool (latest (window t (btc_price_history b))) 0 = true)
      by (apply Qeq_bool_iff; exact Hlatest).
    rewrite E1, E2. reflexivity.
  - intro e. rewrite fallback_run. reflexivity.
  - reflexivity.
  - intros v e H. rewrite fallback_run, H. reflexivity.
  - intros v H. rewrite fallback_run in H.
    destruct (quote_is_calm float_of_string v) as [x|e] eqn:E.
    + inversion H. subst x. apply quote_not_calm_shape. exact E.
    + inversion H.
  - intro wd. rewrite check_unfold.
    destruct (List.length _ <? 2)%nat; [apply fallback_total|].
    destruct (Qeq_bool _ 0); [apply fallback_total|eauto].
  - intros e Hlen. rewrite check_unfold. cbn [now bot].
    assert (E1 : (List.length (window t (btc_price_history b)) <? 2)%nat = true)
      by (apply Nat.ltb_lt; exact Hlen).
    rewrite E1. rewrite fallback_run. reflexivity.
Qed.

End Facts.

End VolatilityFacts.


(** C10 on a failing market-data feed: no recorded price and a quote
    request that raises, and a buffer whose latest price is zero. *)
Lemma C10_volatility_gate_fails_open_witness :
  fst (Bot.check_btc_volatility_safe Decimal.parse 105
         (Mock.world_of [Raise ApiError] 0 Mock.initial_bot)) = Ret true /\
  fst (Bot._check_volatility_fallback Decimal.parse 105
         (Mock.world_of [Ret (VDict [("code"%string, VStr "SUCCESS");
                                     ("data"%string, VList [VStr "oops"])])]
            0 Mock.initial_bot)) = Ret true /\
  (let b := Bot.set_btc_price_history
              [ {| Bot.price := 100; Bot.timestamp := 0 |};
                {| Bot.price := 0; Bot.timestamp := 1 |} ] Mock.initial_bot in
   Bot.check_btc_volatility_safe Decimal.parse 105 (Mock.world_of [] 2 b) =
   Bot._check_volatility_fallback Decimal.parse 105 (Mock.world_of [] 2 b)).
Proof.
  refine (conj _ (conj _ _)).
  - destruct (VolatilityFacts.C10_volatility_gate_fails_open Decimal.parse 105
                [] [] 0 Mock.initial_bot) as (_ & _ & _ & _ & _ & _ & _ & H).
    unfold Mock.world_of. rewrite (H ApiError); [reflexivity|]. vm_compute. lia.
  - destruct (VolatilityFacts.C10_volatility_gate_fails_open Decimal.parse 105
                [] [] 0 Mock.initial_bot) as (_ & _ & _ & _ & H & _).
    unfold Mock.world_of. rewrite (H _ AttributeError); reflexivity.
  - intro b.
    destruct (VolatilityFacts.C10_volatility_gate_fails_open Decimal.parse 105
                [] [] 2 b) as (Hraise & Hzero & _).
    apply (Hraise _ ZeroDivisionError). apply Hzero.
    + vm_compute. lia.
    + reflexivity.
Defined.

(** ** The trace only grows *)

Module TraceFacts.
Import Bot MonadFacts.

Lemma grows_ret {A : Type} (a : A) : grows (ret a).
Proof. intro w. exists []. cbn. rewrite app_nil_r. reflexivity. Qed.

Lemma grows_lift {A : Type} (o : outcome A) : grows (lift o).
Proof. intro w. exists []. cbn. rewrite app_nil_r. reflexivity. Qed.

Lemma grows_get_bot : grows get_bot.
Proof. intro w. exists []. cbn. rewrite app_nil_r. reflexivity. Qed.

Lemma grows_time_time : grows time_time.
Proof. intro w. exists []. cbn. rewrite app_nil_r. reflexivity. Qed.

Lemma grows_update_bot (f : BotState -> BotState) : grows (update_bot f).
Proof. intro w. exists []. cbn. rewrite app_nil_r. reflexivity. Qed.

Lemma grows_call (c : Call) : grows (call c).
Proof.
  intro w. exists [c]. unfold call. destruct (responses w); reflexivity.
Qed.

Lemma grows_bind {A B : Type} (m : M A) (k : A -> M B) :
  grows m -> (forall a, grows (k a)) -> grows (bind m k).
Proof.
  intros Hm Hk w. unfold bind.
  destruct (Hm w) as (l1 & E1).
  destruct (m w) as [[a|e] w1]; cbn in E1.
  - destruct (Hk a w1) as (l2 & E2). exists (l1 ++ l2).
    rewrite E2, E1, app_assoc. reflexivity.
  - exists l1. exact E1.
Qed.

Lemma grows_try_except {A : Type} (m : M A) (h : pyexn -> M A) :
  grows m -> (forall e, grows (h e)) -> grows (try_except m h).
Proof.
  intros Hm Hh w. unfold try_except.
  destruct (Hm w) as (l1 & E1).
  destruct (m w) as [[a|e] w1]; cbn in E1.
  - exists l1. exact E1.
  - destruct (Hh e w1) as (l2 & E2). exists (l1 ++ l2).
    rewrite E2, E1, app_assoc. reflexivity.
Qed.

Ltac grow_step :=
  first
    [ apply grows_ret | apply grows_lift | apply grows_call | apply grows_update_bot
    | apply grows_get_bot | apply grows_time_time
    | assumption
    | apply grows_bind; [|intro]
    | apply grows_try_except; [|intro]
    | match goal with
      | |- grows (if ?c then _ else _) => destruct c
      | |- grows (match ?x with _ => _ end) => destruct x
      end ].

Ltac grow := repeat grow_step.

Section Facts.

Variable float_of_string : string -> option Q.
Variable config : TradingConfig.
Variable cc : ContractConfig.

Lemma grows_get_order_info (id : pyval) : grows (get_order_info id).
Proof. unfold get_order_info. grow. Qed.

(** The status read makes exactly one call, the query of the order, and
    never raises. *)
Lemma get_order_info_run (id : pyval) (w : World) :
  exists info w',
    get_order_info id w = (Ret info, w') /\
    calls w' = calls w ++ [GetOrderById id] /\
    now w' = now w /\ bot w' = bot w /\ responses w' = tl (responses w).
Proof.
  destruct w as [[|r rs] tr t b].
  - eexists _, _. split; [reflexivity|]. cbn. auto.
  - unfold get_order_info, try_except, bind. rewrite call_cons.
    destruct r as [v|e]; [|eexists _, _; split; [reflexivity|cbn; auto]].
    destruct (negb (truthy v)); [eexists _, _; split; [reflexivity|cbn; auto]|].
    unfold lift.
    destruct (contains "data" v) as [has|e];
      [|eexists _, _; split; [reflexivity|cbn; auto]].
    destruct (negb has); [eexists _, _; split; [reflexivity|cbn; auto]|].
    destruct (item v "data") as [ol|e];
      [|eexists _, _; split; [reflexivity|cbn; auto]].
    destruct (truthy ol); [|eexists _, _; split; [reflexivity|cbn; auto]].
    destruct (len ol) as [n|e]; [|eexists _, _; split; [reflexivity|cbn; auto]].
    destruct (0 <? n)%nat; [|eexists _, _; split; [reflexivity|cbn; auto]].
    destruct (index ol 0) as [x|e]; eexists _, _; (split; [reflexivity|cbn; auto]).
Qed.

Lemma grows_cancel_order (id : pyval) : grows (cancel_order id).
Proof. unfold cancel_order. grow. Qed.

Lemma grows_close_attempt (cid : string) (qty price : Q) (side : string) (k : nat) :
  grows (close_attempt float_of_string cc cid qty price side k).
Proof.
  pose proof grows_get_order_info as Hinfo.
  unfold close_attempt, close_attempt_body. grow; apply Hinfo.
Qed.

Lemma grows_place_close_order (cid : string) (qty price : Q) (side : string) :
  grows (place_close_order float_of_string cc cid qty price side).
Proof.
  unfold place_close_order. generalize max_retries at 1. intro n.
  induction n as [|n IH]; cbn [place_close_order_loop].
  - apply grows_ret.
  - apply grows_bind; [apply grows_close_attempt|].
    intros [|r]; [exact IH|apply grows_ret].
Qed.

End Facts.

End TraceFacts.

(** ** The fill signal *)

Module FillSignalFacts.
Import Bot Mock MonadFacts TraceFacts.

Section Facts.

Variable float_of_string : string -> option Q.
Variable json_loads : string -> outcome pyval.
Variable config : TradingConfig.
Variable cc : ContractConfig.

Abbreviation handler := (order_update_handler config json_loads).

(** What the handler looks at in the order of a message. *)
Lemma handler_on_order (order : list (string * pyval)) :
  order_update_sets_event config json_loads (order_update_message order) =
  Ret (match lookup "contractId" order with
       | Some c => eq_str c (contract_id config)
       | None => false
       end
       && match lookup "status" order with
          | Some st => eq_str st "FILLED"
          | None => false
          end
       && negb match lookup "side" order with
               | Some sd => eq_str sd (str_upper (close_order_side config))
               | None => false
               end).
Proof.
  unfold order_update_sets_event, order_update_message. cbn.
  destruct (lookup "contractId" order) as [c|]; cbn; [|reflexivity].
  destruct (eq_str c (contract_id config)); cbn; [|reflexivity].
  destruct (lookup "status" order) as [st|]; cbn; [|reflexivity].
  destruct (eq_str st "FILLED"); cbn; [|reflexivity].
  destruct (lookup "side" order) as [sd|]; reflexivity.
Qed.


Lemma wait_for_fill_run (r : outcome pyval) (rs : list (outcome pyval))
  (tr : list Call) (t : Q) (b : BotState) :
  (match r with Ret _ => True | Raise e => e = TimeoutError end) ->
  wait_for_fill {| responses := r :: rs; calls := tr; now := t; bot := b |} =
  (Ret tt,
   {| responses := rs; calls := tr ++ [WaitOrderFilled fill_timeout];
      now := t; bot := b |}).
Proof.
  intro H. unfold wait_for_fill, try_except, bind. rewrite call_cons.
  destruct r as [v|e]; [reflexivity|]. subst e. reflexivity.
Qed.

(** After the status poll the handling of the result only appends to the
    trace. *)
Lemma handle_order_result_polls (data : order_data) (w : World) :
  exists l,
    calls (snd (_handle_order_result float_of_string config cc data w)) =
    calls w ++ [GetOrderById (r_order_id data)] ++ l.
Proof.
  unfold _handle_order_result.
  destruct (get_order_info_run (r_order_id data) w) as (info & w1 & Hrun & Hcalls & _).
  rewrite (bind_run _ _ _ _ _ Hrun).
  match goal with
  | |- exists l, calls (snd (?k w1)) = _ =>
      assert (Hg : grows k)
  end.
  { pose proof (grows_place_close_order float_of_string cc) as Hclose.
    pose proof grows_get_order_info as Hinfo.
    pose proof grows_cancel_order as Hcancel.
    grow; first [apply Hclose | apply Hinfo | apply Hcancel]. }
  destruct (Hg w1) as (l & El). exists l.
  rewrite El, Hcalls, <- app_assoc. reflexivity.
Qed.


End Facts.

End FillSignalFacts.


(** ** Take-profit close orders *)

Module CloseOrderFacts.
Import Bot Mock MonadFacts.

Section Facts.

Variable float_of_string : string -> option Q.
Variable config : TradingConfig.
Variable cc : ContractConfig.

(** One pass of [place_close_order] against a usable round. *)
Lemma close_attempt_round (cid : string) (qty target : Q) (side : string)
  (r : round) (k : nat) (rest : list (outcome pyval))
  (tr : list Call) (t : Q) (b : BotState) :
  usable float_of_string r ->
  close_attempt float_of_string cc cid qty target side k
    {| responses := round_responses r ++ rest; calls := tr; now := t; bot := b |} =
  (Ret (if String.eqb (status r) "CANCELED" then
          if (k <? max_retries - 1)%nat then Continue
          else Return (Error (ErrRejectedAfter "Close order" max_retries))
        else if status_placed (VStr (status r)) then
          Return (Ok {| r_order_id := VStr (order_id r);
                        r_side := side;
                        r_size := qty;
                        r_price := close_price cc side target r;
                        r_status := Some (VStr (status r));
                        r_type := None |})
        else Return (Error (ErrUnexpectedStatus "close order" (VStr (status r))))),
   {| responses := rest; calls := tr ++ close_calls cc cid qty side target r;
      now := t; bot := b |}).
Proof.
  intros (Hb & Ha & Hbp & Hap & Hid).
  unfold close_attempt. apply try_except_ret.
  unfold close_attempt_body, round_responses, close_calls, close_price.
  set (again := (k <? max_retries - 1)%nat). clearbody again.
  assert (Hne : String.eqb (order_id r) EmptyString = false).
  { destruct (String.eqb (order_id r) EmptyString) eqn:E; [|reflexivity].
    apply String.eqb_eq in E. contradiction. }
  cbn -[round_price_to_step status_placed str_lower].
  rewrite Hb, Ha.
  cbn -[round_price_to_step status_placed str_lower].
  rewrite (OpenOrderFacts.Qle_bool_pos _ Hbp), (OpenOrderFacts.Qle_bool_pos _ Hap).
  cbn -[round_price_to_step status_placed str_lower].
  rewrite Hne.
  cbn -[round_price_to_step status_placed str_lower].
  rewrite <- !app_assoc. cbn -[round_price_to_step status_placed str_lower].
  destruct (String.eqb (status r) "CANCELED");
    try destruct again; try reflexivity;
    destruct (status_placed (VStr (status r))); reflexivity.
Qed.

(** A close order accepted at the first submission. *)
Lemma place_close_order_accepted (cid : string) (qty target : Q) (side : string)
  (r : round) (rest : list (outcome pyval)) (tr : list Call) (t : Q) (b : BotState) :
  usable float_of_string r ->
  status_placed (VStr (status r)) = true ->
  place_close_order float_of_string cc cid qty target side
    {| responses := round_responses r ++ rest; calls := tr; now := t; bot := b |} =
  (Ret (Ok {| r_order_id := VStr (order_id r);
              r_side := side;
              r_size := qty;
              r_price := close_price cc side target r;
              r_status := Some (VStr (status r));
              r_type := None |}),
   {| responses := rest; calls := tr ++ close_calls cc cid qty side target r;
      now := t; bot := b |}).
Proof.
  intros Hu Hplaced. unfold place_close_order.
  unfold max_retries at 1. cbn [place_close_order_loop].
  rewrite (bind_run _ _ _ _ _ (close_attempt_round cid qty target side r _ rest tr t b Hu)).
  rewrite (OpenOrderFacts.placed_not_canceled _ Hplaced), Hplaced. reflexivity.
Qed.

(** Reading one order back. *)
Lemma get_order_info_payload (id : pyval) (fields : list (string * pyval))
  (rest : list (outcome pyval)) (tr : list Call) (t : Q) (b : BotState) :
  get_order_info id
    {| responses := Ret (order_payload fields) :: rest; calls := tr;
       now := t; bot := b |} =
  (Ret (Some (VDict fields)),
   {| responses := rest; calls := tr ++ [GetOrderById id]; now := t; bot := b |}).
Proof. reflexivity. Qed.

(** A fully filled order: the close order is requested for the configured
    quantity at the take-profit target of the reported side. *)
Lemma handle_filled (data : order_data) (fields : list (string * pyval))
  (s : string) (P : Q) (rest : list (outcome pyval)) (tr : list Call) (t : Q)
  (b : BotState) :
  lookup "status" fields = Some (VStr "FILLED") ->
  lookup "side" fields = Some (VStr s) ->
  Py.float float_of_string (field_or fields "price" (VNum 0)) = Ret P ->
  0 < P ->
  _handle_order_result float_of_string config cc data
    {| responses := Ret (order_payload fields) :: rest; calls := tr;
       now := t; bot := b |} =
  bind (place_close_order float_of_string cc (contract_id config) (quantity config)
          (snd (take_profit_order config (str_lower s) P))
          (fst (take_profit_order config (str_lower s) P)))
       (fun _ => ret true)
    {| responses := rest; calls := tr ++ [GetOrderById (r_order_id data)];
       now := t; bot := set_current_order_status "FILLED" b |}.
Proof.
  intros Hst Hside Hprice HP. unfold field_or in Hprice.
  unfold _handle_order_result.
  rewrite (bind_run _ _ _ _ _ (get_order_info_payload _ fields rest tr t b)).
  unfold bind at 1. cbn [lift get]. rewrite Hst. cbn [eq_str String.eqb Ascii.eqb Bool.eqb].
  unfold bind at 1. cbn [update_bot].
  unfold bind at 1. cbn [lift].
  unfold bind at 1. cbn [lift get].
  unfold bind at 1. cbn [lift]. rewrite Hprice.
  assert (E : Qgtb P 0 = true) by (apply Qgtb_gt; exact HP).
  rewrite E.
  unfold bind at 1. cbn [lift get]. rewrite Hside.
  unfold bind at 1. cbn [lift lower].
  destruct (take_profit_order config (str_lower s) P) as [close_side close_price0].
  reflexivity.
Qed.

(** An order still open after the wait: it is canceled, read again, and
    the filled part is closed. *)
Lemma handle_partial (data : order_data) (fields0 fields : list (string * pyval))
  (st s : string) (A P : Q) (cancel_response : outcome pyval)
  (rest : list (outcome pyval)) (tr : list Call) (t : Q) (b : BotState) :
  lookup "status" fields0 = Some (VStr st) ->
  st = "OPEN"%string \/ st = "PARTIALLY_FILLED"%string ->
  lookup "side" fields = Some (VStr s) ->
  Py.float float_of_string (field_or fields "cumFillSize" (VNum 0)) = Ret A ->
  Py.float float_of_string (field_or fields "price" (VNum 0)) = Ret P ->
  0 < A ->
  exists b',
    _handle_order_result float_of_string config cc data
      {| responses := Ret (order_payload fields0) :: cancel_response
                      :: Ret (order_payload fields) :: rest;
         calls := tr; now := t; bot := b |} =
    bind (place_close_order float_of_string cc (contract_id config) A
            (snd (take_profit_order config (str_lower s) P))
            (fst (take_profit_order config (str_lower s) P)))
         (fun _ => ret true)
      {| responses := rest;
         calls := tr ++ [GetOrderById (r_order_id data);
                         CancelOrder (r_order_id data);
                         GetOrderById (r_order_id data)];
         now := t; bot := b' |}.
Proof.
  intros Hst Hor Hside Hamount Hprice HA. unfold field_or in Hamount, Hprice.
  assert (Estatus : eq_str (VStr st) "FILLED" = false /\
                    eq_str (VStr st) "OPEN" || eq_str (VStr st) "PARTIALLY_FILLED" = true).
  { destruct Hor; subst st; split; reflexivity. }
  destruct Estatus as [E1 E2].
  assert (Hcancel : exists cr b',
             cancel_order (r_order_id data)
               {| responses := cancel_response :: Ret (order_payload fields) :: rest;
                  calls := tr ++ [GetOrderById (r_order_id data)];
                  now := t; bot := b |} =
             (Ret cr,
              {| responses := Ret (order_payload fields) :: rest;
                 calls := (tr ++ [GetOrderById (r_order_id data)]) ++
                          [CancelOrder (r_order_id data)];
                 now := t; bot := b |}) /\
             (b' = match cr with
                   | CancelOk _ => set_current_order_status "CANCELED" b
                   | CancelError _ => b
                   end)).
  { unfold cancel_order, try_except, bind. rewrite call_cons.
    destruct cancel_response as [v|e]; [|eexists _, _; split; reflexivity].
    unfold lift.
    destruct (truthy v); cbn [negb orb];
      [|eexists _, _; split; reflexivity].
    destruct (contains "data" v) as [has|e]; [|eexists _, _; split; reflexivity].
    destruct has; eexists _, _; split; reflexivity. }
  destruct Hcancel as (cr & b' & Hrun & Hb').
  exists b'.
  unfold _handle_order_result.
  rewrite (bind_run _ _ _ _ _ (get_order_info_payload _ fields0 _ tr t b)).
  unfold bind at 1. cbn [lift get]. rewrite Hst. rewrite E1, E2.
  rewrite (bind_run _ _ _ _ _ Hrun).
  assert (Hafter :
            (match cr with
             | CancelOk _ => update_bot (set_current_order_status "CANCELED")
             | CancelError _ => ret tt
             end)
              {| responses := Ret (order_payload fields) :: rest;
                 calls := (tr ++ [GetOrderById (r_order_id data)]) ++
                          [CancelOrder (r_order_id data)];
                 now := t; bot := b |} =
            (Ret tt,
             {| responses := Ret (order_payload fields) :: rest;
                calls := (tr ++ [GetOrderById (r_order_id data)]) ++
                         [CancelOrder (r_order_id data)];
                now := t; bot := b' |})).
  { subst b'. destruct cr; reflexivity. }
  rewrite (bind_run _ _ _ _ _ Hafter).
  rewrite (bind_run _ _ _ _ _ (get_order_info_payload _ fields rest _ t b')).
  unfold bind at 1. cbn [lift].
  unfold bind at 1. cbn [lift get].
  unfold bind at 1. cbn [lift]. rewrite Hamount.
  unfold bind at 1. cbn [lift get].
  unfold bind at 1. cbn [lift]. rewrite Hprice.
  unfold bind at 1. cbn [lift get]. rewrite Hside.
  unfold bind at 1. cbn [lift lower].
  assert (E : Qgtb A 0 = true) by (apply Qgtb_gt; exact HA).
  rewrite E.
  destruct (take_profit_order config (str_lower s) P) as [close_side close_price0].
  rewrite <- !app_assoc. reflexivity.
Qed.



End Facts.

End CloseOrderFacts.


(** ** Reconciliation *)

Module ReconciliationFacts.
Import Bot Mock MonadFacts.

Section Facts.

Variable float_of_string : string -> option Q.
Variable config : TradingConfig.

Abbreviation total := (side_total float_of_string).

Lemma get_active_orders_run (cid : string) (r : outcome pyval)
  (rs : list (outcome pyval)) (tr : list Call) (t : Q) (b : BotState) :
  get_active_orders cid {| responses := r :: rs; calls := tr; now := t; bot := b |} =
  (Ret (orders_read cid r),
   {| responses := rs; calls := tr ++ [GetActiveOrders]; now := t; bot := b |}).
Proof.
  unfold get_active_orders, try_except, bind. rewrite call_cons.
  destruct r as [v|e]; [|reflexivity].
  unfold lift, orders_read.
  destruct (active_orders_of_payload cid v); reflexivity.
Qed.

Lemma side_total_app (side : string) (tracked : list pyval) (entry : pyval) :
  total side (tracked ++ [entry]) ==
  total side tracked +
  (if entry_has_side side entry then entry_size float_of_string entry else 0).
Proof.
  induction tracked as [|e tracked IH]; cbn [app side_total].
  - destruct (entry_has_side side entry); ring.
  - destruct (entry_has_side side e); rewrite IH; ring.
Qed.

(** The totals kept by the loop are the totals of the tracked entries. *)
Lemma tally_order_totals (order : pyval) (buy sell : Q) (tracked : list pyval) :
  buy == total "BUY" tracked -> sell == total "SELL" tracked ->
  fst (fst (tally_order float_of_string order (buy, sell, tracked))) ==
    total "BUY" (snd (tally_order float_of_string order (buy, sell, tracked))) /\
  snd (fst (tally_order float_of_string order (buy, sell, tracked))) ==
    total "SELL" (snd (tally_order float_of_string order (buy, sell, tracked))).
Proof.
  intros Hb Hs. unfold tally_order.
  destruct order as [| | | | |d]; cbn [is_dict fst snd]; try (split; assumption).
  cbn [get obind].
  destruct (match lookup "side" d with Some x => x | None => VStr EmptyString end)
    as [| | |side| |]; cbn [upper obind fst snd]; try (split; assumption).
  destruct (Py.float float_of_string
              match lookup "size" d with Some x => x | None => VNum 0 end)
    as [order_size|e] eqn:Ef; cbn [obind fst snd]; [|split; assumption].
  set (entry := VDict _).
  assert (Hsize : entry_size float_of_string entry == order_size).
  { unfold entry, entry_size. cbn.
    destruct (lookup "size" d) as [x|].
    - rewrite Ef. reflexivity.
    - cbn in Ef. inversion Ef. reflexivity. }
  assert (Hside : forall sd, entry_has_side sd entry = String.eqb (str_upper side) sd).
  { intro sd. reflexivity. }
  destruct (String.eqb (str_upper side) "BUY") eqn:Eb.
  - cbn [fst snd]. rewrite !side_total_app, !Hside, Eb.
    apply String.eqb_eq in Eb. rewrite Eb. cbn [String.eqb Ascii.eqb Bool.eqb].
    rewrite Hsize, Hb, Hs. split; ring.
  - destruct (String.eqb (str_upper side) "SELL") eqn:Esl;
      cbn [fst snd]; rewrite !side_total_app, !Hside, Eb, Esl;
      rewrite ?Hsize, Hb, Hs; split; ring.
Qed.

Lemma tally_orders_totals (orders : list pyval) :
  fst (fst (tally_orders float_of_string orders)) ==
    total "BUY" (snd (tally_orders float_of_string orders)) /\
  snd (fst (tally_orders float_of_string orders)) ==
    total "SELL" (snd (tally_orders float_of_string orders)).
Proof.
  unfold tally_orders.
  assert (H : forall acc,
             fst (fst acc) == total "BUY" (snd acc) ->
             snd (fst acc) == total "SELL" (snd acc) ->
             let res := fold_left (fun a o => tally_order float_of_string o a) orders acc in
             fst (fst res) == total "BUY" (snd res) /\
             snd (fst res) == total "SELL" (snd res)).
  { induction orders as [|o orders IH]; intros acc Hb Hs; cbn [fold_left].
    - split; assumption.
    - destruct acc as [[buy sell] tracked]. cbn [fst snd] in Hb, Hs.
      destruct (tally_order_totals o buy sell tracked Hb Hs) as [Hb' Hs'].
      apply IH; assumption. }
  apply H; reflexivity.
Qed.

(** The body of the status check against three answers: the active
    orders and the two position queries. *)
Lemma status_check_body_run (r1 r2 r3 : outcome pyval) (rs : list (outcome pyval))
  (tr : list Call) (t : Q) (b : BotState) :
  let tallied := tally_orders float_of_string (orders_read (contract_id config) r1) in
  let tracked_bot := set_active_close_orders (snd tallied) b in
  let mismatch :=
    Qabs (fst (fst tallied) - snd (fst tallied)
          - - inventory_read float_of_string config r3) in
  status_check_body float_of_string config
    {| responses := r1 :: r2 :: r3 :: rs; calls := tr; now := t; bot := b |} =
  match position_amt_of float_of_string config (answered_or_empty r2) with
  | Raise e =>
      (Raise e,
       {| responses := r3 :: rs;
          calls := tr ++ [GetActiveOrders; GetAccountPositions];
          now := t; bot := tracked_bot |})
  | Ret _ =>
      if Qgtb mismatch (2 * quantity config) then
        (Ret true,
         {| responses := rs;
            calls := tr ++ [GetActiveOrders; GetAccountPositions; GetAccountPositions];
            now := t;
            bot := if negb (shutdown_requested b)
                   then set_shutdown_requested true tracked_bot
                   else tracked_bot |})
      else
        (Ret false,
         {| responses := rs;
            calls := tr ++ [GetActiveOrders; GetAccountPositions; GetAccountPositions];
            now := t; bot := tracked_bot |})
  end.
Proof.
  intros tallied tracked_bot mismatch.
  unfold status_check_body.
  rewrite (bind_run _ _ _ _ _ (get_active_orders_run _ r1 _ tr t b)).
  unfold bind at 1. cbn [update_bot responses calls now bot].
  fold tallied. destruct tallied as [[buy sell] tracked] eqn:Et.
  unfold bind at 1. cbn [update_bot responses calls now bot].
  rewrite (bind_run _ _ _ _ _
             (InventoryReadFacts.get_account_positions_run r2 _ _ t _)).
  fold (answered_or_empty r2).
  unfold bind at 1. unfold lift at 1.
  destruct (position_amt_of float_of_string config (answered_or_empty r2)) as [amt|e].
  2:{ rewrite <- app_assoc. reflexivity. }
  rewrite (bind_run _ _ _ _ _
             (InventoryReadFacts.get_current_inventory_run float_of_string config
                r3 _ _ t _)).
  fold (inventory_read float_of_string config r3).
  subst mismatch. cbn [fst snd].
  destruct (Qgtb _ (2 * quantity config)).
  - unfold bind at 1. cbn [get_bot bot].
    cbn [shutdown_requested set_active_close_orders].
    destruct (shutdown_requested b); cbn; rewrite <- !app_assoc; reflexivity.
  - cbn. rewrite <- !app_assoc. reflexivity.
Qed.



End Facts.

End ReconciliationFacts.


(** ** Rounding to the price step *)

Module RoundingFacts.
Import Bot Mock.

Lemma py_round_near (x : Q) :
  inject_Z (py_round x) - x <= 1 # 2 /\ x - inject_Z (py_round x) <= 1 # 2.
Proof.
  unfold py_round.
  pose proof (Qfloor_le x) as Hlo.
  pose proof (Qlt_floor x) as Hhi.
  rewrite inject_Z_plus in Hhi. change (inject_Z 1) with 1 in Hhi.
  destruct (Qcompare_spec (x - inject_Z (Qfloor x)) (1 # 2)) as [E|E|E].
  - destruct (Z.even (Qfloor x)).
    + split; lra.
    + rewrite inject_Z_plus. change (inject_Z 1) with 1. split; lra.
  - split; lra.
  - rewrite inject_Z_plus. change (inject_Z 1) with 1. split; lra.
Qed.

Lemma py_round_comp (x y : Q) : x == y -> py_round x = py_round y.
Proof.
  intro E. unfold py_round.
  rewrite (Qfloor_comp _ _ E).
  assert (E' : x - inject_Z (Qfloor y) == y - inject_Z (Qfloor y)) by (rewrite E; reflexivity).
  rewrite (Qcompare_comp _ _ E' _ _ (Qeq_refl (1 # 2))).
  reflexivity.
Qed.

Lemma py_round_inject_Z (z : Z) : py_round (inject_Z z) = z.
Proof.
  unfold py_round. rewrite Qfloor_Z.
  assert (E : inject_Z z - inject_Z z == 0) by ring.
  rewrite (Qcompare_comp _ _ E _ _ (Qeq_refl (1 # 2))).
  reflexivity.
Qed.

(** With a step of a tenth or a hundredth the second rounding changes
    nothing: the result is the whole number of steps nearest to the
    price. *)
Lemma round_price_to_step_steps (p step : Q) :
  step == 1 # 10 \/ step == 1 # 100 ->
  round_price_to_step p step == inject_Z (py_round (p / step)) * step.
Proof.
  intros [E|E]; unfold round_price_to_step.
  - assert (H0 : Qle_bool step 0 = false).
    { destruct (Qle_bool step 0) eqn:H; [|reflexivity].
      apply Qle_bool_iff in H. exfalso. lra. }
    rewrite H0.
    assert (H1 : Qeq_bool step (1 # 10) = true) by (apply Qeq_bool_iff; exact E).
    rewrite H1. unfold py_round_ndigits.
    set (k := py_round (p / step)).
    assert (Ek : inject_Z k * step * inject_Z (10 ^ Z.of_nat 1) == inject_Z k).
    { rewrite E. change (inject_Z (10 ^ Z.of_nat 1)) with 10. field. }
    rewrite (py_round_comp _ _ Ek), py_round_inject_Z.
    rewrite E. change (inject_Z (10 ^ Z.of_nat 1)) with 10. field.
  - assert (H0 : Qle_bool step 0 = false).
    { destruct (Qle_bool step 0) eqn:H; [|reflexivity].
      apply Qle_bool_iff in H. exfalso. lra. }
    rewrite H0.
    assert (H1 : Qeq_bool step (1 # 10) = false).
    { destruct (Qeq_bool step (1 # 10)) eqn:H; [|reflexivity].
      apply Qeq_bool_iff in H. exfalso. lra. }
    rewrite H1.
    assert (H2 : Qeq_bool step (1 # 100) = true) by (apply Qeq_bool_iff; exact E).
    rewrite H2. unfold py_round_ndigits.
    set (k := py_round (p / step)).
    assert (Ek : inject_Z k * step * inject_Z (10 ^ Z.of_nat 2) == inject_Z k).
    { rewrite E. change (inject_Z (10 ^ Z.of_nat 2)) with 100. field. }
    rewrite (py_round_comp _ _ Ek), py_round_inject_Z.
    rewrite E. change (inject_Z (10 ^ Z.of_nat 2)) with 100. field.
Qed.

Lemma round_price_to_step_near (p step : Q) :
  step == 1 # 10 \/ step == 1 # 100 ->
  round_price_to_step p step - p <= step / 2 /\
  p - round_price_to_step p step <= step / 2.
Proof.
  intro Hs. rewrite (round_price_to_step_steps p step Hs).
  assert (Hpos : 0 < step) by (destruct Hs as [E|E]; lra).
  destruct (py_round_near (p / step)) as [H1 H2].
  assert (Ep : p == p / step * step) by (field; lra).
  set (k := inject_Z (py_round (p / step))) in *.
  set (x := p / step) in *.
  unfold Qdiv. change (/ 2) with (1 # 2).
  split.
  - setoid_replace (k * step - p) with ((k - x) * step) by (rewrite Ep at 1; ring).
    nra.
  - setoid_replace (p - k * step) with ((x - k) * step) by (rewrite Ep at 1; ring).
    nra.
Qed.

(** X1: with a step of a tenth or a hundredth, [round_price_to_step]
    returns a whole number of steps, no further than half a step from the
    price, and rounding a second time changes nothing; with a step that is
    not positive it returns the price as it is. *)
Theorem round_price_to_step_grid (p step : Q) :
  (step <= 0 -> round_price_to_step p step = p) /\
  (step == 1 # 10 \/ step == 1 # 100 ->
     (exists k : Z, round_price_to_step p step == inject_Z k * step) /\
     Qabs (round_price_to_step p step - p) <= step / 2 /\
     round_price_to_step (round_price_to_step p step) step ==
     round_price_to_step p step).
Proof.
  split.
  - intro H. unfold round_price_to_step.
    apply Qle_bool_iff in H. rewrite H. reflexivity.
  - intro Hs. split; [|split].
    + exists (py_round (p / step)). apply round_price_to_step_steps, Hs.
    + destruct (round_price_to_step_near p step Hs) as [H1 H2].
      apply Qabs_case; intros _; lra.
    + rewrite (round_price_to_step_steps (round_price_to_step p step) step Hs).
      rewrite (round_price_to_step_steps p step Hs) at 2.
      assert (Hpos : 0 < step) by (destruct Hs as [E|E]; lra).
      assert (E : round_price_to_step p step / step ==
                  inject_Z (py_round (p / step))).
      { rewrite (round_price_to_step_steps p step Hs). field. lra. }
      rewrite (py_round_comp _ _ E), py_round_inject_Z. reflexivity.
Qed.

End RoundingFacts.

Lemma round_price_to_step_grid_witness :
  (exists k : Z, Bot.round_price_to_step (10000041 # 100) (1 # 10)
                 == inject_Z k * (1 # 10)) /\
  Bot.round_price_to_step (- (5)) 0 = - (5).
Proof.
  destruct (RoundingFacts.round_price_to_step_grid (- (5)) 0) as [H0 _].
  destruct (RoundingFacts.round_price_to_step_grid (10000041 # 100) (1 # 10))
    as [_ H1].
  split.
  - apply H1. left. reflexivity.
  - apply H0. discriminate.
Defined.

(** ** Prices on the maker side of the book *)

Module MakerPriceFacts.
Import Bot Mock MonadFacts.

Section Facts.

Variable float_of_string : string -> option Q.
Variable cc : ContractConfig.

Abbreviation step := (step_size cc).
Abbreviation delta := (price_delta cc).



End Facts.

End MakerPriceFacts.



(** ** The inventory manager: bias, batches and strategies *)

Module InventoryManagerFacts.
Import Inventory Bot Mock.

Lemma Qabs_cases (x : Q) : (0 <= x /\ Qabs x == x) \/ (x < 0 /\ Qabs x == - x).
Proof.
  destruct (Qlt_le_dec x 0) as [H|H].
  - right. split; [exact H|]. apply Qabs_neg. lra.
  - left. split; [exact H|]. apply Qabs_pos. exact H.
Qed.

(** X4: for a positive base quantity the direction bias is "sell" exactly
    above twice the base quantity, "buy" exactly below minus twice the
    base quantity and absent in between; an order of one base quantity on
    the side of the bias brings the inventory strictly nearer to zero. *)
Theorem direction_bias_reduces (q p : Q) :
  0 < q ->
  (get_inventory_direction_bias q p = Some "sell"%string <-> 2 * q < p) /\
  (get_inventory_direction_bias q p = Some "buy"%string <-> p < - (2 * q)) /\
  (get_inventory_direction_bias q p = None <-> Qabs p <= 2 * q) /\
  (forall side, get_inventory_direction_bias q p = Some side ->
     side = reducing_side p /\ Qabs (inventory_after side q p) < Qabs p).
Proof.
  intro Hq. unfold get_inventory_direction_bias.
  destruct (Qgtb p (q * 2)) eqn:H1; [|destruct (Qltb p (- q * 2)) eqn:H2]; qbool.
  - split; [|split; [|split]].
    + split; [intros _; lra|reflexivity].
    + split; [discriminate|intro; exfalso; lra].
    + split; [discriminate|].
      intro H. exfalso. destruct (Qabs_cases p) as [[? E]|[? E]]; lra.
    + intros side E. injection E as <-.
      unfold reducing_side, inventory_after.
      assert (Hp : Qgtb p 0 = true) by (apply Qgtb_gt; lra).
      rewrite Hp. split; [reflexivity|].
      change (("sell" =? "sell")%string) with true. cbv iota.
      destruct (Qabs_cases p) as [[? E]|[? E]];
        destruct (Qabs_cases (p - q)) as [[? E']|[? E']]; lra.
  - split; [|split; [|split]].
    + split; [discriminate|intro; exfalso; lra].
    + split; [intros _; lra|reflexivity].
    + split; [discriminate|].
      intro H. exfalso. destruct (Qabs_cases p) as [[? E]|[? E]]; lra.
    + intros side E. injection E as <-.
      unfold reducing_side, inventory_after.
      assert (Hp : Qgtb p 0 = false) by (apply Qgtb_le; lra).
      rewrite Hp. split; [reflexivity|].
      change (("buy" =? "sell")%string) with false. cbv iota.
      destruct (Qabs_cases p) as [[? E]|[? E]];
        destruct (Qabs_cases (p + q)) as [[? E']|[? E']]; lra.
  - split; [|split; [|split]].
    + split; [discriminate|intro; exfalso; lra].
    + split; [discriminate|intro; exfalso; lra].
    + split; [|reflexivity].
      intros _. destruct (Qabs_cases p) as [[? E]|[? E]]; lra.
    + intros side E. discriminate E.
Qed.

(** X5: the strategy depends only on the size of the inventory, and a
    larger inventory never gets a less restrictive strategy. *)
Theorem strategy_monotone (q p p' : Q) :
  get_trading_strategy q (- p) = get_trading_strategy q p /\
  (Qabs p <= Qabs p' ->
   (severity (get_trading_strategy q p) <= severity (get_trading_strategy q p'))%nat).
Proof.
  split.
  - pose proof (Qabs_opp p) as Ho.
    destruct (InventoryFacts.strategy_cases q (- p)) as [[E H]|[[E H]|[[E H]|[E H]]]];
      destruct (InventoryFacts.strategy_cases q p) as [[E' H']|[[E' H']|[[E' H']|[E' H']]]];
      rewrite E, E'; try reflexivity; exfalso; lra.
  - intro Hle.
    destruct (InventoryFacts.strategy_cases q p) as [[E H]|[[E H]|[[E H]|[E H]]]];
      destruct (InventoryFacts.strategy_cases q p') as [[E' H']|[[E' H']|[[E' H']|[E' H']]]];
      rewrite E, E'; cbn [severity]; try lia; exfalso; lra.
Qed.

(** X6: a hedge batch is never larger than the inventory nor than three
    base quantities.  When the emergency test holds the batch is three
    base quantities, and once it has filled on the reducing side the
    inventory keeps its sign, is three base quantities nearer to zero and
    still calls for [opposite_only] or [pause]. *)
Theorem hedge_batch_bounds (q p : Q) :
  0 < q ->
  let batch := get_hedge_batch_size q p in
  let p' := inventory_after (reducing_side p) batch p in
  0 <= batch /\ batch <= Qabs p /\ batch <= 3 * q /\
  (should_emergency_hedge q p = true ->
     batch == 3 * q /\
     Qabs p' == Qabs p - 3 * q /\
     5 * q < Qabs p' /\
     (0 < p -> 0 < p') /\ (p < 0 -> p' < 0) /\
     (get_trading_strategy q p' = opposite_only \/
      get_trading_strategy q p' = pause)).
Proof.
  intros Hq batch p'.
  assert (Hb : (batch == Qabs p /\ Qabs p <= 3 * q) \/
               (batch == 3 * q /\ 3 * q < Qabs p)).
  { unfold batch, get_hedge_batch_size, py_min.
    destruct (Qltb (Qabs p) (q * 3)) eqn:H; qbool.
    - left. split; [reflexivity|lra].
    - destruct (Qeq_dec (Qabs p) (q * 3)) as [E|N].
      + left. split; lra.
      + right. split; [ring|].
        apply Qle_lteq in H. destruct H as [H|H]; [lra|]. exfalso. apply N. lra. }
  pose proof (Qabs_nonneg p) as Hn.
  split; [|split; [|split]]; try (destruct Hb as [[E H]|[E H]]; lra).
  intro He. apply InventoryFacts.emergency_iff in He.
  assert (E : batch == 3 * q) by (destruct Hb as [[E H]|[E H]]; lra).
  assert (Hp' : (0 < p /\ p' == p - 3 * q) \/ (p < 0 /\ p' == p + 3 * q)).
  { unfold p', reducing_side, inventory_after.
    destruct (Qgtb p 0) eqn:Hs; qbool.
    - left. split; [exact Hs|].
      change (("sell" =? "sell")%string) with true. cbv iota. lra.
    - right.
      change (("buy" =? "sell")%string) with false. cbv iota.
      destruct (Qabs_cases p) as [[? Ea]|[? Ea]]; split; lra. }
  assert (Ha : Qabs p' == Qabs p - 3 * q).
  { destruct Hp' as [[Hs Ep]|[Hs Ep]];
      destruct (Qabs_cases p) as [[? Ea]|[? Ea]];
      destruct (Qabs_cases p') as [[? Ea']|[? Ea']]; lra. }
  split; [exact E|]. split; [exact Ha|]. split; [lra|].
  split; [|split].
  - intro Hpos. destruct Hp' as [[Hs Ep]|[Hs Ep]]; [|lra].
    destruct (Qabs_cases p) as [[? Ea]|[? Ea]]; lra.
  - intro Hneg. destruct Hp' as [[Hs Ep]|[Hs Ep]]; [lra|].
    destruct (Qabs_cases p) as [[? Ea]|[? Ea]]; lra.
  - destruct (InventoryFacts.strategy_cases q p') as [[E' H']|[[E' H']|[[E' H']|[E' H']]]];
      [exfalso; lra|exfalso; lra|left; exact E'|right; exact E'].
Qed.

Section Facts.

Variable config : TradingConfig.

Abbreviation q := (quantity config).

(** X7: the direction chosen for the strategy of the same inventory, for
    a positive base quantity.  Under [opposite_only] it is the reducing
    side whatever the draw, so that branch never skips a trade; under
    [reduce_same_side] it is the reducing side on a draw below one half
    and the configured direction otherwise, and at exactly twice the base
    quantity always the configured direction; no direction is returned
    exactly under [pause]. *)
Theorem direction_control_cases (random_draw p : Q) :
  0 < q ->
  let s := get_trading_strategy q p in
  let d := _get_trade_direction_with_inventory_control config random_draw p s in
  (s = normal -> d = Some (direction config)) /\
  (s = opposite_only -> d = Some (reducing_side p)) /\
  (s = reduce_same_side -> 2 * q < Qabs p ->
     d = Some (if Qltb random_draw (1 # 2) then reducing_side p
               else direction config)) /\
  (s = reduce_same_side -> Qabs p == 2 * q -> d = Some (direction config)) /\
  (d = None <-> s = pause).
Proof.
  intros Hq s d.
  assert (Hbias : 2 * q < Qabs p ->
            get_inventory_direction_bias q p = Some (reducing_side p)).
  { intro H. unfold get_inventory_direction_bias, reducing_side.
    destruct (Qabs_cases p) as [[Hs Ea]|[Hs Ea]].
    - assert (H1 : Qgtb p (q * 2) = true) by (apply Qgtb_gt; lra).
      assert (H2 : Qgtb p 0 = true) by (apply Qgtb_gt; lra).
      rewrite H1, H2. reflexivity.
    - assert (H1 : Qgtb p (q * 2) = false) by (apply Qgtb_le; lra).
      assert (H2 : Qltb p (- q * 2) = true) by (apply Qltb_lt; lra).
      assert (H3 : Qgtb p 0 = false) by (apply Qgtb_le; lra).
      rewrite H1, H2, H3. reflexivity. }
  assert (Hnone : Qabs p <= 2 * q -> get_inventory_direction_bias q p = None).
  { intro H. unfold get_inventory_direction_bias.
    assert (H1 : Qgtb p (q * 2) = false)
      by (apply Qgtb_le; destruct (Qabs_cases p) as [[Hs Ea]|[Hs Ea]]; lra).
    assert (H2 : Qltb p (- q * 2) = false)
      by (apply Qltb_ge; destruct (Qabs_cases p) as [[Hs Ea]|[Hs Ea]]; lra).
    rewrite H1, H2. reflexivity. }
  unfold d, s.
  destruct (InventoryFacts.strategy_cases q p) as [[E H]|[[E H]|[[E H]|[E H]]]];
    rewrite E; cbn [_get_trade_direction_with_inventory_control].
  - repeat split; try discriminate; intro X; discriminate X.
  - split; [discriminate|]. split; [discriminate|]. split; [|split].
    + intros _ Hgt. rewrite (Hbias Hgt).
      destruct (Qltb random_draw (1 # 2)); reflexivity.
    + intros _ Heq. rewrite Hnone by lra. reflexivity.
    + split; [|discriminate].
      destruct (get_inventory_direction_bias q p);
        [destruct (Qltb random_draw (1 # 2))|]; discriminate.
  - split; [discriminate|]. split; [|split; [|split]]; try discriminate.
    + intros _. apply Hbias. lra.
    + split; [|discriminate]. rewrite Hbias by lra. discriminate.
  - repeat split; try discriminate.
Qed.


End Facts.

End InventoryManagerFacts.

Lemma direction_bias_reduces_witness :
  Inventory.get_inventory_direction_bias (1 # 100) (3 # 100) = Some "sell"%string <->
  2 * (1 # 100) < 3 # 100.
Proof.
  destruct (InventoryManagerFacts.direction_bias_reduces (1 # 100) (3 # 100)) as (H & _).
  - reflexivity.
  - exact H.
Defined.

Lemma strategy_monotone_witness :
  (Mock.severity (Inventory.get_trading_strategy (1 # 100) (1 # 100)) <=
   Mock.severity (Inventory.get_trading_strategy (1 # 100) (- (5 # 100))))%nat.
Proof.
  destruct (InventoryManagerFacts.strategy_monotone (1 # 100) (1 # 100) (- (5 # 100)))
    as [_ H].
  apply H. apply Qle_bool_iff. reflexivity.
Defined.

Lemma hedge_batch_bounds_witness :
  Inventory.get_hedge_batch_size (1 # 100) (- (9 # 100)) == 3 * (1 # 100).
Proof.
  destruct (InventoryManagerFacts.hedge_batch_bounds (1 # 100) (- (9 # 100)))
    as (_ & _ & _ & H).
  - reflexivity.
  - apply H. reflexivity.
Defined.

Lemma direction_control_cases_witness :
  Bot._get_trade_direction_with_inventory_control Mock.demo_config (9 # 10) (- (5 # 100))
    (Inventory.get_trading_strategy (1 # 100) (- (5 # 100))) = Some "buy"%string.
Proof.
  destruct (InventoryManagerFacts.direction_control_cases Mock.demo_config (9 # 10)
              (- (5 # 100))) as (_ & H & _).
  - reflexivity.
  - apply H. reflexivity.
Defined.


(** ** Shapes of runs: calls made, exceptions, fields kept *)

Module ShapeFacts.
Import Bot Mock MonadFacts.

Lemma only_ret {A : Type} (allowed : Call -> bool) (a : A) : only allowed (ret a).
Proof. intro w. exists []. cbn. rewrite app_nil_r. auto. Qed.

Lemma only_lift {A : Type} (allowed : Call -> bool) (o : outcome A) :
  only allowed (lift o).
Proof. intro w. exists []. cbn. rewrite app_nil_r. auto. Qed.

Lemma only_get_bot (allowed : Call -> bool) : only allowed get_bot.
Proof. intro w. exists []. cbn. rewrite app_nil_r. auto. Qed.

Lemma only_time_time (allowed : Call -> bool) : only allowed time_time.
Proof. intro w. exists []. cbn. rewrite app_nil_r. auto. Qed.

Lemma only_update_bot (allowed : Call -> bool) (f : BotState -> BotState) :
  only allowed (update_bot f).
Proof. intro w. exists []. cbn. rewrite app_nil_r. auto. Qed.

Lemma only_call (allowed : Call -> bool) (c : Call) :
  allowed c = true -> only allowed (call c).
Proof.
  intros H w. exists [c]. unfold call.
  destruct (responses w); cbn; rewrite H; auto.
Qed.

Lemma only_bind {A B : Type} (allowed : Call -> bool) (m : M A) (k : A -> M B) :
  only allowed m -> (forall a, only allowed (k a)) -> only allowed (bind m k).
Proof.
  intros Hm Hk w. unfold bind.
  destruct (Hm w) as (l1 & E1 & F1).
  destruct (m w) as [[a|e] w1]; cbn in E1.
  - destruct (Hk a w1) as (l2 & E2 & F2). exists (l1 ++ l2).
    rewrite E2, E1, app_assoc, forallb_app, F1, F2. auto.
  - exists l1. auto.
Qed.

Lemma only_try_except {A : Type} (allowed : Call -> bool) (m : M A)
  (h : pyexn -> M A) :
  only allowed m -> (forall e, only allowed (h e)) -> only allowed (try_except m h).
Proof.
  intros Hm Hh w. unfold try_except.
  destruct (Hm w) as (l1 & E1 & F1).
  destruct (m w) as [[a|e] w1]; cbn in E1.
  - exists l1. auto.
  - destruct (Hh e w1) as (l2 & E2 & F2). exists (l1 ++ l2).
    rewrite E2, E1, app_assoc, forallb_app, F1, F2. auto.
Qed.

Lemma only_weaken {A : Type} (allowed allowed' : Call -> bool) (m : M A) :
  (forall c, allowed c = true -> allowed' c = true) ->
  only allowed m -> only allowed' m.
Proof.
  intros Hc Hm w. destruct (Hm w) as (l & E & F). exists l. split; [exact E|].
  rewrite forallb_forall in *. auto.
Qed.

Ltac only_step :=
  first
    [ apply only_ret | apply only_lift | apply only_update_bot
    | apply only_get_bot | apply only_time_time
    | apply only_call;
      first [ reflexivity
            | match goal with
              | H : forall c, _ -> ?allowed c = true |- ?allowed _ = true =>
                  apply H; reflexivity
              end ]
    | match goal with
      | H : context [only] |- _ => apply H
      end
    | apply only_bind; [|intro]
    | apply only_try_except; [|intro]
    | match goal with
      | |- only _ (if ?c then _ else _) => destruct c
      | |- only _ (match ?x with _ => _ end) => destruct x
      end ].

Ltac only_tac := repeat only_step.

(** Submissions. *)

Abbreviation quiet := (fun c : Call => negb (is_submission c)).

Lemma submits_of_only {A : Type} (n : nat) (m : M A) :
  only quiet m -> submits_at_most n m.
Proof.
  intros Hm w. destruct (Hm w) as (l & E & F). exists l. split; [exact E|].
  unfold submissions.
  assert (Hf : filter is_submission l = []).
  { clear E. induction l as [|c l IH]; [reflexivity|].
    cbn in F. apply andb_true_iff in F. destruct F as [Fc Fl].
    cbn. apply negb_true_iff in Fc. rewrite Fc. apply IH, Fl. }
  rewrite Hf. cbn. lia.
Qed.

Lemma submits_call (n : nat) (c : Call) : submits_at_most (S n) (call c).
Proof.
  intro w. exists [c]. split.
  - unfold call. destruct (responses w); reflexivity.
  - unfold submissions. cbn. destruct (is_submission c); cbn; lia.
Qed.

Lemma submits_bind {A B : Type} (n1 n2 : nat) (m : M A) (k : A -> M B) :
  submits_at_most n1 m -> (forall a, submits_at_most n2 (k a)) ->
  submits_at_most (n1 + n2) (bind m k).
Proof.
  intros Hm Hk w. unfold bind.
  destruct (Hm w) as (l1 & E1 & F1).
  destruct (m w) as [[a|e] w1]; cbn in E1.
  - destruct (Hk a w1) as (l2 & E2 & F2). exists (l1 ++ l2).
    rewrite E2, E1, app_assoc. split; [reflexivity|].
    unfold submissions in *. rewrite filter_app, length_app. lia.
  - exists l1. split; [exact E1|lia].
Qed.

Lemma submits_try_except {A : Type} (n1 n2 : nat) (m : M A) (h : pyexn -> M A) :
  submits_at_most n1 m -> (forall e, submits_at_most n2 (h e)) ->
  submits_at_most (n1 + n2) (try_except m h).
Proof.
  intros Hm Hh w. unfold try_except.
  destruct (Hm w) as (l1 & E1 & F1).
  destruct (m w) as [[a|e] w1]; cbn in E1.
  - exists l1. split; [exact E1|lia].
  - destruct (Hh e w1) as (l2 & E2 & F2). exists (l1 ++ l2).
    rewrite E2, E1, app_assoc. split; [reflexivity|].
    unfold submissions in *. rewrite filter_app, length_app. lia.
Qed.

Lemma submits_weaken {A : Type} (n n' : nat) (m : M A) :
  (n <= n')%nat -> submits_at_most n m -> submits_at_most n' m.
Proof.
  intros Hn Hm w. destruct (Hm w) as (l & E & F). exists l. split; [exact E|lia].
Qed.

Lemma submits_bind_l {A B : Type} (n : nat) (m : M A) (k : A -> M B) :
  only quiet m -> (forall a, submits_at_most n (k a)) ->
  submits_at_most n (bind m k).
Proof.
  intros Hm Hk. apply (submits_bind 0 n); [apply submits_of_only, Hm|exact Hk].
Qed.

Lemma submits_bind_r {A B : Type} (n : nat) (m : M A) (k : A -> M B) :
  submits_at_most n m -> (forall a, only quiet (k a)) ->
  submits_at_most n (bind m k).
Proof.
  intros Hm Hk. apply (submits_weaken (n + 0)); [lia|].
  apply submits_bind; [exact Hm|]. intro a. apply submits_of_only, Hk.
Qed.

Lemma submits_try_l {A : Type} (n : nat) (m : M A) (h : pyexn -> M A) :
  submits_at_most n m -> (forall e, only quiet (h e)) ->
  submits_at_most n (try_except m h).
Proof.
  intros Hm Hh. apply (submits_weaken (n + 0)); [lia|].
  apply submits_try_except; [exact Hm|]. intro e. apply submits_of_only, Hh.
Qed.

(** One step towards [submits_at_most 1] for a body that submits once:
    quiet steps first, the submission, a quiet rest. *)
Ltac submit_step :=
  first
    [ apply submits_bind_l; [solve [only_tac]|intro]
    | apply submits_bind_r; [apply submits_call|intro; solve [only_tac]]
    | apply submits_bind_r;
      [ match goal with H : context [submits_at_most] |- _ => apply H end
      | intro; solve [only_tac] ]
    | apply submits_of_only; solve [only_tac]
    | match goal with
      | |- submits_at_most _ (if ?c then _ else _) => destruct c
      | |- submits_at_most _ (match ?x with _ => _ end) => destruct x
      end ].

Ltac submit_tac := repeat submit_step.

(** Exceptions. *)

Lemma never_raises_ret {A : Type} (a : A) : never_raises (ret a).
Proof. intro w. unfold ret. eauto. Qed.

Lemma never_raises_get_bot : never_raises get_bot.
Proof. intro w. unfold get_bot. eauto. Qed.

Lemma never_raises_time_time : never_raises time_time.
Proof. intro w. unfold time_time. eauto. Qed.

Lemma never_raises_update_bot (f : BotState -> BotState) :
  never_raises (update_bot f).
Proof. intro w. unfold update_bot. eauto. Qed.

Lemma never_raises_bind {A B : Type} (m : M A) (k : A -> M B) :
  never_raises m -> (forall a, never_raises (k a)) -> never_raises (bind m k).
Proof.
  intros Hm Hk w. destruct (Hm w) as (a & w1 & E).
  rewrite (bind_run _ _ _ _ _ E). apply Hk.
Qed.

Lemma never_raises_try_except {A : Type} (m : M A) (h : pyexn -> M A) :
  (forall e, never_raises (h e)) -> never_raises (try_except m h).
Proof.
  intros Hh w. apply try_except_total. intros e w0. apply Hh.
Qed.

Ltac calm_step :=
  first
    [ apply never_raises_ret | apply never_raises_get_bot
    | apply never_raises_time_time | apply never_raises_update_bot
    | apply never_raises_try_except; intro
    | match goal with
      | H : context [never_raises] |- _ => apply H
      end
    | apply never_raises_bind; [|intro]
    | match goal with
      | |- never_raises (if ?c then _ else _) => destruct c
      | |- never_raises (match ?x with _ => _ end) => destruct x
      end ].

Ltac calm := repeat calm_step.

(** Fields of the bot. *)

Lemma keeps_ret {A B : Type} (f : BotState -> B) (a : A) : keeps f (ret a).
Proof. intro w. reflexivity. Qed.

Lemma keeps_lift {A B : Type} (f : BotState -> B) (o : outcome A) : keeps f (lift o).
Proof. intro w. reflexivity. Qed.

Lemma keeps_get_bot {B : Type} (f : BotState -> B) : keeps f get_bot.
Proof. intro w. reflexivity. Qed.

Lemma keeps_time_time {B : Type} (f : BotState -> B) : keeps f time_time.
Proof. intro w. reflexivity. Qed.

Lemma keeps_call {B : Type} (f : BotState -> B) (c : Call) : keeps f (call c).
Proof. intro w. unfold call. destruct (responses w); reflexivity. Qed.

Lemma keeps_update_bot {B : Type} (f : BotState -> B) (g : BotState -> BotState) :
  (forall b, f (g b) = f b) -> keeps f (update_bot g).
Proof. intros H w. cbn. apply H. Qed.

Lemma keeps_bind {A B C : Type} (f : BotState -> C) (m : M A) (k : A -> M B) :
  keeps f m -> (forall a, keeps f (k a)) -> keeps f (bind m k).
Proof.
  intros Hm Hk w. unfold bind. specialize (Hm w).
  destruct (m w) as [[a|e] w1]; cbn in Hm.
  - rewrite Hk. exact Hm.
  - exact Hm.
Qed.

Lemma keeps_try_except {A C : Type} (f : BotState -> C) (m : M A)
  (h : pyexn -> M A) :
  keeps f m -> (forall e, keeps f (h e)) -> keeps f (try_except m h).
Proof.
  intros Hm Hh w. unfold try_except. specialize (Hm w).
  destruct (m w) as [[a|e] w1]; cbn in Hm.
  - exact Hm.
  - rewrite Hh. exact Hm.
Qed.

Ltac keep_step :=
  first
    [ apply keeps_ret | apply keeps_lift | apply keeps_get_bot
    | apply keeps_time_time | apply keeps_call
    | apply keeps_update_bot; intro; reflexivity
    | match goal with
      | H : context [keeps] |- _ => apply H
      end
    | apply keeps_bind; [|intro]
    | apply keeps_try_except; [|intro]
    | match goal with
      | |- keeps _ (if ?c then _ else _) => destruct c
      | |- keeps _ (match ?x with _ => _ end) => destruct x
      end ].

Ltac keep := repeat keep_step.

Section Facts.

Variable float_of_string : string -> option Q.
Variable config : TradingConfig.
Variable cc : ContractConfig.

Lemma only_get_order_info (allowed : Call -> bool) (id : pyval) :
  allowed (GetOrderById id) = true -> only allowed (get_order_info id).
Proof.
  intro H. unfold get_order_info.
  apply only_try_except; [|intro; apply only_ret].
  apply only_bind; [apply only_call, H|intro]. only_tac.
Qed.

Lemma keeps_get_order_info {B : Type} (f : BotState -> B) (id : pyval) :
  keeps f (get_order_info id).
Proof. unfold get_order_info. keep. Qed.

Lemma only_cancel_order (allowed : Call -> bool) (id : pyval) :
  allowed (CancelOrder id) = true -> only allowed (cancel_order id).
Proof.
  intro H. unfold cancel_order.
  apply only_try_except; [|intro; apply only_ret].
  apply only_bind; [apply only_call, H|intro]. only_tac.
Qed.

Lemma never_raises_cancel_order (id : pyval) : never_raises (cancel_order id).
Proof. unfold cancel_order. calm. Qed.

Lemma keeps_cancel_order {B : Type} (f : BotState -> B) (id : pyval) :
  keeps f (cancel_order id).
Proof. unfold cancel_order. keep. Qed.

Abbreviation trading := (fun c : Call => is_read c || is_submission c).

(** One pass of either retry loop. *)

Lemma only_open_attempt (cid : string) (qty : Q) (dir : string) (k : nat) :
  only trading (open_attempt float_of_string cc cid qty dir k).
Proof.
  pose proof (fun id => only_get_order_info trading id eq_refl) as Hinfo.
  unfold open_attempt, open_attempt_body. only_tac.
Qed.

Lemma submits_open_attempt (cid : string) (qty : Q) (dir : string) (k : nat) :
  submits_at_most 1 (open_attempt float_of_string cc cid qty dir k).
Proof.
  pose proof (fun id => only_get_order_info quiet id eq_refl) as Hinfo.
  unfold open_attempt, open_attempt_body.
  apply submits_try_l; [|intro; only_tac].
  submit_tac.
Qed.

Lemma keeps_open_attempt {B : Type} (f : BotState -> B) (cid : string) (qty : Q)
  (dir : string) (k : nat) :
  keeps f (open_attempt float_of_string cc cid qty dir k).
Proof.
  pose proof (keeps_get_order_info f) as Hinfo.
  unfold open_attempt, open_attempt_body. keep.
Qed.

Lemma only_close_attempt (cid : string) (qty price : Q) (side : string) (k : nat) :
  only trading (close_attempt float_of_string cc cid qty price side k).
Proof.
  pose proof (fun id => only_get_order_info trading id eq_refl) as Hinfo.
  unfold close_attempt, close_attempt_body. only_tac.
Qed.

Lemma submits_close_attempt (cid : string) (qty price : Q) (side : string) (k : nat) :
  submits_at_most 1 (close_attempt float_of_string cc cid qty price side k).
Proof.
  pose proof (fun id => only_get_order_info quiet id eq_refl) as Hinfo.
  unfold close_attempt, close_attempt_body.
  apply submits_try_l; [|intro; only_tac].
  submit_tac.
Qed.

Lemma keeps_close_attempt {B : Type} (f : BotState -> B) (cid : string)
  (qty price : Q) (side : string) (k : nat) :
  keeps f (close_attempt float_of_string cc cid qty price side k).
Proof.
  pose proof (keeps_get_order_info f) as Hinfo.
  unfold close_attempt, close_attempt_body. keep.
Qed.

Lemma close_attempt_total (cid : string) (qty price : Q) (side : string) (k : nat) :
  never_raises (close_attempt float_of_string cc cid qty price side k).
Proof. unfold close_attempt. calm. Qed.

End Facts.

End ShapeFacts.

(** ** The order functions against any exchange *)

Module OrderShapeFacts.
Import Bot Mock MonadFacts ShapeFacts.

Lemma yields_ret {A : Type} (P : A -> Prop) (a : A) : P a -> yields P (ret a).
Proof. intros H w a' w' E. injection E as <- _. exact H. Qed.

Lemma yields_bind {A B : Type} (Q : A -> Prop) (P : B -> Prop) (m : M A)
  (k : A -> M B) :
  yields Q m -> (forall a, Q a -> yields P (k a)) -> yields P (bind m k).
Proof.
  intros Hm Hk w b w' E. unfold bind in E.
  destruct (m w) as [[a|e] w1] eqn:Em; [|discriminate E].
  apply (Hk a (Hm _ _ _ Em) _ _ _ E).
Qed.

Lemma yields_any {A : Type} (m : M A) : yields (fun _ => True) m.
Proof. intros w a w' _. exact I. Qed.

Lemma yields_bind_any {A B : Type} (P : B -> Prop) (m : M A) (k : A -> M B) :
  (forall a, yields P (k a)) -> yields P (bind m k).
Proof.
  intro Hk. apply (yields_bind (fun _ => True)); [apply yields_any|].
  intros a _. apply Hk.
Qed.

Lemma yields_try_except {A : Type} (P : A -> Prop) (m : M A) (h : pyexn -> M A) :
  yields P m -> (forall e, yields P (h e)) -> yields P (try_except m h).
Proof.
  intros Hm Hh w a w' E. unfold try_except in E.
  destruct (m w) as [[a0|e] w1] eqn:Em.
  - injection E as <- _. apply (Hm _ _ _ Em).
  - apply (Hh e _ _ _ E).
Qed.

Ltac pass_leaf :=
  cbv beta; unfold pass_ok, retries_exhausted;
  first [ assumption | intros [X|X]; discriminate X ].

Ltac yield_step :=
  first
    [ apply yields_ret; pass_leaf
    | apply yields_bind_any; intro
    | apply yields_try_except; [|intro]
    | match goal with
      | |- yields _ (if ?c then _ else _) => destruct c eqn:?
      | |- yields _ (match ?x with _ => _ end) => destruct x
      end ].

Ltac yield := repeat yield_step.

Section Facts.

Variable float_of_string : string -> option Q.
Variable cc : ContractConfig.

Lemma yields_open_attempt (cid : string) (qty : Q) (dir : string) (k : nat) :
  yields (pass_ok k) (open_attempt float_of_string cc cid qty dir k).
Proof. unfold open_attempt, open_attempt_body. yield. Qed.

Lemma yields_close_attempt (cid : string) (qty price : Q) (side : string) (k : nat) :
  yields (pass_ok k) (close_attempt float_of_string cc cid qty price side k).
Proof. unfold close_attempt, close_attempt_body. yield. Qed.

Lemma never_raises_open_loop (cid : string) (qty : Q) (dir : string) (n : nat) :
  never_raises (place_open_order_loop float_of_string cc cid qty dir n).
Proof.
  intro w. apply OpenOrderFacts.place_open_order_loop_total.
Qed.

Lemma never_raises_close_loop (cid : string) (qty price : Q) (side : string)
  (n : nat) :
  never_raises (place_close_order_loop float_of_string cc cid qty price side n).
Proof.
  induction n as [|n IH]; cbn [place_close_order_loop].
  - apply never_raises_ret.
  - apply never_raises_bind; [apply close_attempt_total|].
    intros [|r]; [exact IH|apply never_raises_ret].
Qed.

Lemma submits_open_loop (cid : string) (qty : Q) (dir : string) (n : nat) :
  submits_at_most n (place_open_order_loop float_of_string cc cid qty dir n).
Proof.
  induction n as [|n IH]; cbn [place_open_order_loop].
  - apply submits_of_only, only_ret.
  - apply (submits_bind 1 n); [apply submits_open_attempt|].
    intros [|r]; [exact IH|apply submits_of_only, only_ret].
Qed.

Lemma submits_close_loop (cid : string) (qty price : Q) (side : string) (n : nat) :
  submits_at_most n (place_close_order_loop float_of_string cc cid qty price side n).
Proof.
  induction n as [|n IH]; cbn [place_close_order_loop].
  - apply submits_of_only, only_ret.
  - apply (submits_bind 1 n); [apply submits_close_attempt|].
    intros [|r]; [exact IH|apply submits_of_only, only_ret].
Qed.

Lemma only_open_loop (cid : string) (qty : Q) (dir : string) (n : nat) :
  only (fun c => is_read c || is_submission c)
    (place_open_order_loop float_of_string cc cid qty dir n).
Proof.
  induction n as [|n IH]; cbn [place_open_order_loop].
  - apply only_ret.
  - apply only_bind; [apply only_open_attempt|].
    intros [|r]; [exact IH|apply only_ret].
Qed.

Lemma only_close_loop (cid : string) (qty price : Q) (side : string) (n : nat) :
  only (fun c => is_read c || is_submission c)
    (place_close_order_loop float_of_string cc cid qty price side n).
Proof.
  induction n as [|n IH]; cbn [place_close_order_loop].
  - apply only_ret.
  - apply only_bind; [apply only_close_attempt|].
    intros [|r]; [exact IH|apply only_ret].
Qed.

Lemma keeps_open_loop {B : Type} (f : BotState -> B) (cid : string) (qty : Q)
  (dir : string) (n : nat) :
  keeps f (place_open_order_loop float_of_string cc cid qty dir n).
Proof.
  induction n as [|n IH]; cbn [place_open_order_loop].
  - apply keeps_ret.
  - apply keeps_bind; [apply keeps_open_attempt|].
    intros [|r]; [exact IH|apply keeps_ret].
Qed.

Lemma keeps_close_loop {B : Type} (f : BotState -> B) (cid : string)
  (qty price : Q) (side : string) (n : nat) :
  keeps f (place_close_order_loop float_of_string cc cid qty price side n).
Proof.
  induction n as [|n IH]; cbn [place_close_order_loop].
  - apply keeps_ret.
  - apply keeps_bind; [apply keeps_close_attempt|].
    intros [|r]; [exact IH|apply keeps_ret].
Qed.

Lemma yields_open_loop (cid : string) (qty : Q) (dir : string) (n : nat) :
  (1 <= n <= max_retries)%nat ->
  yields (fun r => ~ retries_exhausted r)
    (place_open_order_loop float_of_string cc cid qty dir n).
Proof.
  induction n as [|n IH]; intro Hn; [lia|].
  cbn [place_open_order_loop].
  apply (yields_bind (pass_ok (max_retries - S n))); [apply yields_open_attempt|].
  intros [|r] Hc; cbn [pass_ok] in Hc.
  - apply IH. apply Nat.ltb_lt in Hc. unfold max_retries in *. lia.
  - apply yields_ret, Hc.
Qed.

Lemma yields_close_loop (cid : string) (qty price : Q) (side : string) (n : nat) :
  (1 <= n <= max_retries)%nat ->
  yields (fun r => ~ retries_exhausted r)
    (place_close_order_loop float_of_string cc cid qty price side n).
Proof.
  induction n as [|n IH]; intro Hn; [lia|].
  cbn [place_close_order_loop].
  apply (yields_bind (pass_ok (max_retries - S n))); [apply yields_close_attempt|].
  intros [|r] Hc; cbn [pass_ok] in Hc.
  - apply IH. apply Nat.ltb_lt in Hc. unfold max_retries in *. lia.
  - apply yields_ret, Hc.
Qed.



Abbreviation all_rejected := (Mock.all_rejected float_of_string).

Lemma close_loop_rejected (cid : string) (qty target : Q) (side : string)
  (rs : list round) :
  all_rejected rs ->
  forall (remaining : nat) rest tr t b,
    (List.length rs < remaining)%nat -> (remaining <= max_retries)%nat ->
    place_close_order_loop float_of_string cc cid qty target side remaining
      {| responses := flat_map round_responses rs ++ rest; calls := tr;
         now := t; bot := b |} =
    place_close_order_loop float_of_string cc cid qty target side
      (remaining - List.length rs)
      {| responses := rest;
         calls := tr ++ flat_map (close_calls cc cid qty side target) rs;
         now := t; bot := b |}.
Proof.
  induction 1 as [|r rs [Hu Hs] Hrs IH]; intros remaining rest tr t b Hlen Hmax.
  - simpl. rewrite Nat.sub_0_r, app_nil_r. reflexivity.
  - simpl in Hlen. destruct remaining as [|remaining']; [lia|].
    cbn [flat_map List.length]. rewrite <- app_assoc.
    cbn [place_close_order_loop].
    rewrite (bind_run _ _ _ _ _
               (CloseOrderFacts.close_attempt_round float_of_string cc cid qty target
                  side r _ _ _ _ _ Hu)).
    rewrite Hs. cbn [String.eqb Ascii.eqb Bool.eqb].
    assert (Hk : (max_retries - S remaining' <? max_retries - 1)%nat = true).
    { apply Nat.ltb_lt. unfold max_retries in *. lia. }
    rewrite Hk.
    rewrite IH by lia.
    rewrite <- app_assoc. reflexivity.
Qed.

(** X11: when the first [N] submissions of a close order come back
    CANCELED, then with [N <= 14] and submission [N+1] accepted
    [place_close_order] returns success with that order's id, price and
    status after [N+1] rounds of book read, submission and order read,
    and with [N >= 15] it returns the failure "Close order rejected after
    15 attempts" after exactly fifteen submissions, leaving the answers of
    later rounds unread. *)
Theorem close_order_retry_bound (cid : string) (qty target : Q) (side : string)
  (rs : list round) (rest : list (outcome pyval)) (tr : list Call) (t : Q)
  (b : BotState) :
  all_rejected rs ->
  (forall r',
      (List.length rs <= 14)%nat ->
      usable float_of_string r' ->
      status_placed (VStr (status r')) = true ->
      place_close_order float_of_string cc cid qty target side
        {| responses := flat_map round_responses rs ++ round_responses r' ++ rest;
           calls := tr; now := t; bot := b |} =
      (Ret (Ok {| r_order_id := VStr (order_id r');
                  r_side := side;
                  r_size := qty;
                  r_price := close_price cc side target r';
                  r_status := Some (VStr (status r'));
                  r_type := None |}),
       {| responses := rest;
          calls := tr ++ flat_map (close_calls cc cid qty side target) (rs ++ [r']);
          now := t; bot := b |})) /\
  ((15 <= List.length rs)%nat ->
      let made := flat_map (close_calls cc cid qty side target) (firstn 15 rs) in
      place_close_order float_of_string cc cid qty target side
        {| responses := flat_map round_responses rs ++ rest;
           calls := tr; now := t; bot := b |} =
      (Ret (Error (ErrRejectedAfter "Close order" 15)),
       {| responses := flat_map round_responses (skipn 15 rs) ++ rest;
          calls := tr ++ made; now := t; bot := b |}) /\
      submissions made = 15%nat).
Proof.
  intro Hrs. split.
  - intros r' Hlen Hu Hplaced.
    unfold place_close_order.
    rewrite (close_loop_rejected cid qty target side rs Hrs)
      by (unfold max_retries; lia).
    destruct (max_retries - List.length rs)%nat as [|n] eqn:En;
      [unfold max_retries in En; lia|].
    cbn [place_close_order_loop].
    rewrite (bind_run _ _ _ _ _
               (CloseOrderFacts.close_attempt_round float_of_string cc cid qty target
                  side r' _ _ _ _ _ Hu)).
    rewrite (OpenOrderFacts.placed_not_canceled _ Hplaced), Hplaced.
    rewrite flat_map_app. cbn [flat_map]. rewrite app_nil_r, <- app_assoc.
    reflexivity.
  - intros Hlen made.
    destruct (OpenOrderFacts.split_fifteen rs Hlen)
      as (l1 & r & l2 & Ers & Hl1 & Hfirst & Hskip).
    assert (Hall : all_rejected l1 /\ (usable float_of_string r /\
                   status r = "CANCELED"%string)).
    { unfold Mock.all_rejected in *. rewrite Ers in Hrs.
      apply Forall_app in Hrs. destruct Hrs as [H1 H2].
      split; [exact H1|]. inversion H2; assumption. }
    destruct Hall as [Hall1 [Hu Hs]].
    split.
    + unfold place_close_order, made.
      rewrite Hskip, Hfirst. rewrite Ers at 1.
      rewrite flat_map_app. cbn [flat_map]. rewrite <- !app_assoc.
      rewrite (close_loop_rejected cid qty target side l1 Hall1)
        by (unfold max_retries; lia).
      rewrite Hl1. unfold max_retries at 1.
      cbn [Nat.sub place_close_order_loop].
      rewrite (bind_run _ _ _ _ _
                 (CloseOrderFacts.close_attempt_round float_of_string cc cid qty
                    target side r _ _ _ _ _ Hu)).
      rewrite Hs. cbn.
      rewrite flat_map_app. cbn [flat_map]. rewrite app_nil_r, <- app_assoc.
      reflexivity.
    + unfold made, submissions.
      assert (Hcount : forall l,
                List.length (filter is_submission
                               (flat_map (close_calls cc cid qty side target) l)) =
                List.length l).
      { induction l as [|x l IH]; [reflexivity|].
        cbn [flat_map close_calls app filter is_submission List.length].
        rewrite IH. reflexivity. }
      rewrite Hcount, length_firstn. lia.
Qed.

End Facts.

End OrderShapeFacts.

Lemma close_order_retry_bound_witness :
  Bot.place_close_order Decimal.parse Mock.demo_contract "10000001" (1 # 100)
    (1003 # 1) "sell"
    {| Bot.responses :=
         flat_map Mock.round_responses [Mock.demo_round "1" "CANCELED"] ++
         Mock.round_responses (Mock.demo_round "2" "OPEN") ++ [];
       Bot.calls := []; Bot.now := 0; Bot.bot := Mock.initial_bot |} =
  (Ret (Bot.Ok {| Bot.r_order_id := VStr "2";
                  Bot.r_side := "sell";
                  Bot.r_size := 1 # 100;
                  Bot.r_price :=
                    Mock.close_price Mock.demo_contract "sell" (1003 # 1)
                      (Mock.demo_round "2" "OPEN");
                  Bot.r_status := Some (VStr "OPEN");
                  Bot.r_type := None |}),
   {| Bot.responses := [];
      Bot.calls :=
        [] ++ flat_map (Mock.close_calls Mock.demo_contract "10000001" (1 # 100)
                          "sell" (1003 # 1))
                ([Mock.demo_round "1" "CANCELED"] ++ [Mock.demo_round "2" "OPEN"]);
      Bot.now := 0; Bot.bot := Mock.initial_bot |}).
Proof.
  destruct (OrderShapeFacts.close_order_retry_bound Decimal.parse Mock.demo_contract
              "10000001" (1 # 100) (1003 # 1) "sell"
              [Mock.demo_round "1" "CANCELED"] [] [] 0 Mock.initial_bot) as [H _].
  - constructor; [|constructor].
    split; [|reflexivity].
    unfold Mock.usable. cbn.
    refine (conj eq_refl (conj eq_refl (conj _ (conj _ _)))); [reflexivity|reflexivity|discriminate].
  - apply (H (Mock.demo_round "2" "OPEN")).
    + cbn. lia.
    + unfold Mock.usable. cbn.
      refine (conj eq_refl (conj eq_refl (conj _ (conj _ _)))); [reflexivity|reflexivity|discriminate].
    + reflexivity.
Defined.

(** ** The hedge order *)

Module HedgeOrderFacts.
Import Bot Mock MonadFacts ShapeFacts.

Section Facts.

Variable float_of_string : string -> option Q.
Variable config : TradingConfig.
Variable cc : ContractConfig.

Lemma only_place_hedge_order (dir : string) (qty : Q) (aggressive : bool) :
  only (fun c => is_book_read c || is_submission c)
    (place_hedge_order float_of_string config cc dir qty aggressive).
Proof. unfold place_hedge_order. only_tac. Qed.

Lemma submits_place_hedge_order (dir : string) (qty : Q) (aggressive : bool) :
  submits_at_most 1 (place_hedge_order float_of_string config cc dir qty aggressive).
Proof.
  unfold place_hedge_order.
  apply submits_try_l; [|intro; only_tac].
  submit_tac.
Qed.

Lemma keeps_place_hedge_order {B : Type} (f : BotState -> B) (dir : string)
  (qty : Q) (aggressive : bool) :
  keeps f (place_hedge_order float_of_string config cc dir qty aggressive).
Proof. unfold place_hedge_order. keep. Qed.

Lemma never_raises_place_hedge_order (dir : string) (qty : Q) (aggressive : bool) :
  never_raises (place_hedge_order float_of_string config cc dir qty aggressive).
Proof. unfold place_hedge_order. calm. Qed.

(** X12: whatever the exchange answers, [place_hedge_order] returns a
    result and does not raise, reads the book once at most and submits at
    most one order, with no retry, no order read and no cancel, and leaves
    the bot's fields as they are. *)
Theorem place_hedge_order_single_shot (dir : string) (qty : Q) (aggressive : bool) :
  let m := place_hedge_order float_of_string config cc dir qty aggressive in
  never_raises m /\
  submits_at_most 1 m /\
  only (fun c => is_book_read c || is_submission c) m /\
  keeps (fun b => b) m.
Proof.
  split; [apply never_raises_place_hedge_order|].
  split; [apply submits_place_hedge_order|].
  split; [apply only_place_hedge_order|apply keeps_place_hedge_order].
Qed.

(** X13: a hedge that is not aggressive is priced one step inside the
    book, a sell one step above the best bid and a buy one step below the
    best ask, rounded to the step; a book with no bids or no asks gives
    the failure "No bid/ask data for hedge" after the book read alone. *)
Theorem place_hedge_order_conservative (dir : string) (qty : Q)
  (bids asks : list Q) (id : string) (rest : list (outcome pyval))
  (tr : list Call) (t : Q) (b : BotState) :
  let hedge_price :=
    round_price_to_step
      (if String.eqb dir "sell" then hd 0 bids + step_size cc
       else hd 0 asks - step_size cc) (step_size cc) in
  (bids <> [] -> asks <> [] -> id <> EmptyString ->
   place_hedge_order float_of_string config cc dir qty false
     {| responses := Ret (book_of_levels (map VNum bids) (map VNum asks))
                     :: Ret (created_payload id) :: rest;
        calls := tr; now := t; bot := b |} =
   (Ret (Ok {| r_order_id := VStr id;
               r_side := dir;
               r_size := qty;
               r_price := hedge_price;
               r_status := None;
               r_type := Some "hedge"%string |}),
    {| responses := rest;
       calls := tr ++ [GetOrderBookDepth (contract_id config) 15;
                       CreateLimitOrder (contract_id config) qty hedge_price
                         (if String.eqb dir "sell" then SELL else BUY) true];
       now := t; bot := b |})) /\
  (forall aggressive,
   bids = [] \/ asks = [] ->
   place_hedge_order float_of_string config cc dir qty aggressive
     {| responses := Ret (book_of_levels (map VNum bids) (map VNum asks)) :: rest;
        calls := tr; now := t; bot := b |} =
   (Ret (Error (ErrText "No bid/ask data for hedge")),
    {| responses := rest;
       calls := tr ++ [GetOrderBookDepth (contract_id config) 15];
       now := t; bot := b |})).
Proof.
  intro hedge_price. split.
  - intros Hb Ha Hid.
    assert (Hne : String.eqb id EmptyString = false).
    { destruct (String.eqb id EmptyString) eqn:E; [|reflexivity].
      apply String.eqb_eq in E. contradiction. }
    unfold place_hedge_order, hedge_price.
    apply try_except_ret.
    destruct bids as [|b1 bs]; [contradiction|].
    destruct asks as [|a1 az]; [contradiction|].
    destruct (String.eqb dir "sell") eqn:Ed;
      cbn -[round_price_to_step]; rewrite ?Ed; cbn -[round_price_to_step];
      rewrite Hne; cbn -[round_price_to_step];
      rewrite <- app_assoc; reflexivity.
  - intros aggressive Hempty.
    unfold place_hedge_order. apply try_except_ret.
    destruct Hempty as [E|E]; subst.
    + reflexivity.
    + destruct bids; reflexivity.
Qed.

End Facts.

End HedgeOrderFacts.

Lemma place_hedge_order_conservative_witness :
  fst (Bot.place_hedge_order Decimal.parse Mock.demo_config Mock.demo_contract "sell"
         (3 # 100) false
         {| Bot.responses :=
              [Ret (Mock.book_of_levels (map VNum [1000 # 1]) (map VNum [1001 # 1]));
               Ret (Mock.created_payload "h1")];
            Bot.calls := []; Bot.now := 0; Bot.bot := Mock.initial_bot |}) =
  Ret (Bot.Ok {| Bot.r_order_id := VStr "h1";
                 Bot.r_side := "sell";
                 Bot.r_size := 3 # 100;
                 Bot.r_price :=
                   Bot.round_price_to_step ((1000 # 1) + (1 # 10)) (1 # 10);
                 Bot.r_status := None;
                 Bot.r_type := Some "hedge"%string |}).
Proof.
  destruct (HedgeOrderFacts.place_hedge_order_conservative Decimal.parse
              Mock.demo_config Mock.demo_contract "sell" (3 # 100)
              [1000 # 1] [1001 # 1] "h1" [] [] 0 Mock.initial_bot) as [H _].
  rewrite H; [reflexivity|discriminate|discriminate|discriminate].
Defined.

(** ** After the open order: the result handler and the monitor *)

Module MonitorFacts.
Import Bot Mock MonadFacts ShapeFacts.

Section Facts.

Variable float_of_string : string -> option Q.
Variable config : TradingConfig.
Variable cc : ContractConfig.

Abbreviation handle := (_handle_order_result float_of_string config cc).
Abbreviation monitor := (_place_and_monitor_open_order float_of_string config cc).

(** X14: an order that is read back with a status other than FILLED, OPEN
    and PARTIALLY_FILLED, or that cannot be read back at all, is left as
    it is: [_handle_order_result] returns [False] after the one status
    read, with no cancel and no close order. *)
Theorem handle_order_result_leaves_order (data : order_data)
  (rest : list (outcome pyval)) (tr : list Call) (t : Q) (b : BotState) :
  let w_after := {| responses := rest; calls := tr ++ [GetOrderById (r_order_id data)];
                  now := t; bot := b |} in
  (forall e,
     handle data {| responses := Raise e :: rest; calls := tr; now := t; bot := b |} =
     (Ret false, w_after)) /\
  handle data {| responses := Ret (VDict []) :: rest; calls := tr; now := t; bot := b |} =
    (Ret false, w_after) /\
  (forall fields,
     let status := field_or fields "status" (VStr "UNKNOWN") in
     eq_str status "FILLED" = false ->
     eq_str status "OPEN" = false ->
     eq_str status "PARTIALLY_FILLED" = false ->
     handle data {| responses := Ret (order_payload fields) :: rest; calls := tr;
                    now := t; bot := b |} =
     (Ret false, w_after)).
Proof.
  intro w_after. split; [|split].
  - intro e. reflexivity.
  - reflexivity.
  - intros fields status H1 H2 H3.
    unfold _handle_order_result.
    rewrite (bind_run _ _ _ _ _
               (CloseOrderFacts.get_order_info_payload (r_order_id data) fields rest tr t b)).
    unfold bind at 1. cbn [lift get]. fold (field_or fields "status" (VStr "UNKNOWN")).
    fold status. rewrite H1, H2, H3. reflexivity.
Qed.

(** X15: without a fill there is no close order.  A FILLED order whose
    price does not read as positive gets none, and [True] is returned
    after the status read alone; an OPEN or PARTIALLY_FILLED order is
    cancelled and read again, and when the filled size is not positive
    [True] is returned after these three calls. *)
Theorem handle_order_result_no_fill (data : order_data)
  (rest : list (outcome pyval)) (tr : list Call) (t : Q) (b : BotState) :
  (forall fields P,
     lookup "status" fields = Some (VStr "FILLED") ->
     Py.float float_of_string (field_or fields "price" (VNum 0)) = Ret P ->
     P <= 0 ->
     handle data {| responses := Ret (order_payload fields) :: rest; calls := tr;
                    now := t; bot := b |} =
     (Ret true,
      {| responses := rest; calls := tr ++ [GetOrderById (r_order_id data)];
         now := t; bot := set_current_order_status "FILLED" b |})) /\
  (forall fields0 fields st s A P cancel_response,
     lookup "status" fields0 = Some (VStr st) ->
     st = "OPEN"%string \/ st = "PARTIALLY_FILLED"%string ->
     lookup "side" fields = Some (VStr s) ->
     Py.float float_of_string (field_or fields "cumFillSize" (VNum 0)) = Ret A ->
     Py.float float_of_string (field_or fields "price" (VNum 0)) = Ret P ->
     A <= 0 ->
     exists b',
       handle data {| responses := Ret (order_payload fields0) :: cancel_response
                                   :: Ret (order_payload fields) :: rest;
                      calls := tr; now := t; bot := b |} =
       (Ret true,
        {| responses := rest;
           calls := tr ++ [GetOrderById (r_order_id data);
                           CancelOrder (r_order_id data);
                           GetOrderById (r_order_id data)];
           now := t; bot := b' |}) /\
       (b' = b \/ b' = set_current_order_status "CANCELED" b)).
Proof.
  split.
  - intros fields P Hst Hprice HP. unfold field_or in Hprice.
    unfold _handle_order_result.
    rewrite (bind_run _ _ _ _ _
               (CloseOrderFacts.get_order_info_payload (r_order_id data) fields rest tr t b)).
    unfold bind at 1. cbn [lift get]. rewrite Hst.
    cbn [eq_str String.eqb Ascii.eqb Bool.eqb].
    unfold bind at 1. cbn [update_bot].
    unfold bind at 1. cbn [lift].
    unfold bind at 1. cbn [lift get].
    unfold bind at 1. cbn [lift]. rewrite Hprice.
    assert (E : Qgtb P 0 = false) by (apply Qgtb_le; exact HP).
    rewrite E. reflexivity.
  - intros fields0 fields st s A P cancel_response Hst Hor Hside Hamount Hprice HA.
    unfold field_or in Hamount, Hprice.
    assert (Estatus : eq_str (VStr st) "FILLED" = false /\
                      eq_str (VStr st) "OPEN" || eq_str (VStr st) "PARTIALLY_FILLED"
                      = true).
    { destruct Hor; subst st; split; reflexivity. }
    destruct Estatus as [E1 E2].
    assert (Hcancel : exists cr b',
               cancel_order (r_order_id data)
                 {| responses := cancel_response :: Ret (order_payload fields) :: rest;
                    calls := tr ++ [GetOrderById (r_order_id data)];
                    now := t; bot := b |} =
               (Ret cr,
                {| responses := Ret (order_payload fields) :: rest;
                   calls := (tr ++ [GetOrderById (r_order_id data)]) ++
                            [CancelOrder (r_order_id data)];
                   now := t; bot := b |}) /\
               (b' = match cr with
                     | CancelOk _ => set_current_order_status "CANCELED" b
                     | CancelError _ => b
                     end)).
    { unfold cancel_order, try_except, bind. rewrite call_cons.
      destruct cancel_response as [v|e]; [|eexists _, _; split; reflexivity].
      unfold lift.
      destruct (truthy v); cbn [negb orb];
        [|eexists _, _; split; reflexivity].
      destruct (contains "data" v) as [has|e]; [|eexists _, _; split; reflexivity].
      destruct has; eexists _, _; split; reflexivity. }
    destruct Hcancel as (cr & b' & Hrun & Hb').
    exists b'. split; [|subst b'; destruct cr; auto].
    unfold _handle_order_result.
    rewrite (bind_run _ _ _ _ _
               (CloseOrderFacts.get_order_info_payload _ fields0 _ tr t b)).
    unfold bind at 1. cbn [lift get]. rewrite Hst. rewrite E1, E2.
    rewrite (bind_run _ _ _ _ _ Hrun).
    assert (Hafter :
              (match cr with
               | CancelOk _ => update_bot (set_current_order_status "CANCELED")
               | CancelError _ => ret tt
               end)
                {| responses := Ret (order_payload fields) :: rest;
                   calls := (tr ++ [GetOrderById (r_order_id data)]) ++
                            [CancelOrder (r_order_id data)];
                   now := t; bot := b |} =
              (Ret tt,
               {| responses := Ret (order_payload fields) :: rest;
                  calls := (tr ++ [GetOrderById (r_order_id data)]) ++
                           [CancelOrder (r_order_id data)];
                  now := t; bot := b' |})).
    { subst b'. destruct cr; reflexivity. }
    rewrite (bind_run _ _ _ _ _ Hafter).
    rewrite (bind_run _ _ _ _ _
               (CloseOrderFacts.get_order_info_payload _ fields rest _ t b')).
    unfold bind at 1. cbn [lift].
    unfold bind at 1. cbn [lift get].
    unfold bind at 1. cbn [lift]. rewrite Hamount.
    unfold bind at 1. cbn [lift get].
    unfold bind at 1. cbn [lift]. rewrite Hprice.
    unfold bind at 1. cbn [lift get]. rewrite Hside.
    unfold bind at 1. cbn [lift lower].
    assert (E : Qgtb A 0 = false) by (apply Qgtb_le; exact HA).
    rewrite E. unfold ret.
    rewrite <- !app_assoc. reflexivity.
Qed.

Lemma bind_raise {A B : Type} (m : M A) (k : A -> M B) (w w' : World) (e : pyexn) :
  m w = (Raise e, w') -> bind m k w = (Raise e, w').
Proof. intro H. unfold bind. rewrite H. reflexivity. Qed.

(** After a cancel, an order that cannot be read again makes the handler
    raise. *)
Lemma handle_reread_fails (data : order_data) (fields0 : list (string * pyval))
  (st : string) (cancel_response : outcome pyval) (e : pyexn)
  (rest : list (outcome pyval)) (tr : list Call) (t : Q) (b : BotState) :
  lookup "status" fields0 = Some (VStr st) ->
  st = "OPEN"%string \/ st = "PARTIALLY_FILLED"%string ->
  exists b',
    handle data {| responses := Ret (order_payload fields0) :: cancel_response
                                :: Raise e :: rest;
                   calls := tr; now := t; bot := b |} =
    (Raise KeyError,
     {| responses := rest;
        calls := tr ++ [GetOrderById (r_order_id data);
                        CancelOrder (r_order_id data);
                        GetOrderById (r_order_id data)];
        now := t; bot := b' |}) /\
    (b' = b \/ b' = set_current_order_status "CANCELED" b).
Proof.
  intros Hst Hor.
  assert (Estatus : eq_str (VStr st) "FILLED" = false /\
                    eq_str (VStr st) "OPEN" || eq_str (VStr st) "PARTIALLY_FILLED"
                    = true).
  { destruct Hor; subst st; split; reflexivity. }
  destruct Estatus as [E1 E2].
  assert (Hcancel : exists cr b',
             cancel_order (r_order_id data)
               {| responses := cancel_response :: Raise e :: rest;
                  calls := tr ++ [GetOrderById (r_order_id data)];
                  now := t; bot := b |} =
             (Ret cr,
              {| responses := Raise e :: rest;
                 calls := (tr ++ [GetOrderById (r_order_id data)]) ++
                          [CancelOrder (r_order_id data)];
                 now := t; bot := b |}) /\
             (b' = match cr with
                   | CancelOk _ => set_current_order_status "CANCELED" b
                   | CancelError _ => b
                   end)).
  { unfold cancel_order, try_except, bind. rewrite call_cons.
    destruct cancel_response as [v|e']; [|eexists _, _; split; reflexivity].
    unfold lift.
    destruct (truthy v); cbn [negb orb];
      [|eexists _, _; split; reflexivity].
    destruct (contains "data" v) as [has|e']; [|eexists _, _; split; reflexivity].
    destruct has; eexists _, _; split; reflexivity. }
  destruct Hcancel as (cr & b' & Hrun & Hb').
  exists b'. split; [|subst b'; destruct cr; auto].
  unfold _handle_order_result.
  rewrite (bind_run _ _ _ _ _
             (CloseOrderFacts.get_order_info_payload _ fields0 _ tr t b)).
  unfold bind at 1. cbn [lift get]. rewrite Hst. rewrite E1, E2.
  rewrite (bind_run _ _ _ _ _ Hrun).
  assert (Hafter :
            (match cr with
             | CancelOk _ => update_bot (set_current_order_status "CANCELED")
             | CancelError _ => ret tt
             end)
              {| responses := Raise e :: rest;
                 calls := (tr ++ [GetOrderById (r_order_id data)]) ++
                          [CancelOrder (r_order_id data)];
                 now := t; bot := b |} =
            (Ret tt,
             {| responses := Raise e :: rest;
                calls := (tr ++ [GetOrderById (r_order_id data)]) ++
                         [CancelOrder (r_order_id data)];
                now := t; bot := b' |})).
  { subst b'. destruct cr; reflexivity. }
  rewrite (bind_run _ _ _ _ _ Hafter).
  cbn. rewrite <- !app_assoc. reflexivity.
Qed.

(** X16: when an OPEN or PARTIALLY_FILLED order has been cancelled and
    the read that follows fails, [_handle_order_result] raises [KeyError]
    after the status read, the cancel and the failed read, and places no
    close order; [_place_and_monitor_open_order] then returns [False]. *)
Theorem reread_failure_ends_the_attempt (d : option string) (r : round)
  (wait_response : outcome pyval) (fields0 : list (string * pyval)) (st : string)
  (cancel_response : outcome pyval) (e : pyexn) (rest : list (outcome pyval))
  (tr : list Call) (t : Q) (b : BotState) :
  lookup "status" fields0 = Some (VStr st) ->
  st = "OPEN"%string \/ st = "PARTIALLY_FILLED"%string ->
  (forall data,
     fst (handle data {| responses := Ret (order_payload fields0) :: cancel_response
                                      :: Raise e :: rest;
                         calls := tr; now := t; bot := b |}) = Raise KeyError /\
     calls (snd (handle data
                   {| responses := Ret (order_payload fields0) :: cancel_response
                                   :: Raise e :: rest;
                      calls := tr; now := t; bot := b |})) =
     tr ++ [GetOrderById (r_order_id data); CancelOrder (r_order_id data);
            GetOrderById (r_order_id data)]) /\
  (usable float_of_string r ->
   status r = "OPEN"%string ->
   match wait_response with Ret _ => True | Raise x => x = TimeoutError end ->
   let w := {| responses := round_responses r ++ wait_response
                            :: Ret (order_payload fields0) :: cancel_response
                            :: Raise e :: rest;
               calls := tr; now := t; bot := b |} in
   fst (monitor d w) = Ret false /\
   submissions (skipn (List.length tr) (calls (snd (monitor d w)))) = 1%nat /\
   responses (snd (monitor d w)) = rest).
Proof.
  intros Hst Hor. split.
  - intro data.
    destruct (handle_reread_fails data fields0 st cancel_response e rest tr t b Hst Hor)
      as (b' & Hrun & _).
    rewrite Hrun. split; reflexivity.
  - intros Hu Hstatus Hwait w.
    set (dir := match d with
                | Some x => if String.eqb x EmptyString then direction config else x
                | None => direction config
                end).
    assert (Hplaced : status_placed (VStr (status r)) = true)
      by (rewrite Hstatus; reflexivity).
    pose proof (OpenOrderFacts.place_open_order_accepted float_of_string cc
                  (contract_id config) (quantity config) dir [] r
                  (wait_response :: Ret (order_payload fields0) :: cancel_response
                   :: Raise e :: rest)
                  tr t (set_order_filled_event false b)
                  (Forall_nil _) (Nat.le_0_l _) Hu Hplaced) as Hopen.
    cbn [flat_map app] in Hopen. rewrite app_nil_r in Hopen.
    set (data := {| r_order_id := VStr (order_id r);
                    r_side := side_value (open_side dir);
                    r_size := quantity config;
                    r_price := open_price cc dir r;
                    r_status := Some (VStr (status r));
                    r_type := None |}) in *.
    set (tr1 := tr ++ round_calls cc (contract_id config) (quantity config) dir r) in *.
    set (b1 := set_last_open_order_time t (set_order_filled_event false b)).
    destruct (handle_reread_fails data fields0 st cancel_response e rest
                (tr1 ++ [WaitOrderFilled fill_timeout]) t b1 Hst Hor)
      as (b' & Hrun & _).
    assert (Hbody :
      exists w', monitor d w = (Ret false, w') /\
                 calls w' = (tr1 ++ [WaitOrderFilled fill_timeout]) ++
                            [GetOrderById (r_order_id data);
                             CancelOrder (r_order_id data);
                             GetOrderById (r_order_id data)] /\
                 responses w' = rest).
    { exists {| responses := rest;
                calls := (tr1 ++ [WaitOrderFilled fill_timeout]) ++
                         [GetOrderById (r_order_id data);
                          CancelOrder (r_order_id data);
                          GetOrderById (r_order_id data)];
                now := t; bot := b' |}.
      split; [|split; reflexivity].
      unfold _place_and_monitor_open_order.
      match goal with
      | |- try_except ?body ?h ?w0 = _ =>
          assert (Hb : body w0 =
                       (Raise KeyError,
                        {| responses := rest;
                           calls := (tr1 ++ [WaitOrderFilled fill_timeout]) ++
                                    [GetOrderById (r_order_id data);
                                     CancelOrder (r_order_id data);
                                     GetOrderById (r_order_id data)];
                           now := t; bot := b' |}));
            [|rewrite (try_except_raise _ _ _ _ _ Hb); reflexivity]
      end.
      unfold bind at 1. cbn [update_bot w responses calls now bot].
      fold dir.
      rewrite (bind_run _ _ _ _ _ Hopen).
      unfold bind at 1. cbn [time_time now].
      unfold bind at 1. cbn [update_bot responses calls now bot].
      fold b1.
      assert (Hw : (match r_status data with
                    | Some status0 =>
                        if eq_str status0 "FILLED" then ret tt else wait_for_fill
                    | None => wait_for_fill
                    end)
                     {| responses := wait_response :: Ret (order_payload fields0)
                                     :: cancel_response :: Raise e :: rest;
                        calls := tr1; now := t; bot := b1 |} =
                   (Ret tt,
                    {| responses := Ret (order_payload fields0) :: cancel_response
                                    :: Raise e :: rest;
                       calls := tr1 ++ [WaitOrderFilled fill_timeout];
                       now := t; bot := b1 |})).
      { unfold data. cbn [r_status]. rewrite Hstatus.
        cbn [eq_str String.eqb Ascii.eqb Bool.eqb].
        apply FillSignalFacts.wait_for_fill_run. exact Hwait. }
      refine (eq_trans (bind_run _ _ _ _ _ Hw) _).
      exact Hrun. }
    destruct Hbody as (w' & Hm & Hc & Hr).
    rewrite Hm. cbn [fst snd]. split; [reflexivity|]. split; [|exact Hr].
    rewrite Hc. unfold tr1. rewrite <- !app_assoc.
    rewrite skipn_app, skipn_all, Nat.sub_diag. reflexivity.
Qed.

Lemma keeps_handle {B : Type} (f : BotState -> B) (data : order_data) :
  (forall s b, f (set_current_order_status s b) = f b) ->
  keeps f (handle data).
Proof.
  intro Hf.
  pose proof (keeps_get_order_info f) as Hinfo.
  pose proof (keeps_cancel_order f) as Hcancel.
  assert (Hclose : forall cid qty price side,
             keeps f (place_close_order float_of_string cc cid qty price side))
    by (intros; unfold place_close_order; apply OrderShapeFacts.keeps_close_loop).
  unfold _handle_order_result.
  set (pco := place_close_order float_of_string cc) in *. clearbody pco.
  set (goi := get_order_info) in *. clearbody goi.
  set (co := cancel_order) in *. clearbody co.
  repeat first
    [ apply keeps_update_bot; intro; apply Hf
    | keep_step ].
Qed.

Lemma submits_handle (data : order_data) : submits_at_most 15 (handle data).
Proof.
  pose proof (fun id => only_get_order_info (fun c => negb (is_submission c)) id eq_refl)
    as Hinfo.
  pose proof (fun id => only_cancel_order (fun c => negb (is_submission c)) id eq_refl)
    as Hcancel.
  assert (Hclose : forall cid qty price side,
             submits_at_most 15
               (place_close_order float_of_string cc cid qty price side))
    by (intros; unfold place_close_order; apply OrderShapeFacts.submits_close_loop).
  unfold _handle_order_result.
  set (pco := place_close_order float_of_string cc) in *. clearbody pco.
  set (goi := get_order_info) in *. clearbody goi.
  set (co := cancel_order) in *. clearbody co.
  submit_tac.
Qed.

(** X17: whatever the exchange answers, [_handle_order_result] submits
    at most fifteen orders, all of one close order, never waits on the
    fill signal, and of the bot's fields changes only the order status:
    the tracked orders, the order count of the throttle, the time of the
    last open order, the stop flag and the fill signal stay as they
    are. *)
Theorem handle_order_result_shape (data : order_data) :
  submits_at_most 15 (handle data) /\
  only (fun c => match c with WaitOrderFilled _ => false | _ => true end)
    (handle data) /\
  keeps active_close_orders (handle data) /\
  keeps last_close_orders (handle data) /\
  keeps last_open_order_time (handle data) /\
  keeps shutdown_requested (handle data) /\
  keeps order_filled_event (handle data).
Proof.
  split; [apply submits_handle|].
  split; [|repeat split; apply keeps_handle; reflexivity].
  pose proof (fun id => only_get_order_info
                (fun c => match c with WaitOrderFilled _ => false | _ => true end)
                id eq_refl) as Hinfo.
  pose proof (fun id => only_cancel_order
                (fun c => match c with WaitOrderFilled _ => false | _ => true end)
                id eq_refl) as Hcancel.
  assert (Hclose : forall cid qty price side,
             only (fun c => match c with WaitOrderFilled _ => false | _ => true end)
               (place_close_order float_of_string cc cid qty price side)).
  { intros. apply (only_weaken (fun c => is_read c || is_submission c)).
    - intros [] H; try discriminate H; reflexivity.
    - unfold place_close_order. apply OrderShapeFacts.only_close_loop. }
  unfold _handle_order_result.
  set (pco := place_close_order float_of_string cc) in *. clearbody pco.
  set (goi := get_order_info) in *. clearbody goi.
  set (co := cancel_order) in *. clearbody co.
  only_tac.
Qed.

Lemma keeps_wait_for_fill {B : Type} (f : BotState -> B) : keeps f wait_for_fill.
Proof. unfold wait_for_fill. keep. Qed.

Lemma only_wait_for_fill : only (fun c => negb (is_submission c)) wait_for_fill.
Proof. unfold wait_for_fill. only_tac. Qed.

Lemma keeps_monitor {B : Type} (f : BotState -> B) (d : option string) :
  (forall s b, f (set_current_order_status s b) = f b) ->
  (forall x b, f (set_order_filled_event x b) = f b) ->
  (forall x b, f (set_last_open_order_time x b) = f b) ->
  keeps f (monitor d).
Proof.
  intros H1 H2 H3.
  pose proof (fun data => keeps_handle f data H1) as Hhandle.
  pose proof (keeps_wait_for_fill f) as Hwait.
  assert (Hopen : forall cid qty dir,
             keeps f (place_open_order float_of_string cc cid qty dir))
    by (intros; unfold place_open_order; apply OrderShapeFacts.keeps_open_loop).
  unfold _place_and_monitor_open_order.
  set (poo := place_open_order float_of_string cc) in *. clearbody poo.
  set (hor := _handle_order_result float_of_string config cc) in *. clearbody hor.
  set (wff := wait_for_fill) in *. clearbody wff.
  repeat first
    [ apply keeps_update_bot; intro; first [apply H2|apply H3]
    | keep_step ].
Qed.

Lemma submits_monitor (d : option string) : submits_at_most 30 (monitor d).
Proof.
  pose proof submits_handle as Hhandle.
  pose proof only_wait_for_fill as Hwait.
  assert (Hopen : forall cid qty dir,
             submits_at_most 15 (place_open_order float_of_string cc cid qty dir))
    by (intros; unfold place_open_order; apply OrderShapeFacts.submits_open_loop).
  unfold _place_and_monitor_open_order.
  set (poo := place_open_order float_of_string cc) in *. clearbody poo.
  set (hor := _handle_order_result float_of_string config cc) in *. clearbody hor.
  set (wff := wait_for_fill) in *. clearbody wff.
  apply submits_try_l; [|intro; apply only_ret].
  apply submits_bind_l; [apply only_update_bot|intros _].
  apply (submits_bind 15 15); [apply Hopen|].
  intros [data|msg]; [|apply submits_of_only, only_ret].
  apply submits_bind_l; [apply only_time_time|intro now0].
  apply submits_bind_l; [apply only_update_bot|intros _].
  apply submits_bind_l; [|intros _; apply Hhandle].
  only_tac.
Qed.

Lemma never_raises_monitor (d : option string) : never_raises (monitor d).
Proof.
  unfold _place_and_monitor_open_order. apply never_raises_try_except.
  intro e. apply never_raises_ret.
Qed.

(** X18: whatever the exchange answers, [_place_and_monitor_open_order]
    returns and does not raise, submits at most thirty orders (fifteen
    for the open order and fifteen for its close order), and leaves the
    tracked orders, the order count of the throttle, the stop flag, the
    time of the last status check and the price buffer as they are.  When
    the open order cannot be placed it returns [False] at once: nothing
    is waited for, polled or cancelled, and the time of the last open
    order stays as it was. *)
Theorem place_and_monitor_shape (d : option string) :
  never_raises (monitor d) /\
  submits_at_most 30 (monitor d) /\
  keeps active_close_orders (monitor d) /\
  keeps last_close_orders (monitor d) /\
  keeps shutdown_requested (monitor d) /\
  keeps last_log_time (monitor d) /\
  keeps btc_price_history (monitor d) /\
  (forall w msg w1,
     place_open_order float_of_string cc (contract_id config) (quantity config)
       (match d with
        | Some x => if String.eqb x EmptyString then direction config else x
        | None => direction config
        end)
       {| responses := responses w; calls := calls w; now := now w;
          bot := set_order_filled_event false (bot w) |} =
     (Ret (Error msg), w1) ->
     monitor d w = (Ret false, w1) /\
     bot w1 = set_order_filled_event false (bot w)).
Proof.
  split.
  { unfold _place_and_monitor_open_order. apply never_raises_try_except.
    intro e. apply never_raises_ret. }
  split; [apply submits_monitor|].
  do 5 (split; [apply keeps_monitor; reflexivity|]).
  intros w msg w1 Hopen. split.
  - unfold _place_and_monitor_open_order.
    apply try_except_ret.
    unfold bind at 1. cbn [update_bot].
    rewrite (bind_run _ _ _ _ _ Hopen). reflexivity.
  - pose proof (OrderShapeFacts.keeps_open_loop float_of_string cc (fun b => b)
                  (contract_id config) (quantity config)
                  (match d with
                   | Some x => if String.eqb x EmptyString then direction config else x
                   | None => direction config
                   end) max_retries
                  {| responses := responses w; calls := calls w; now := now w;
                     bot := set_order_filled_event false (bot w) |}) as Hk.
    unfold place_open_order in Hopen. rewrite Hopen in Hk. exact Hk.
Qed.

End Facts.

End MonitorFacts.

Lemma handle_order_result_leaves_order_witness :
  Bot._handle_order_result Decimal.parse Mock.demo_config Mock.demo_contract
    {| Bot.r_order_id := VStr "9"; Bot.r_side := "BUY"; Bot.r_size := 1 # 100;
       Bot.r_price := 100000; Bot.r_status := None; Bot.r_type := None |}
    {| Bot.responses :=
         [Ret (Mock.order_payload [("id"%string, VStr "9");
                                   ("status"%string, VStr "CANCELED")])];
       Bot.calls := []; Bot.now := 0; Bot.bot := Mock.initial_bot |} =
  (Ret false,
   {| Bot.responses := []; Bot.calls := [] ++ [Bot.GetOrderById (VStr "9")];
      Bot.now := 0; Bot.bot := Mock.initial_bot |}).
Proof.
  destruct (MonitorFacts.handle_order_result_leaves_order Decimal.parse
              Mock.demo_config Mock.demo_contract
              {| Bot.r_order_id := VStr "9"; Bot.r_side := "BUY"; Bot.r_size := 1 # 100;
                 Bot.r_price := 100000; Bot.r_status := None; Bot.r_type := None |}
              [] [] 0 Mock.initial_bot) as (_ & _ & H).
  apply H; reflexivity.
Defined.

Lemma handle_order_result_no_fill_witness :
  Bot._handle_order_result Decimal.parse Mock.demo_config Mock.demo_contract
    {| Bot.r_order_id := VStr "9"; Bot.r_side := "BUY"; Bot.r_size := 1 # 100;
       Bot.r_price := 100000; Bot.r_status := None; Bot.r_type := None |}
    {| Bot.responses :=
         [Ret (Mock.order_payload [("id"%string, VStr "9");
                                   ("status"%string, VStr "FILLED")])];
       Bot.calls := []; Bot.now := 0; Bot.bot := Mock.initial_bot |} =
  (Ret true,
   {| Bot.responses := []; Bot.calls := [] ++ [Bot.GetOrderById (VStr "9")];
      Bot.now := 0;
      Bot.bot := Bot.set_current_order_status "FILLED" Mock.initial_bot |}).
Proof.
  destruct (MonitorFacts.handle_order_result_no_fill Decimal.parse
              Mock.demo_config Mock.demo_contract
              {| Bot.r_order_id := VStr "9"; Bot.r_side := "BUY"; Bot.r_size := 1 # 100;
                 Bot.r_price := 100000; Bot.r_status := None; Bot.r_type := None |}
              [] [] 0 Mock.initial_bot) as (H & _).
  apply (H _ 0); [reflexivity|reflexivity|discriminate].
Defined.

Lemma reread_failure_ends_the_attempt_witness :
  fst (Bot._place_and_monitor_open_order Decimal.parse Mock.demo_config
         Mock.demo_contract (Some "buy"%string)
         {| Bot.responses :=
              Mock.round_responses (Mock.demo_round "9" "OPEN") ++
              Raise TimeoutError
              :: Ret (Mock.order_payload [("id"%string, VStr "9");
                                          ("status"%string, VStr "OPEN")])
              :: Ret (Mock.created_payload "9") :: Raise ApiError :: [];
            Bot.calls := []; Bot.now := 0; Bot.bot := Mock.initial_bot |}) = Ret false.
Proof.
  destruct (MonitorFacts.reread_failure_ends_the_attempt Decimal.parse
              Mock.demo_config Mock.demo_contract (Some "buy"%string)
              (Mock.demo_round "9" "OPEN") (Raise TimeoutError)
              [("id"%string, VStr "9"); ("status"%string, VStr "OPEN")] "OPEN"
              (Ret (Mock.created_payload "9")) ApiError [] [] 0 Mock.initial_bot)
    as (_ & H).
  - reflexivity.
  - left. reflexivity.
  - destruct H as (H & _).
    + unfold Mock.usable. cbn.
      refine (conj eq_refl (conj eq_refl (conj _ (conj _ _))));
        [reflexivity|reflexivity|discriminate].
    + reflexivity.
    + reflexivity.
    + exact H.
Defined.

Lemma place_and_monitor_shape_witness :
  exists w1,
    Bot._place_and_monitor_open_order Decimal.parse Mock.demo_config
      Mock.demo_contract None (Mock.world_of [] 0 Mock.initial_bot) = (Ret false, w1).
Proof.
  destruct (MonitorFacts.place_and_monitor_shape Decimal.parse Mock.demo_config
              Mock.demo_contract None) as (_ & _ & _ & _ & _ & _ & _ & H).
  eexists. apply (H (Mock.world_of [] 0 Mock.initial_bot) (Bot.ErrException ApiError)).
  vm_compute. reflexivity.
Defined.

(** ** The status check as a whole *)

Module StatusCheckFacts.
Import Bot Mock MonadFacts ShapeFacts.

Section Facts.

Variable float_of_string : string -> option Q.
Variable config : TradingConfig.

Abbreviation tick := (_log_status_periodically float_of_string config).
Abbreviation body := (status_check_body float_of_string config).

Lemma only_get_active_orders (allowed : Call -> bool) (cid : string) :
  allowed GetActiveOrders = true -> only allowed (get_active_orders cid).
Proof.
  intro H. unfold get_active_orders.
  apply only_try_except; [|intro; apply only_ret].
  apply only_bind; [apply only_call, H|intro; apply only_lift].
Qed.

Lemma only_get_account_positions (allowed : Call -> bool) :
  allowed GetAccountPositions = true -> only allowed get_account_positions.
Proof.
  intro H. unfold get_account_positions.
  apply only_try_except; [apply only_call, H|intro; apply only_ret].
Qed.

Lemma only_get_current_inventory (allowed : Call -> bool) :
  allowed GetAccountPositions = true ->
  only allowed (get_current_inventory float_of_string config).
Proof.
  intro H. unfold get_current_inventory.
  apply only_try_except; [|intro; apply only_ret].
  apply only_bind; [apply only_get_account_positions, H|intro; apply only_lift].
Qed.

Lemma keeps_get_active_orders {B : Type} (f : BotState -> B) (cid : string) :
  keeps f (get_active_orders cid).
Proof. unfold get_active_orders. keep. Qed.

Lemma keeps_get_account_positions {B : Type} (f : BotState -> B) :
  keeps f get_account_positions.
Proof. unfold get_account_positions. keep. Qed.

Lemma keeps_get_current_inventory {B : Type} (f : BotState -> B) :
  keeps f (get_current_inventory float_of_string config).
Proof.
  pose proof (keeps_get_account_positions f) as H.
  unfold get_current_inventory. keep.
Qed.

Lemma never_raises_get_active_orders (cid : string) :
  never_raises (get_active_orders cid).
Proof. unfold get_active_orders. calm. Qed.

Lemma never_raises_get_current_inventory :
  never_raises (get_current_inventory float_of_string config).
Proof. unfold get_current_inventory. calm. Qed.

Lemma only_tick (allowed : Call -> bool) :
  allowed GetActiveOrders = true -> allowed GetAccountPositions = true ->
  only allowed tick.
Proof.
  intros H1 H2.
  pose proof (fun cid => only_get_active_orders allowed cid H1) as Ha.
  pose proof (only_get_account_positions allowed H2) as Hp.
  pose proof (only_get_current_inventory allowed H2) as Hi.
  unfold _log_status_periodically, status_check_body.
  set (gao := get_active_orders) in *. clearbody gao.
  set (gap := get_account_positions) in *. clearbody gap.
  set (gci := get_current_inventory float_of_string config) in *. clearbody gci.
  only_tac.
Qed.

Lemma keeps_tick {B : Type} (f : BotState -> B) :
  (forall l b, f (set_active_close_orders l b) = f b) ->
  (forall x b, f (set_shutdown_requested x b) = f b) ->
  (forall x b, f (set_last_log_time x b) = f b) ->
  keeps f tick.
Proof.
  intros H1 H2 H3.
  pose proof (keeps_get_active_orders f) as Ha.
  pose proof (keeps_get_account_positions f) as Hp.
  pose proof (keeps_get_current_inventory f) as Hi.
  unfold _log_status_periodically, status_check_body.
  set (gao := get_active_orders) in *. clearbody gao.
  set (gap := get_account_positions) in *. clearbody gap.
  set (gci := get_current_inventory float_of_string config) in *. clearbody gci.
  repeat first
    [ apply keeps_update_bot; intro; first [apply H1|apply H2|apply H3]
    | keep_step ].
Qed.

Lemma never_raises_tick : never_raises tick.
Proof. unfold _log_status_periodically. calm. Qed.

(** X19: whatever the exchange answers, [_log_status_periodically]
    returns and does not raise, makes no call other than the queries of
    the active orders and of the positions, and leaves the order count of
    the throttle, the time of the last open order, the order status, the
    fill signal and the price buffer as they are.  While no more than
    sixty seconds have passed since a check that recorded a non-zero
    time, it does nothing at all. *)
Theorem status_check_is_read_only :
  never_raises tick /\
  only (fun c => match c with
                 | GetActiveOrders | GetAccountPositions => true
                 | _ => false
                 end) tick /\
  keeps last_close_orders tick /\
  keeps last_open_order_time tick /\
  keeps current_order_status tick /\
  keeps order_filled_event tick /\
  keeps btc_price_history tick /\
  (forall w,
     now w - last_log_time (bot w) <= 60 ->
     ~ last_log_time (bot w) == 0 ->
     tick w = (Ret tt, w)).
Proof.
  split; [apply never_raises_tick|].
  split; [apply only_tick; reflexivity|].
  do 5 (split; [apply keeps_tick; reflexivity|]).
  intros w Hdue Hzero.
  unfold _log_status_periodically, bind, time_time, get_bot.
  assert (E1 : Qgtb (now w - last_log_time (bot w)) 60 = false)
    by (apply Qgtb_le; exact Hdue).
  assert (E2 : Qeq_bool (last_log_time (bot w)) 0 = false).
  { destruct (Qeq_bool (last_log_time (bot w)) 0) eqn:E; [|reflexivity].
    apply Qeq_bool_iff in E. contradiction. }
  rewrite E1, E2. reflexivity.
Qed.


End Facts.

End StatusCheckFacts.

Lemma status_check_is_read_only_witness :
  Bot._log_status_periodically Decimal.parse Mock.demo_config
    (Mock.world_of [] 100 (Bot.set_last_log_time 50 Mock.initial_bot)) =
  (Ret tt, Mock.world_of [] 100 (Bot.set_last_log_time 50 Mock.initial_bot)).
Proof.
  destruct (StatusCheckFacts.status_check_is_read_only Decimal.parse Mock.demo_config)
    as (_ & _ & _ & _ & _ & _ & _ & H).
  apply H.
  - apply Qle_bool_iff. reflexivity.
  - intro E. discriminate E.
Defined.


(** ** The price feed *)

Module PriceFeedFacts.
Import Bot Mock MonadFacts.

Lemma keep_recent_all_after (t : Q) (h : list PriceSample) :
  all_after (t - 300) (keep_recent t h) = true.
Proof.
  unfold all_after, keep_recent. apply forallb_forall.
  intros r Hr. apply filter_In in Hr. apply Hr.
Qed.

Lemma keep_recent_snoc (p t : Q) (h : list PriceSample) :
  keep_recent t (h ++ [{| price := p; timestamp := t |}]) =
  keep_recent t h ++ [{| price := p; timestamp := t |}].
Proof.
  unfold keep_recent. rewrite filter_app. cbn [filter timestamp].
  assert (E : Qgtb t (t - 300) = true) by (apply Qgtb_gt; lra).
  rewrite E. reflexivity.
Qed.

(** X21: [_record_btc_price] returns without a call to the exchange, and
    afterwards the buffer is the records of the old buffer younger than
    five minutes, in their order, followed by the new record; it is never
    empty and never longer than the old buffer by more than one. *)
Theorem record_btc_price_window (p : Q) (w : World) :
  let w' := snd (_record_btc_price p w) in
  let h := btc_price_history (bot w) in
  let h' := btc_price_history (bot w') in
  fst (_record_btc_price p w) = Ret tt /\
  calls w' = calls w /\ responses w' = responses w /\
  h' = keep_recent (now w) h ++ [{| price := p; timestamp := now w |}] /\
  all_after (now w - 300) h' = true /\
  (List.length h' <= S (List.length h))%nat /\
  (forall s, In s h' -> In s h \/ s = {| price := p; timestamp := now w |}).
Proof.
  cbv zeta.
  assert (E : _record_btc_price p w =
              (Ret tt,
               {| responses := responses w; calls := calls w; now := now w;
                  bot := prune_prices (now w) (append_price p (now w) (bot w)) |}))
    by reflexivity.
  rewrite E. cbn [fst snd bot calls responses].
  cbn [prune_prices append_price set_btc_price_history btc_price_history].
  rewrite keep_recent_snoc.
  split; [reflexivity|]. split; [reflexivity|]. split; [reflexivity|].
  split; [reflexivity|].
  split; [|split].
  - rewrite <- keep_recent_snoc. apply keep_recent_all_after.
  - rewrite length_app. cbn [List.length].
    unfold keep_recent.
    pose proof (filter_length_le
                  (fun record => Qgtb (timestamp record) (now w - 300))
                  (btc_price_history (bot w))).
    lia.
  - intros s Hs. apply in_app_or in Hs. destruct Hs as [Hs|[Hs|[]]].
    + left. unfold keep_recent in Hs. apply filter_In in Hs. apply Hs.
    + right. symmetry. exact Hs.
Qed.

Section Facts.

Variable float_of_string : string -> option Q.
Variable json_loads : string -> outcome pyval.

Abbreviation handler := (btc_price_handler float_of_string json_loads).

(** What the handler does once the message has been parsed into the
    contract and the price of its first ticker. *)
Lemma handler_on_ticker (message : string) (w : World) :
  handler message w =
  match json_loads message with
  | Raise _ => (Ret tt, w)
  | Ret data =>
      match
        obind (get data "content" (VDict [])) (fun content =>
        obind (get content "data" (VList [])) (fun ticker_data_list =>
        if is_list ticker_data_list && truthy ticker_data_list
        then index ticker_data_list 0 else Ret ticker_data_list))
      with
      | Raise _ => (Ret tt, w)
      | Ret ticker_data =>
          if is_dict ticker_data then
            match get ticker_data "contractId" VNone,
                  get ticker_data "lastPrice" VNone with
            | Ret contract, Ret last_price =>
                if eq_str contract "10000001" && truthy last_price then
                  match float float_of_string last_price with
                  | Ret p =>
                      if price_changed (btc_price_history (bot w)) p
                      then (Ret tt, recorded p w) else (Ret tt, w)
                  | Raise _ => (Ret tt, w)
                  end
                else (Ret tt, w)
            | _, _ => (Ret tt, w)
            end
          else (Ret tt, w)
      end
  end.
Proof.
  unfold btc_price_handler, try_except, bind, lift.
  destruct (json_loads message) as [data|e]; [|reflexivity].
  destruct (get data "content" (VDict [])) as [content|e]; [|reflexivity].
  cbn [obind].
  destruct (get content "data" (VList [])) as [tl|e]; [|reflexivity].
  cbn [obind].
  destruct (if is_list tl && truthy tl then index tl 0 else Ret tl) as [td|e];
    [|reflexivity].
  destruct (is_dict td); [|reflexivity].
  destruct (get td "contractId" VNone) as [cid|e]; [|reflexivity].
  destruct (get td "lastPrice" VNone) as [lp|e]; [|reflexivity].
  destruct (eq_str cid "10000001" && truthy lp); [|reflexivity].
  unfold time_time, get_bot, update_bot, ret, recorded. cbv beta.
  destruct (float float_of_string lp) as [p|e].
  - destruct (btc_price_history (bot w)) as [|r rest] eqn:Eh.
    + cbn. reflexivity.
    + cbn [obind]. rewrite <- Eh.
      destruct (price_changed (btc_price_history (bot w)) p); reflexivity.
  - destruct (btc_price_history (bot w)) as [|r rest]; reflexivity.
Qed.

Lemma handler_cases (message : string) (w : World) :
  handler message w = (Ret tt, w) \/
  exists p, price_changed (btc_price_history (bot w)) p = true /\
            handler message w = (Ret tt, recorded p w).
Proof.
  rewrite handler_on_ticker.
  repeat match goal with
         | |- context [match ?x with _ => _ end] => destruct x eqn:?
         end;
    try (left; reflexivity).
  right. eexists. split; [eassumption|reflexivity].
Qed.

(** X22: the ticker handler never raises and never calls the exchange.
    A message that cannot be parsed, that is for another contract than
    10000001 or that carries no price or a price that does not read as a
    number changes nothing; neither does a price equal to the last one
    recorded, so that old records are then not pruned.  Any other price is
    appended with the current time and the buffer pruned to five
    minutes. *)
Theorem price_handler_records (message : string) (w : World) :
  fst (handler message w) = Ret tt /\
  calls (snd (handler message w)) = calls w /\
  (forall e, json_loads message = Raise e -> handler message w = (Ret tt, w)) /\
  (forall contract last_price,
     json_loads message = Ret (ticker_message contract last_price) ->
     (eq_str contract "10000001" = false \/ truthy last_price = false ->
      handler message w = (Ret tt, w)) /\
     (forall e, float float_of_string last_price = Raise e ->
      handler message w = (Ret tt, w)) /\
     (forall p,
        eq_str contract "10000001" = true -> truthy last_price = true ->
        float float_of_string last_price = Ret p ->
        handler message w =
        (Ret tt, if price_changed (btc_price_history (bot w)) p
                 then recorded p w else w))).
Proof.
  split; [|split; [|split]].
  - destruct (handler_cases message w) as [E|(p & _ & E)]; rewrite E; reflexivity.
  - destruct (handler_cases message w) as [E|(p & _ & E)]; rewrite E; reflexivity.
  - intros e He. rewrite handler_on_ticker, He. reflexivity.
  - intros contract last_price Hm.
    rewrite handler_on_ticker, Hm.
    cbn [ticker_message get lookup String.eqb Ascii.eqb Bool.eqb obind
         is_list truthy andb index nth_error is_dict].
    split; [|split].
    + intros [H|H].
      * rewrite H. reflexivity.
      * rewrite H, andb_false_r. reflexivity.
    + intros e He. rewrite He.
      destruct (eq_str contract "10000001" && truthy last_price); reflexivity.
    + intros p H1 H2 Hp. rewrite H1, H2, Hp. cbn [andb].
      destruct (price_changed (btc_price_history (bot w)) p); reflexivity.
Qed.

Lemma filter_all {A : Type} (f : A -> bool) (l : list A) :
  (forall x, In x l -> f x = true) -> filter f l = l.
Proof.
  induction l as [|x l IH]; intro H; [reflexivity|].
  cbn. rewrite (H x (or_introl eq_refl)). f_equal. apply IH.
  intros y Hy. apply H. right. exact Hy.
Qed.

Lemma chronological_head (r : PriceSample) (h : list PriceSample) :
  chronological (r :: h) = true ->
  chronological h = true /\ forall s, In s h -> timestamp r <= timestamp s.
Proof.
  revert r. induction h as [|r' h IH]; intros r H.
  - split; [reflexivity|]. intros s [].
  - cbn [chronological] in H. apply andb_true_iff in H. destruct H as [H1 H2].
    apply Qle_bool_iff in H1. split; [exact H2|].
    intros s [<-|Hs]; [exact H1|].
    destruct (IH r' H2) as [_ Hle]. specialize (Hle s Hs). lra.
Qed.

(** Pruning a buffer that is in the order of time drops a prefix. *)
Lemma keep_recent_suffix (t : Q) (h : list PriceSample) :
  chronological h = true -> exists pre, h = pre ++ keep_recent t h.
Proof.
  induction h as [|r h IH]; intro Hc.
  - exists []. reflexivity.
  - destruct (chronological_head r h Hc) as [Hc' Hle].
    unfold keep_recent. cbn [filter].
    destruct (Qgtb (timestamp r) (t - 300)) eqn:E.
    + exists []. cbn [app]. f_equal. symmetry. apply filter_all.
      intros s Hs. apply Qgtb_gt. apply Qgtb_gt in E. specialize (Hle s Hs). lra.
    + destruct (IH Hc') as (pre & Hpre). exists (r :: pre).
      cbn [app]. f_equal. exact Hpre.
Qed.

Lemma chronological_app_r (pre l : list PriceSample) :
  chronological (pre ++ l) = true -> chronological l = true.
Proof.
  induction pre as [|r pre IH]; intro H; [exact H|].
  apply IH. apply (chronological_head r (pre ++ l) H).
Qed.

Lemma prices_alternate_app_r (pre l : list PriceSample) :
  prices_alternate (pre ++ l) = true -> prices_alternate l = true.
Proof.
  induction pre as [|r pre IH]; intro H; [exact H|].
  apply IH. cbn [app prices_alternate] in H.
  destruct (pre ++ l) as [|r' rest]; [reflexivity|].
  apply andb_true_iff in H. apply H.
Qed.

Lemma chronological_snoc (p t : Q) (h : list PriceSample) :
  chronological h = true -> not_after t h = true ->
  chronological (h ++ [{| price := p; timestamp := t |}]) = true.
Proof.
  induction h as [|r h IH]; intros Hc Hn; [reflexivity|].
  unfold not_after in Hn. cbn [forallb] in Hn.
  apply andb_true_iff in Hn. destruct Hn as [Hr Hn].
  destruct h as [|r' h].
  - cbn [app chronological timestamp]. rewrite Hr. reflexivity.
  - change (Qle_bool (timestamp r) (timestamp r') && chronological (r' :: h) = true)
      in Hc.
    apply andb_true_iff in Hc. destruct Hc as [H1 H2].
    change (Qle_bool (timestamp r) (timestamp r') &&
            chronological ((r' :: h) ++ [{| price := p; timestamp := t |}]) = true).
    rewrite H1. cbn [andb]. apply IH; assumption.
Qed.

Lemma last_cons {A : Type} (a d : A) (l : list A) : last (a :: l) d = last l a.
Proof.
  revert a d. induction l as [|x l IH]; intros a d; [reflexivity|].
  change (last (a :: x :: l) d) with (last (x :: l) d).
  change (last (x :: l) a) with (last (x :: l) a).
  rewrite (IH x d), (IH x a). reflexivity.
Qed.

Lemma prices_alternate_snoc (p t : Q) (h : list PriceSample) :
  prices_alternate h = true -> price_changed h p = true ->
  prices_alternate (h ++ [{| price := p; timestamp := t |}]) = true.
Proof.
  destruct h as [|r h]; [reflexivity|].
  revert r. induction h as [|r' h IH]; intros r Ha Hp.
  - cbn [app prices_alternate price]. cbn [price_changed last] in Hp.
    rewrite Hp. reflexivity.
  - change (negb (Qeq_bool (price r) (price r')) && prices_alternate (r' :: h) = true)
      in Ha.
    apply andb_true_iff in Ha. destruct Ha as [H1 H2].
    change (negb (Qeq_bool (price r) (price r')) &&
            prices_alternate ((r' :: h) ++ [{| price := p; timestamp := t |}]) = true).
    rewrite H1. cbn [andb]. apply IH; [exact H2|].
    unfold price_changed in *. rewrite last_cons in Hp. exact Hp.
Qed.

Lemma not_after_later (t t' : Q) (h : list PriceSample) :
  t <= t' -> not_after t h = true -> not_after t' h = true.
Proof.
  intros Ht H. unfold not_after in *. rewrite forallb_forall in *.
  intros r Hr. specialize (H r Hr). apply Qle_bool_iff in H. apply Qle_bool_iff. lra.
Qed.

(** One message keeps the buffer well formed. *)
Lemma handler_buffer_ok (message : string) (w : World) :
  buffer_ok w -> buffer_ok (snd (handler message w)) /\
                 now (snd (handler message w)) = now w.
Proof.
  intros (Hc & Hn & Ha).
  destruct (handler_cases message w) as [E|(p & Hp & E)]; rewrite E; cbn [snd].
  - split; [split; [|split]; assumption|reflexivity].
  - split; [|reflexivity].
    unfold buffer_ok, recorded.
    cbn [bot now prune_prices append_price set_btc_price_history btc_price_history].
    set (h1 := btc_price_history (bot w) ++ [{| price := p; timestamp := now w |}]).
    assert (Hc1 : chronological h1 = true) by (apply chronological_snoc; assumption).
    assert (Ha1 : prices_alternate h1 = true)
      by (apply prices_alternate_snoc; assumption).
    assert (Hn1 : not_after (now w) h1 = true).
    { unfold not_after, h1. rewrite forallb_app. fold (not_after (now w)
        (btc_price_history (bot w))). rewrite Hn. cbn.
      assert (X : Qle_bool (now w) (now w) = true) by (apply Qle_bool_iff; lra).
      rewrite X. reflexivity. }
    destruct (keep_recent_suffix (now w) h1 Hc1) as (pre & Hpre).
    split; [|split].
    + apply (chronological_app_r pre). rewrite <- Hpre. exact Hc1.
    + unfold not_after in *. rewrite forallb_forall in *.
      intros r Hr. apply Hn1. unfold keep_recent in Hr.
      apply filter_In in Hr. apply Hr.
    + apply (prices_alternate_app_r pre). rewrite <- Hpre. exact Ha1.
Qed.

(** X23: as long as the clock does not go back, the ticker handler keeps
    the price buffer in the order of time, free of records from the
    future and free of equal neighbouring prices, over any sequence of
    messages; this holds in particular from the empty buffer the bot
    starts with. *)
Theorem price_buffer_stays_well_formed (events : list (Q * string)) (w : World) :
  (clock_advances (now w) events = true ->
   buffer_ok w ->
   buffer_ok (feed float_of_string json_loads events w)) /\
  (btc_price_history (bot w) = [] ->
   clock_advances (now w) events = true ->
   buffer_ok (feed float_of_string json_loads events w)).
Proof.
  assert (Hmain : forall evs w0,
            clock_advances (now w0) evs = true -> buffer_ok w0 ->
            buffer_ok (feed float_of_string json_loads evs w0)).
  { induction evs as [|[t message] evs IH]; intros w0 Hclock Hok; [exact Hok|].
    cbn [feed clock_advances] in *.
    apply andb_true_iff in Hclock. destruct Hclock as [Ht Hclock].
    apply Qle_bool_iff in Ht.
    assert (Hok' : buffer_ok (at_time t w0)).
    { destruct Hok as (Hc & Hn & Ha). unfold buffer_ok, at_time. cbn [bot now].
      split; [exact Hc|]. split; [|exact Ha].
      apply (not_after_later (now w0)); assumption. }
    destruct (handler_buffer_ok message (at_time t w0) Hok') as [Hok'' Hnow].
    apply IH; [|exact Hok''].
    rewrite Hnow. exact Hclock. }
  split.
  - apply Hmain.
  - intros Hempty Hclock. apply Hmain; [exact Hclock|].
    unfold buffer_ok. rewrite Hempty. repeat split.
Qed.

(** X24: pruning the buffer to five minutes at a time [t0] does not
    change the one-minute window that the volatility gate reads at [t0]
    or later, nor the verdict of the gate. *)
Theorem pruning_keeps_the_window (m t0 : Q) (w : World) :
  t0 <= now w ->
  let pruned := with_history (keep_recent t0 (btc_price_history (bot w))) w in
  recent_prices (now w) (btc_price_history (bot pruned)) =
  recent_prices (now w) (btc_price_history (bot w)) /\
  fst (check_btc_volatility_safe float_of_string m pruned) =
  fst (check_btc_volatility_safe float_of_string m w) /\
  calls (snd (check_btc_volatility_safe float_of_string m pruned)) =
  calls (snd (check_btc_volatility_safe float_of_string m w)).
Proof.
  intros Ht pruned.
  assert (Hwin : recent_prices (now w) (btc_price_history (bot pruned)) =
                 recent_prices (now w) (btc_price_history (bot w))).
  { unfold pruned, with_history, recent_prices, keep_recent.
    cbn [bot set_btc_price_history btc_price_history].
    induction (btc_price_history (bot w)) as [|r h IH]; [reflexivity|].
    cbn [filter].
    destruct (Qgtb (timestamp r) (t0 - 300)) eqn:E1;
      destruct (Qgtb (timestamp r) (now w - 60)) eqn:E2; cbn [filter]; rewrite ?E2.
    - f_equal. exact IH.
    - exact IH.
    - apply Qgtb_gt in E2. apply Qgtb_le in E1. exfalso. lra.
    - exact IH. }
  split; [exact Hwin|].
  pose proof (VolatilityFacts.check_unfold float_of_string m w) as E1.
  pose proof (VolatilityFacts.check_unfold float_of_string m pruned) as E2.
  cbv zeta in E1, E2. unfold window in E1, E2.
  change (now pruned) with (now w) in E2. rewrite Hwin in E2.
  rewrite E1, E2.
  destruct (List.length (map price (recent_prices (now w) (btc_price_history (bot w))))
            <? 2)%nat.
  - destruct w as [[|r rs] tr t b]; unfold pruned, with_history; cbn [responses calls now bot].
    + split; reflexivity.
    + rewrite !VolatilityFacts.fallback_run. split; reflexivity.
  - destruct (Qeq_bool
                (latest (map price (recent_prices (now w) (btc_price_history (bot w)))))
                0).
    + destruct w as [[|r rs] tr t b]; unfold pruned, with_history;
        cbn [responses calls now bot].
      * split; reflexivity.
      * rewrite !VolatilityFacts.fallback_run. split; reflexivity.
    + split; reflexivity.
Qed.

End Facts.

End PriceFeedFacts.

Lemma price_handler_records_witness :
  Bot.btc_price_handler Decimal.parse
    (fun _ => Ret (Mock.ticker_message (VStr "10000001") (VStr "100000.5")))
    "tick" (Mock.world_of [] 10 Mock.initial_bot) =
  (Ret tt, Mock.recorded (1000005 # 10) (Mock.world_of [] 10 Mock.initial_bot)).
Proof.
  destruct (PriceFeedFacts.price_handler_records Decimal.parse
              (fun _ => Ret (Mock.ticker_message (VStr "10000001") (VStr "100000.5")))
              "tick" (Mock.world_of [] 10 Mock.initial_bot)) as (_ & _ & _ & H).
  destruct (H (VStr "10000001") (VStr "100000.5") eq_refl) as (_ & _ & H').
  apply (H' (1000005 # 10)); reflexivity.
Defined.

Lemma price_buffer_stays_well_formed_witness :
  Mock.buffer_ok
    (Mock.feed Decimal.parse
       (fun s => Ret (Mock.ticker_message (VStr "10000001") (VStr s)))
       [(1, "100000.5"%string); (2, "100000.5"%string); (400, "100001.0"%string)]
       (Mock.world_of [] 0 Mock.initial_bot)).
Proof.
  destruct (PriceFeedFacts.price_buffer_stays_well_formed Decimal.parse
              (fun s => Ret (Mock.ticker_message (VStr "10000001") (VStr s)))
              [(1, "100000.5"%string); (2, "100000.5"%string); (400, "100001.0"%string)]
              (Mock.world_of [] 0 Mock.initial_bot)) as [_ H].
  apply H; reflexivity.
Defined.

Lemma pruning_keeps_the_window_witness :
  fst (Bot.check_btc_volatility_safe Decimal.parse 105
         (Mock.with_history
            (Bot.keep_recent 400
               [{| Bot.price := 100000; Bot.timestamp := 50 |};
                {| Bot.price := 100010; Bot.timestamp := 390 |};
                {| Bot.price := 100020; Bot.timestamp := 395 |}])
            (Mock.world_of [] 400
               (Bot.set_btc_price_history
                  [{| Bot.price := 100000; Bot.timestamp := 50 |};
                   {| Bot.price := 100010; Bot.timestamp := 390 |};
                   {| Bot.price := 100020; Bot.timestamp := 395 |}]
                  Mock.initial_bot)))) =
  fst (Bot.check_btc_volatility_safe Decimal.parse 105
         (Mock.world_of [] 400
            (Bot.set_btc_price_history
               [{| Bot.price := 100000; Bot.timestamp := 50 |};
                {| Bot.price := 100010; Bot.timestamp := 390 |};
                {| Bot.price := 100020; Bot.timestamp := 395 |}]
               Mock.initial_bot))).
Proof.
  destruct (PriceFeedFacts.pruning_keeps_the_window Decimal.parse 105 400
              (Mock.world_of [] 400
                 (Bot.set_btc_price_history
                    [{| Bot.price := 100000; Bot.timestamp := 50 |};
                     {| Bot.price := 100010; Bot.timestamp := 390 |};
                     {| Bot.price := 100020; Bot.timestamp := 395 |}]
                    Mock.initial_bot))) as (_ & H & _).
  - apply Qle_bool_iff. reflexivity.
  - exact H.
Defined.

(** ** The active orders, and one pass of the main loop *)

Module CycleFacts.
Import Bot Mock MonadFacts ShapeFacts.

Lemma contract_orders_of_filter (cid : string) (orders : list pyval) :
  contract_orders_of cid orders =
  Ret (filter (fun order =>
                 match order with
                 | VDict d =>
                     eq_str (match lookup "contractId" d with
                             | Some c => c
                             | None => VNone
                             end) cid
                 | _ => false
                 end) orders).
Proof.
  induction orders as [|o orders IH]; [reflexivity|].
  cbn [contract_orders_of filter]. rewrite IH.
  destruct o; reflexivity.
Qed.

(** X25: [get_active_orders] makes one query and never raises.  From an
    answer that carries a list of orders it returns exactly the
    dictionaries of the list whose contract is the one asked for, in
    the order of the list; from a failed query it returns no orders. *)
Theorem get_active_orders_filters (cid : string) (rest : list (outcome pyval))
  (tr : list Call) (t : Q) (b : BotState) :
  let w_end := {| responses := rest; calls := tr ++ [GetActiveOrders];
                  now := t; bot := b |} in
  (forall orders,
     get_active_orders cid
       {| responses := Ret (active_orders_payload orders) :: rest; calls := tr;
          now := t; bot := b |} =
     (Ret (filter (fun order =>
                     match order with
                     | VDict d =>
                         eq_str (match lookup "contractId" d with
                                 | Some c => c
                                 | None => VNone
                                 end) cid
                     | _ => false
                     end) orders), w_end)) /\
  (forall e,
     get_active_orders cid
       {| responses := Raise e :: rest; calls := tr; now := t; bot := b |} =
     (Ret [], w_end)) /\
  (forall r, exists l,
     get_active_orders cid
       {| responses := r :: rest; calls := tr; now := t; bot := b |} =
     (Ret l, w_end) /\
     Forall (fun order =>
               exists d c, order = VDict d /\ lookup "contractId" d = Some c /\
                           eq_str c cid = true) l).
Proof.
  intro w_end. split; [|split].
  - intro orders.
    rewrite ReconciliationFacts.get_active_orders_run.
    unfold orders_read, active_orders_of_payload, active_orders_payload.
    cbn [truthy contains lookup String.eqb Ascii.eqb Bool.eqb obind negb orb item get
         iter].
    rewrite contract_orders_of_filter. reflexivity.
  - intro e. rewrite ReconciliationFacts.get_active_orders_run. reflexivity.
  - intro r. rewrite ReconciliationFacts.get_active_orders_run.
    eexists. split; [reflexivity|].
    assert (Hf : forall l,
              Forall (fun order =>
                        exists d c, order = VDict d /\
                                    lookup "contractId" d = Some c /\
                                    eq_str c cid = true)
                (filter (fun order =>
                           match order with
                           | VDict d =>
                               eq_str (match lookup "contractId" d with
                                       | Some c => c
                                       | None => VNone
                                       end) cid
                           | _ => false
                           end) l)).
    { intro l. apply Forall_forall. intros o Ho. apply filter_In in Ho.
      destruct Ho as [_ Ho]. destruct o; try discriminate Ho.
      destruct (lookup "contractId" d) as [c|] eqn:El; [|discriminate Ho].
      exists d, c. auto. }
    unfold orders_read. destruct r as [v|e]; [|constructor].
    unfold active_orders_of_payload.
    destruct (if truthy v then contains "data" v else Ret false) as [has|e];
      [|constructor].
    cbn [obind].
    destruct (negb (truthy v) || negb has); [constructor|].
    destruct (item v "data") as [data|e]; [|constructor]. cbn [obind].
    destruct (get data "dataList" (VList [])) as [ol|e]; [|constructor]. cbn [obind].
    destruct (iter ol) as [os|e]; [|constructor]. cbn [obind].
    rewrite contract_orders_of_filter. apply Hf.
Qed.

Section Facts.

Variable float_of_string : string -> option Q.
Variable config : TradingConfig.
Variable cc : ContractConfig.

Abbreviation begin := (run_cycle_begin float_of_string config cc).
Abbreviation trade := (run_cycle_trade float_of_string config cc).
Abbreviation emergency := (emergency_inventory_management float_of_string config cc).
Abbreviation throttle := (_calculate_wait_time config).

Lemma only_emergency :
  only (fun c => is_read c || is_submission c) emergency.
Proof.
  pose proof (StatusCheckFacts.only_get_current_inventory float_of_string config
                (fun c => is_read c || is_submission c) eq_refl) as Hi.
  assert (Hh : forall dir qty a,
             only (fun c => is_read c || is_submission c)
               (place_hedge_order float_of_string config cc dir qty a)).
  { intros. apply (only_weaken (fun c => is_book_read c || is_submission c)).
    - intros [] H; try discriminate H; reflexivity.
    - apply HedgeOrderFacts.only_place_hedge_order. }
  unfold emergency_inventory_management.
  set (gci := get_current_inventory float_of_string config) in *. clearbody gci.
  set (pho := place_hedge_order float_of_string config cc) in *. clearbody pho.
  only_tac.
Qed.

Lemma submits_emergency : submits_at_most 1 emergency.
Proof.
  pose proof (StatusCheckFacts.only_get_current_inventory float_of_string config
                (fun c => negb (is_submission c)) eq_refl) as Hi.
  pose proof (HedgeOrderFacts.submits_place_hedge_order float_of_string config cc)
    as Hh.
  unfold emergency_inventory_management.
  set (gci := get_current_inventory float_of_string config) in *. clearbody gci.
  set (pho := place_hedge_order float_of_string config cc) in *. clearbody pho.
  apply submits_try_l; [|intro; only_tac].
  submit_tac.
Qed.

Lemma keeps_emergency {B : Type} (f : BotState -> B) : keeps f emergency.
Proof.
  pose proof (StatusCheckFacts.keeps_get_current_inventory float_of_string config f)
    as Hi.
  pose proof (HedgeOrderFacts.keeps_place_hedge_order float_of_string config cc f)
    as Hh.
  unfold emergency_inventory_management.
  set (gci := get_current_inventory float_of_string config) in *. clearbody gci.
  set (pho := place_hedge_order float_of_string config cc) in *. clearbody pho.
  keep.
Qed.

Lemma never_raises_emergency : never_raises emergency.
Proof. unfold emergency_inventory_management. calm. Qed.

(** X26: whatever the exchange answers, [emergency_inventory_management]
    returns and does not raise, submits at most one order, makes no call
    other than the position query, the book read and that submission, and
    leaves every field of the bot as it is. *)
Theorem emergency_management_shape :
  never_raises emergency /\
  submits_at_most 1 emergency /\
  only (fun c => match c with
                 | GetAccountPositions | GetOrderBookDepth _ _
                 | CreateLimitOrder _ _ _ _ _ => true
                 | _ => false
                 end) emergency /\
  keeps (fun b => b) emergency.
Proof.
  split; [apply never_raises_emergency|].
  split; [apply submits_emergency|].
  split; [|apply keeps_emergency].
  pose proof (StatusCheckFacts.only_get_current_inventory float_of_string config
                (fun c => match c with
                          | GetAccountPositions | GetOrderBookDepth _ _
                          | CreateLimitOrder _ _ _ _ _ => true
                          | _ => false
                          end) eq_refl) as Hi.
  assert (Hh : forall dir qty a,
             only (fun c => match c with
                            | GetAccountPositions | GetOrderBookDepth _ _
                            | CreateLimitOrder _ _ _ _ _ => true
                            | _ => false
                            end)
               (place_hedge_order float_of_string config cc dir qty a)).
  { intros. apply (only_weaken (fun c => is_book_read c || is_submission c)).
    - intros [] H; try discriminate H; reflexivity.
    - apply HedgeOrderFacts.only_place_hedge_order. }
  unfold emergency_inventory_management.
  set (gci := get_current_inventory float_of_string config) in *. clearbody gci.
  set (pho := place_hedge_order float_of_string config cc) in *. clearbody pho.
  only_tac.
Qed.

Lemma only_throttle (allowed : Call -> bool) : only allowed throttle.
Proof. unfold _calculate_wait_time. only_tac. Qed.

Lemma never_raises_throttle : never_raises throttle.
Proof. unfold _calculate_wait_time. calm. Qed.

Lemma keeps_throttle {B : Type} (f : BotState -> B) :
  (forall n b, f (set_last_close_orders n b) = f b) -> keeps f throttle.
Proof.
  intro H. unfold _calculate_wait_time.
  repeat first [ apply keeps_update_bot; intro; apply H | keep_step ].
Qed.

Lemma throttle_zero_or_one (w : World) :
  fst (throttle w) = Ret 0 \/ fst (throttle w) = Ret 1.
Proof.
  unfold _calculate_wait_time, bind, get_bot, update_bot, time_time, ret.
  destruct (_ <? _)%Z; [left; reflexivity|].
  destruct (_ >=? _)%Z; [right; reflexivity|].
  destruct (Qgtb _ _); [left|right]; reflexivity.
Qed.

Lemma yields_throttle :
  yields (fun x => x = 0 \/ x = 1) throttle.
Proof.
  intros w a w' E. pose proof (throttle_zero_or_one w) as H.
  rewrite E in H. cbn [fst] in H.
  destruct H as [H|H]; injection H as ->; auto.
Qed.

(** X27: whatever the exchange answers, the first part of a pass of the
    main loop returns and does not raise, submits at most one order (the
    emergency hedge), cancels nothing, and leaves the time of the last
    open order, the order status, the fill signal and the price buffer as
    they are.  It decides to sleep only for the one second of the
    throttle; it pauses exactly when the strategy of the inventory it has
    just read is [pause], and otherwise goes on with that inventory and
    its strategy. *)
Theorem run_cycle_begin_shape :
  never_raises begin /\
  submits_at_most 1 begin /\
  only (fun c => is_read c || is_submission c) begin /\
  keeps last_open_order_time begin /\
  keeps current_order_status begin /\
  keeps order_filled_event begin /\
  keeps btc_price_history begin /\
  yields (fun decision =>
            match decision with
            | Sleep wait => wait = 1
            | Paused p =>
                Inventory.get_trading_strategy (quantity config) p = Inventory.pause
            | Proceed p s =>
                s = Inventory.get_trading_strategy (quantity config) p /\
                s <> Inventory.pause
            end) begin.
Proof.
  pose proof never_raises_emergency as Nem.
  pose proof (StatusCheckFacts.never_raises_tick float_of_string config) as Ntick.
  pose proof never_raises_throttle as Nth.
  pose proof (StatusCheckFacts.never_raises_get_active_orders) as Ngao.
  pose proof (StatusCheckFacts.never_raises_get_current_inventory float_of_string config)
    as Ngci.
  split.
  { unfold run_cycle_begin.
    set (em := emergency_inventory_management float_of_string config cc) in *.
    set (tk := _log_status_periodically float_of_string config) in *.
    set (th := _calculate_wait_time config) in *.
    set (gao := get_active_orders) in *.
    set (gci := get_current_inventory float_of_string config) in *.
    clearbody em tk th gao gci. calm. }
  split.
  { pose proof submits_emergency as Hem.
    pose proof (StatusCheckFacts.only_tick float_of_string config
                  (fun c => negb (is_submission c)) eq_refl eq_refl) as Htick.
    pose proof (only_throttle (fun c => negb (is_submission c))) as Hth.
    pose proof (fun cid => StatusCheckFacts.only_get_active_orders
                             (fun c => negb (is_submission c)) cid eq_refl) as Hgao.
    pose proof (StatusCheckFacts.only_get_current_inventory float_of_string config
                  (fun c => negb (is_submission c)) eq_refl) as Hgci.
    unfold run_cycle_begin.
    set (em := emergency_inventory_management float_of_string config cc) in *.
    set (tk := _log_status_periodically float_of_string config) in *.
    set (th := _calculate_wait_time config) in *.
    set (gao := get_active_orders) in *.
    set (gci := get_current_inventory float_of_string config) in *.
    clearbody em tk th gao gci. submit_tac. }
  split.
  { pose proof only_emergency as Hem.
    pose proof (StatusCheckFacts.only_tick float_of_string config
                  (fun c => is_read c || is_submission c) eq_refl eq_refl) as Htick.
    pose proof (only_throttle (fun c => is_read c || is_submission c)) as Hth.
    pose proof (fun cid => StatusCheckFacts.only_get_active_orders
                             (fun c => is_read c || is_submission c) cid eq_refl)
      as Hgao.
    pose proof (StatusCheckFacts.only_get_current_inventory float_of_string config
                  (fun c => is_read c || is_submission c) eq_refl) as Hgci.
    unfold run_cycle_begin.
    set (em := emergency_inventory_management float_of_string config cc) in *.
    set (tk := _log_status_periodically float_of_string config) in *.
    set (th := _calculate_wait_time config) in *.
    set (gao := get_active_orders) in *.
    set (gci := get_current_inventory float_of_string config) in *.
    clearbody em tk th gao gci. only_tac. }
  assert (Hkeep : forall (B : Type) (f : BotState -> B),
            (forall l b, f (set_active_close_orders l b) = f b) ->
            (forall x b, f (set_shutdown_requested x b) = f b) ->
            (forall x b, f (set_last_log_time x b) = f b) ->
            (forall n b, f (set_last_close_orders n b) = f b) ->
            keeps f begin).
  { intros B f H1 H2 H3 H4.
    pose proof (keeps_emergency f) as Hem.
    pose proof (StatusCheckFacts.keeps_tick float_of_string config f H1 H2 H3) as Htick.
    pose proof (keeps_throttle f H4) as Hth.
    pose proof (StatusCheckFacts.keeps_get_active_orders f) as Hgao.
    pose proof (StatusCheckFacts.keeps_get_current_inventory float_of_string config f)
      as Hgci.
    unfold run_cycle_begin.
    set (em := emergency_inventory_management float_of_string config cc) in *.
    set (tk := _log_status_periodically float_of_string config) in *.
    set (th := _calculate_wait_time config) in *.
    set (gao := get_active_orders) in *.
    set (gci := get_current_inventory float_of_string config) in *.
    clearbody em tk th gao gci.
    repeat first [ apply keeps_update_bot; intro; apply H1 | keep_step ]. }
  do 4 (split; [apply Hkeep; reflexivity|]).
  unfold run_cycle_begin.
  do 5 (apply OrderShapeFacts.yields_bind_any; intro).
  apply (OrderShapeFacts.yields_bind (fun x => x = 0 \/ x = 1)); [apply yields_throttle|].
  intros x [->| ->].
  - change (Qgtb 0 0) with false. cbv iota.
    apply OrderShapeFacts.yields_bind_any. intro p.
    destruct (Inventory.get_trading_strategy (quantity config) p) eqn:Es;
      apply OrderShapeFacts.yields_ret; cbv beta iota;
      first [ exact Es | split; [symmetry; exact Es|discriminate] ].
  - change (Qgtb 1 0) with true. cbv iota.
    apply OrderShapeFacts.yields_ret. reflexivity.
Qed.

(** X28: the second part of a pass never raises and submits at most
    thirty orders.  When a direction is chosen the attempt is counted
    whether or not an order was placed: the order count of the throttle
    goes up by exactly one and the tracked orders stay as they are, so
    that the throttle answers "go" at once for as long as the number of
    tracked orders has not risen above the old count.  When no direction
    is chosen, as under [pause], nothing is done. *)
Theorem run_cycle_trade_counts (random_draw p : Q) (s : Inventory.strategy)
  (w : World) :
  let w' := snd (trade random_draw p s w) in
  never_raises (trade random_draw p s) /\
  submits_at_most 30 (trade random_draw p s) /\
  (_get_trade_direction_with_inventory_control config random_draw p s = None ->
   trade random_draw p s w = (Ret tt, w)) /\
  (forall dir,
     _get_trade_direction_with_inventory_control config random_draw p s = Some dir ->
     dir <> EmptyString ->
     last_close_orders (bot w') = (last_close_orders (bot w) + 1)%Z /\
     active_close_orders (bot w') = active_close_orders (bot w) /\
     (forall w2,
        last_close_orders (bot w2) = last_close_orders (bot w') ->
        (Z.of_nat (List.length (active_close_orders (bot w2)))
         <= last_close_orders (bot w))%Z ->
        fst (throttle w2) = Ret 0)).
Proof.
  intro w'.
  pose proof (MonitorFacts.never_raises_monitor float_of_string config cc) as Nm.
  pose proof (MonitorFacts.submits_monitor float_of_string config cc) as Sm.
  split.
  { unfold run_cycle_trade.
    set (mon := _place_and_monitor_open_order float_of_string config cc) in *.
    clearbody mon. calm. }
  split.
  { unfold run_cycle_trade.
    set (mon := _place_and_monitor_open_order float_of_string config cc) in *.
    clearbody mon.
    destruct (_get_trade_direction_with_inventory_control config random_draw p s)
      as [d|]; [|apply submits_of_only, only_ret].
    destruct (String.eqb d EmptyString); [apply submits_of_only, only_ret|].
    apply submits_bind_r; [apply Sm|intro; apply only_update_bot]. }
  split.
  { intro Hnone. unfold run_cycle_trade. rewrite Hnone. reflexivity. }
  intros dir Hdir Hne.
  assert (Enz : String.eqb dir EmptyString = false).
  { destruct (String.eqb dir EmptyString) eqn:E; [|reflexivity].
    apply String.eqb_eq in E. contradiction. }
  assert (Hrun : exists r w1,
            _place_and_monitor_open_order float_of_string config cc (Some dir) w
            = (Ret r, w1) /\
            last_close_orders (bot w1) = last_close_orders (bot w) /\
            active_close_orders (bot w1) = active_close_orders (bot w)).
  { destruct (Nm (Some dir) w) as (r & w1 & E). exists r, w1.
    split; [exact E|].
    pose proof (MonitorFacts.keeps_monitor float_of_string config cc last_close_orders
                  (Some dir) (fun _ _ => eq_refl) (fun _ _ => eq_refl)
                  (fun _ _ => eq_refl) w) as K1.
    pose proof (MonitorFacts.keeps_monitor float_of_string config cc active_close_orders
                  (Some dir) (fun _ _ => eq_refl) (fun _ _ => eq_refl)
                  (fun _ _ => eq_refl) w) as K2.
    rewrite E in K1, K2. auto. }
  destruct Hrun as (r & w1 & E & K1 & K2).
  assert (Ew' : w' = {| responses := responses w1; calls := calls w1; now := now w1;
                        bot := set_last_close_orders (last_close_orders (bot w1) + 1)
                                 (bot w1) |}).
  { unfold w', run_cycle_trade. rewrite Hdir, Enz.
    rewrite (bind_run _ _ _ _ _ E). reflexivity. }
  rewrite Ew'. cbn [bot last_close_orders active_close_orders set_last_close_orders].
  split; [rewrite K1; reflexivity|]. split; [exact K2|].
  intros w2 Hcount Hlen.
  unfold _calculate_wait_time, bind, get_bot.
  assert (Hlt : (Z.of_nat (List.length (active_close_orders (bot w2)))
                 <? last_close_orders (bot w2))%Z = true).
  { apply Z.ltb_lt. rewrite Hcount, K1. lia. }
  rewrite Hlt. reflexivity.
Qed.

End Facts.

End CycleFacts.

Lemma get_active_orders_filters_witness :
  Bot.get_active_orders "10000001"
    {| Bot.responses :=
         [Ret (Mock.active_orders_payload
                 [VDict [("contractId"%string, VStr "10000001");
                         ("id"%string, VStr "a")];
                  VStr "noise";
                  VDict [("contractId"%string, VStr "10000002");
                         ("id"%string, VStr "b")]])];
       Bot.calls := []; Bot.now := 0; Bot.bot := Mock.initial_bot |} =
  (Ret [VDict [("contractId"%string, VStr "10000001"); ("id"%string, VStr "a")]],
   {| Bot.responses := []; Bot.calls := [Bot.GetActiveOrders];
      Bot.now := 0; Bot.bot := Mock.initial_bot |}).
Proof.
  destruct (CycleFacts.get_active_orders_filters "10000001" [] [] 0 Mock.initial_bot)
    as (H & _).
  rewrite H. reflexivity.
Defined.

Lemma run_cycle_trade_counts_witness :
  Bot.last_close_orders
    (Bot.bot (snd (Bot.run_cycle_trade Decimal.parse Mock.demo_config Mock.demo_contract
                     (1 # 4) 0 Inventory.normal
                     (Mock.world_of [] 0 Mock.initial_bot)))) = 1%Z.
Proof.
  destruct (CycleFacts.run_cycle_trade_counts Decimal.parse Mock.demo_config
              Mock.demo_contract (1 # 4) 0 Inventory.normal
              (Mock.world_of [] 0 Mock.initial_bot)) as (_ & _ & _ & H).
  destruct (H "buy"%string) as (H1 & _).
  - reflexivity.
  - discriminate.
  - exact H1.
Defined.

(** ** The order query and the cancel *)

Module QueryFacts.
Import Bot Mock MonadFacts ShapeFacts.

(** X29: [get_order_info] makes exactly one query, never raises and
    leaves the bot as it is.  It returns the first element of the list
    under ['data'], and the empty result when the query fails, when the
    answer is empty or has no ['data'], and when that list is empty. *)
Theorem get_order_info_outcomes (id : pyval) (rest : list (outcome pyval))
  (tr : list Call) (t : Q) (b : BotState) :
  let world r := {| responses := r; calls := tr; now := t; bot := b |} in
  let w_end := {| responses := rest; calls := tr ++ [GetOrderById id];
                  now := t; bot := b |} in
  (forall r, exists info, get_order_info id (world (r :: rest)) = (Ret info, w_end)) /\
  (forall e, get_order_info id (world (Raise e :: rest)) = (Ret None, w_end)) /\
  (forall d first others,
     lookup "data" d = Some (VList (first :: others)) ->
     get_order_info id (world (Ret (VDict d) :: rest)) = (Ret (Some first), w_end)) /\
  (forall d,
     lookup "data" d = None \/ lookup "data" d = Some (VList []) ->
     get_order_info id (world (Ret (VDict d) :: rest)) = (Ret None, w_end)) /\
  get_order_info id (world []) =
    (Ret None, {| responses := []; calls := tr ++ [GetOrderById id];
                  now := t; bot := b |}).
Proof.
  intros world w_end.
  split; [|split; [|split; [|split]]].
  - intro r.
    destruct (TraceFacts.get_order_info_run id (world (r :: rest)))
      as (info & w' & E & Hc & Hn & Hb & Hr).
    exists info. rewrite E. f_equal.
    destruct w' as [rs' tr' t' b']. cbn in Hc, Hn, Hb, Hr. subst. reflexivity.
  - intro e. reflexivity.
  - intros d first others Hd.
    unfold get_order_info, try_except, bind, world. rewrite call_cons.
    destruct d as [|kv d]; [discriminate Hd|].
    cbn [truthy negb lift contains item]. rewrite Hd. reflexivity.
  - intros d Hd.
    unfold get_order_info, try_except, bind, world. rewrite call_cons.
    destruct d as [|kv d]; [reflexivity|].
    cbn [truthy negb lift contains item].
    destruct Hd as [Hd|Hd]; rewrite Hd; reflexivity.
  - reflexivity.
Qed.

(** X30: [cancel_order] makes exactly one call, never raises and leaves
    the bot as it is.  It reports success, with the answer itself, for an
    answer that carries ['data']; the failure "Failed to cancel order"
    for an empty answer or one without ['data']; and the exception as
    the failure when the call raises. *)
Theorem cancel_order_outcomes (id : pyval) (rest : list (outcome pyval))
  (tr : list Call) (t : Q) (b : BotState) :
  let world r := {| responses := r; calls := tr; now := t; bot := b |} in
  let w_end := {| responses := rest; calls := tr ++ [CancelOrder id];
                  now := t; bot := b |} in
  (forall r, exists res, cancel_order id (world (r :: rest)) = (Ret res, w_end)) /\
  (forall e,
     cancel_order id (world (Raise e :: rest)) =
     (Ret (CancelError (ErrException e)), w_end)) /\
  (forall d x,
     lookup "data" d = Some x ->
     cancel_order id (world (Ret (VDict d) :: rest)) =
     (Ret (CancelOk (VDict d)), w_end)) /\
  (forall d,
     lookup "data" d = None ->
     cancel_order id (world (Ret (VDict d) :: rest)) =
     (Ret (CancelError (ErrText "Failed to cancel order")), w_end)) /\
  cancel_order id (world (Ret VNone :: rest)) =
    (Ret (CancelError (ErrText "Failed to cancel order")), w_end).
Proof.
  intros world w_end.
  split; [|split; [|split; [|split]]].
  - intro r. unfold cancel_order, try_except, bind, world. rewrite call_cons.
    destruct r as [v|e]; [|eexists; reflexivity].
    unfold lift.
    destruct (if truthy v then contains "data" v else Ret false) as [has|e];
      [|eexists; reflexivity].
    destruct (negb (truthy v) || negb has); eexists; reflexivity.
  - intro e. reflexivity.
  - intros d x Hd.
    unfold cancel_order, try_except, bind, world. rewrite call_cons.
    destruct d as [|kv d]; [discriminate Hd|].
    cbn [truthy negb lift contains]. rewrite Hd. reflexivity.
  - intros d Hd.
    unfold cancel_order, try_except, bind, world. rewrite call_cons.
    destruct d as [|kv d]; [reflexivity|].
    cbn [truthy negb lift contains]. rewrite Hd. reflexivity.
  - reflexivity.
Qed.

End QueryFacts.

Lemma get_order_info_outcomes_witness :
  Bot.get_order_info (VStr "7")
    (Mock.world_of [Ret (Mock.order_payload [("id"%string, VStr "7")])] 0
       Mock.initial_bot) =
  (Ret (Some (VDict [("id"%string, VStr "7")])),
   {| Bot.responses := []; Bot.calls := [] ++ [Bot.GetOrderById (VStr "7")];
      Bot.now := 0; Bot.bot := Mock.initial_bot |}).
Proof.
  destruct (QueryFacts.get_order_info_outcomes (VStr "7") [] [] 0 Mock.initial_bot)
    as (_ & _ & H & _).
  apply (H _ (VDict [("id"%string, VStr "7")]) []). reflexivity.
Defined.

Lemma cancel_order_outcomes_witness :
  Bot.cancel_order (VStr "7")
    (Mock.world_of [Ret (Mock.created_payload "7")] 0 Mock.initial_bot) =
  (Ret (Bot.CancelOk (Mock.created_payload "7")),
   {| Bot.responses := []; Bot.calls := [] ++ [Bot.CancelOrder (VStr "7")];
      Bot.now := 0; Bot.bot := Mock.initial_bot |}).
Proof.
  destruct (QueryFacts.cancel_order_outcomes (VStr "7") [] [] 0 Mock.initial_bot)
    as (_ & _ & H & _).
  apply (H _ (VDict [("orderId"%string, VStr "7")])). reflexivity.
Defined.
